(** * A shallow embedding of [vcd/writer.py] (pyvcd)

    The writer is a single mutable object; it is modelled by a record
    [VCDWriter] that is threaded through every method by a small
    state-and-exception monad.  A raised exception keeps whatever state the
    method had reached, as in Python.  The output file is the list of the
    strings handed to [print], oldest first, together with the number of
    [flush()] calls; [print] writes each string followed by a newline, so
    a string that holds a newline makes several lines of the file, and
    [file_lines] gives the lines of the text.  Timestamps are integers, so
    that [int(timestamp)] is the timestamp itself; ['{:.16g}'.format] on a
    number is a parameter of the methods that reach the real encoder. *)

From Stdlib Require Import ZArith List String Ascii Bool Lia.
From Stdlib Require Import DecimalString DecimalZ DecimalPos.
From Stdlib Require Import Sorting.Permutation Sorting.Sorted.
From Stdlib Require Import Floats.SpecFloat.
Import ListNotations.

Local Open Scope string_scope.
Local Open Scope Z_scope.

(** List concatenation; [++] is kept for strings. *)
Infix "+++" := List.app (right associativity, at level 60).

(** ** Python built-ins used by the writer *)

Module Py.

(** [str(n)] for an [int]. *)
Definition str (n : Z) : string := NilZero.string_of_int (Z.to_int n).

(** [int(s)] on a decimal literal; [None] where Python raises. *)
Definition int_of (s : string) : option Z :=
  option_map Z.of_int (NilZero.int_of_string s).

(** ['{:b}'.format(n)]: binary digits, most significant first, no
    padding, a leading minus sign for a negative number. *)
Fixpoint bin_pos (p : positive) : string :=
  match p with
  | xH => "1"
  | xO q => bin_pos q ++ "0"
  | xI q => bin_pos q ++ "1"
  end.

Definition format_b (n : Z) : string :=
  match n with
  | Z0 => "0"
  | Zpos p => bin_pos p
  | Zneg p => "-" ++ bin_pos p
  end.

(** [s.startswith(p)]. *)
Definition startswith (s p : string) : bool := String.prefix p s.

(** [s.lstrip(' ')]. *)
Fixpoint lstrip_space (s : string) : string :=
  match s with
  | String " " s' => lstrip_space s'
  | _ => s
  end.

(** [x in l] for a list of strings. *)
Definition in_list (x : string) (l : list string) : bool :=
  existsb (String.eqb x) l.

(** [c in s] for a one-character string [c]. *)
Fixpoint char_in (c : ascii) (s : string) : bool :=
  match s with
  | EmptyString => false
  | String d s' => Ascii.eqb c d || char_in c s'
  end.

(** [s.split(sep)] for a non-empty separator: scan left to right, cut at
    every occurrence of [sep] and jump over it.  [skip] counts the
    characters of a matched separator still to jump over, [cur] is the
    current piece, reversed. *)
Fixpoint split_aux (sep : string) (skip : nat) (cur : list ascii)
         (s : string) : list string :=
  match skip with
  | S k =>
      match s with
      | String _ s' => split_aux sep k cur s'
      | EmptyString => [string_of_list_ascii (rev cur)]
      end
  | O =>
      match s with
      | EmptyString => [string_of_list_ascii (rev cur)]
      | String c s' =>
          if String.prefix sep s
          then string_of_list_ascii (rev cur)
                 :: split_aux sep (Nat.pred (String.length sep)) [] s'
          else split_aux sep O (c :: cur) s'
      end
  end.

(** [None] stands for the [ValueError] of an empty separator. *)
Definition split (s sep : string) : option (list string) :=
  match sep with
  | EmptyString => None
  | _ => Some (split_aux sep O [] s)
  end.

(** Lexicographic comparison of sequences, as Python compares strings
    (by code point) and tuples (element by element, a proper prefix
    first). *)
Section Lex.
Context {A : Type} (cmp : A -> A -> comparison).

Fixpoint lex (l1 l2 : list A) : comparison :=
  match l1, l2 with
  | [], [] => Eq
  | [], _ :: _ => Lt
  | _ :: _, [] => Gt
  | x :: l1', y :: l2' =>
      match cmp x y with
      | Eq => lex l1' l2'
      | c => c
      end
  end.
End Lex.

Definition cmp_char (a b : ascii) : comparison :=
  N.compare (N_of_ascii a) (N_of_ascii b).

Definition cmp_str (s1 s2 : string) : comparison :=
  lex cmp_char (list_ascii_of_string s1) (list_ascii_of_string s2).

Definition cmp_tuple (t1 t2 : list string) : comparison :=
  lex cmp_str t1 t2.

Definition cmp_item (p1 p2 : string * string) : comparison :=
  match cmp_str (fst p1) (fst p2) with
  | Eq => cmp_str (snd p1) (snd p2)
  | c => c
  end.

(** [sorted(l)]: a stable insertion sort. *)
Section Sorted.
Context {A : Type} (cmp : A -> A -> comparison).

Definition le (x y : A) : bool :=
  match cmp x y with Gt => false | _ => true end.

Fixpoint insert (x : A) (l : list A) : list A :=
  match l with
  | [] => [x]
  | y :: l' => if le x y then x :: l else y :: insert x l'
  end.

Fixpoint sorted (l : list A) : list A :=
  match l with
  | [] => []
  | x :: l' => insert x (sorted l')
  end.
End Sorted.

(** A [dict] (insertion ordered, as [OrderedDict]) as an association
    list without repeated keys. *)
Section Dict.
Context {K V : Type} (eqb : K -> K -> bool).

Fixpoint get (d : list (K * V)) (k : K) : option V :=
  match d with
  | [] => None
  | (k', v) :: d' => if eqb k k' then Some v else get d' k
  end.

(** [d[k] = v]: overwrite in place, or append a new key. *)
Fixpoint set (d : list (K * V)) (k : K) (v : V) : list (K * V) :=
  match d with
  | [] => [(k, v)]
  | (k', v') :: d' =>
      if eqb k k' then (k', v) :: d' else (k', v') :: set d' k v
  end.

(** [d.pop(k)]. *)
Fixpoint pop (d : list (K * V)) (k : K) : option (V * list (K * V)) :=
  match d with
  | [] => None
  | (k', v) :: d' =>
      if eqb k k' then Some (v, d')
      else match pop d' k with
           | Some (r, d'') => Some (r, (k', v) :: d'')
           | None => None
           end
  end.

Definition keys (d : list (K * V)) : list K := map fst d.
Definition values (d : list (K * V)) : list V := map snd d.
End Dict.

Fixpoint tuple_eqb (t1 t2 : list string) : bool :=
  match t1, t2 with
  | [], [] => true
  | x :: t1', y :: t2' => String.eqb x y && tuple_eqb t1' t2'
  | _, _ => false
  end.

End Py.

(** ** Values handed to [format_value] *)

(** The Python objects a caller may pass as a value: [None], a [bool], an
    [int], a [float], a [str]; an instance of [numbers.Number] that is
    none of these (a [Decimal], a [Fraction], a [complex], an instance of
    a class of the caller's), of which it matters whether its
    [__format__] takes the format spec [.16g] (that of [Decimal] and of
    [complex] does, [object.__format__] raises [TypeError] on it) and what
    its truth value is; or any other object, of which only the truth value
    matters. *)
Inductive pyvalue : Type :=
| PyNone
| PyBool (b : bool)
| PyInt (n : Z)
| PyFloat (f : spec_float)
| PyStr (s : string)
| PyObj (truth : bool)
| PyNumber (formats truth : bool).

(** [bool(value)]. *)
Definition truthy (v : pyvalue) : bool :=
  match v with
  | PyNone => false
  | PyBool b => b
  | PyInt n => negb (n =? 0)
  | PyFloat (S754_zero _) => false
  | PyFloat _ => true
  | PyStr s => negb (String.eqb s "")
  | PyObj t => t
  | PyNumber _ t => t
  end.

(** [isinstance(value, six.integer_types)]: [bool] is a subclass of
    [int]. *)
Definition as_integer (v : pyvalue) : option Z :=
  match v with
  | PyInt n => Some n
  | PyBool b => Some (Z.b2z b)
  | _ => None
  end.

(** [isinstance(value, Number)]. *)
Definition is_number (v : pyvalue) : bool :=
  match v with
  | PyInt _ | PyBool _ | PyFloat _ | PyNumber _ _ => true
  | _ => false
  end.

Inductive exn : Type :=
| VCDPhaseError
| ValueError
| TypeError
| KeyError
| IndexError
| AssertionError
| NotImplementedError
| OverflowError.

(** What ['{:.16g}'.format(value)] raises, for a number.  An [int] is
    converted to a [float] first, rounding to nearest, ties to even: the
    largest [float] is [2^1024 - 2^971], and an [int] that rounds beyond
    it raises [OverflowError].  A [__format__] that does not take the
    spec raises [TypeError].  A [bool] and a [float] are formatted. *)
Definition format_16g_raises (v : pyvalue) : option exn :=
  match v with
  | PyInt n =>
      if Z.abs n <? 2 ^ 1024 - 2 ^ 970 then None else Some OverflowError
  | PyNumber false _ => Some TypeError
  | _ => None
  end.

(** ** Variables and their encoders *)

Inductive var_class : Type :=
| BaseVariable
| ScalarVariable
| RealVariable
| VectorVariable.

(** The class [Variable] and its subclasses; [Variable] is a reserved word
    here, hence the name. *)
Record VarHandle : Type := mkVar {
  cls : var_class;
  ident : string;
  type : string;
  size : Z
}.

Module Scalar.
(** [ScalarVariable.format_value]. *)
Definition format_value (self : VarHandle) (value : pyvalue) : exn + string :=
  match value with
  | PyStr s =>
      match s with
      | String c EmptyString =>
          if Py.char_in c "01xzXZ" then inr (s ++ ident self)
          else inl ValueError
      | _ => inl ValueError
      end
  | PyNone => inr ("z" ++ ident self)
  | _ => if truthy value then inr ("1" ++ ident self)
         else inr ("0" ++ ident self)
  end.
End Scalar.

Module Vector.
(** [VectorVariable.format_value].  [1 << size] raises [ValueError] for
    a negative shift count. *)
Definition format_value (self : VarHandle) (value : pyvalue) : exn + string :=
  match as_integer value with
  | Some n =>
      if size self <? 0 then inl ValueError
      else
        let max_val := Z.shiftl 1 (size self) in
        if (Z.shiftr max_val 1 <? - n) || (max_val <=? n)
        then inl ValueError
        else
          let n' := if n <? 0 then n + max_val else n in
          inr ("b" ++ Py.format_b n' ++ " " ++ ident self)
  | None =>
      match value with
      | PyNone => inr ("bz " ++ ident self)
      | PyStr s =>
          if Z.of_nat (String.length s) <=? size self
          then inr ("b" ++ s ++ " " ++ ident self)
          else inl ValueError
      | _ => inl ValueError
      end
  end.
End Vector.

Module Real.
(** [RealVariable.format_value]; [format_16g] is ['{:.16g}'.format] where
    it returns. *)
Definition format_value (format_16g : pyvalue -> string)
           (self : VarHandle) (value : pyvalue) : exn + string :=
  if is_number value
  then
    match format_16g_raises value with
    | Some e => inl e
    | None => inr ("r" ++ format_16g value ++ " " ++ ident self)
    end
  else inl ValueError.
End Real.

(** [var.format_value(value)]: dispatch on the class of the handle. *)
Definition format_value (format_16g : pyvalue -> string)
           (var : VarHandle) (value : pyvalue) : exn + string :=
  match cls var with
  | BaseVariable => inl NotImplementedError
  | ScalarVariable => Scalar.format_value var value
  | RealVariable => Real.format_value format_16g var value
  | VectorVariable => Vector.format_value var value
  end.

(** ** The writer object *)

Definition scope_tuple : Type := list string.

(** The [scope] argument: a [str], a sequence of [str], or anything else. *)
Inductive pyscope : Type :=
| ScopeStr (s : string)
| ScopeSeq (l : list string)
| ScopeOther.

Record VCDWriter : Type := mkWriter {
  _ofile : list string;
  _ofile_flushes : nat;
  _header_keywords : list (string * string);
  _default_scope_type : string;
  _scope_sep : string;
  _registering : bool;
  _closed : bool;
  _dumping : bool;
  _next_var_id : Z;
  _scope_var_strs : list (scope_tuple * list string);
  _scope_var_names : list (scope_tuple * list string);
  _scope_types : list (scope_tuple * option string);
  _ident_values : list (string * string);
  _prev_timestamp : Z
}.

Definition SCOPE_TYPES : list string :=
  ["begin"; "fork"; "function"; "module"; "task"].

Definition VAR_TYPES : list string :=
  ["event"; "integer"; "parameter"; "real"; "realtime"; "reg";
   "supply0"; "supply1"; "time"; "tri"; "triand"; "trior";
   "trireg"; "tri0"; "tri1"; "wand"; "wire"; "wor"].

Definition TIMESCALE_NUMS : list Z := [1; 10; 100].

Definition TIMESCALE_UNITS : list string :=
  ["s"; "ms"; "us"; "ns"; "ps"; "fs"].

(** *** Field updates *)

Definition with_ofile (f : list string -> list string) (w : VCDWriter) :=
  mkWriter (f (_ofile w)) (_ofile_flushes w) (_header_keywords w)
    (_default_scope_type w) (_scope_sep w) (_registering w) (_closed w)
    (_dumping w) (_next_var_id w) (_scope_var_strs w) (_scope_var_names w)
    (_scope_types w) (_ident_values w) (_prev_timestamp w).

Definition with_ofile_flushes (f : nat -> nat) (w : VCDWriter) :=
  mkWriter (_ofile w) (f (_ofile_flushes w)) (_header_keywords w)
    (_default_scope_type w) (_scope_sep w) (_registering w) (_closed w)
    (_dumping w) (_next_var_id w) (_scope_var_strs w) (_scope_var_names w)
    (_scope_types w) (_ident_values w) (_prev_timestamp w).

Definition with_header_keywords (v : list (string * string)) (w : VCDWriter) :=
  mkWriter (_ofile w) (_ofile_flushes w) v
    (_default_scope_type w) (_scope_sep w) (_registering w) (_closed w)
    (_dumping w) (_next_var_id w) (_scope_var_strs w) (_scope_var_names w)
    (_scope_types w) (_ident_values w) (_prev_timestamp w).

Definition with_registering (v : bool) (w : VCDWriter) :=
  mkWriter (_ofile w) (_ofile_flushes w) (_header_keywords w)
    (_default_scope_type w) (_scope_sep w) v (_closed w)
    (_dumping w) (_next_var_id w) (_scope_var_strs w) (_scope_var_names w)
    (_scope_types w) (_ident_values w) (_prev_timestamp w).

Definition with_closed (v : bool) (w : VCDWriter) :=
  mkWriter (_ofile w) (_ofile_flushes w) (_header_keywords w)
    (_default_scope_type w) (_scope_sep w) (_registering w) v
    (_dumping w) (_next_var_id w) (_scope_var_strs w) (_scope_var_names w)
    (_scope_types w) (_ident_values w) (_prev_timestamp w).

Definition with_dumping (v : bool) (w : VCDWriter) :=
  mkWriter (_ofile w) (_ofile_flushes w) (_header_keywords w)
    (_default_scope_type w) (_scope_sep w) (_registering w) (_closed w)
    v (_next_var_id w) (_scope_var_strs w) (_scope_var_names w)
    (_scope_types w) (_ident_values w) (_prev_timestamp w).

Definition with_next_var_id (v : Z) (w : VCDWriter) :=
  mkWriter (_ofile w) (_ofile_flushes w) (_header_keywords w)
    (_default_scope_type w) (_scope_sep w) (_registering w) (_closed w)
    (_dumping w) v (_scope_var_strs w) (_scope_var_names w)
    (_scope_types w) (_ident_values w) (_prev_timestamp w).

Definition with_scope_var_strs (v : list (scope_tuple * list string))
           (w : VCDWriter) :=
  mkWriter (_ofile w) (_ofile_flushes w) (_header_keywords w)
    (_default_scope_type w) (_scope_sep w) (_registering w) (_closed w)
    (_dumping w) (_next_var_id w) v (_scope_var_names w)
    (_scope_types w) (_ident_values w) (_prev_timestamp w).

Definition with_scope_var_names (v : list (scope_tuple * list string))
           (w : VCDWriter) :=
  mkWriter (_ofile w) (_ofile_flushes w) (_header_keywords w)
    (_default_scope_type w) (_scope_sep w) (_registering w) (_closed w)
    (_dumping w) (_next_var_id w) (_scope_var_strs w) v
    (_scope_types w) (_ident_values w) (_prev_timestamp w).

Definition with_scope_types (v : list (scope_tuple * option string))
           (w : VCDWriter) :=
  mkWriter (_ofile w) (_ofile_flushes w) (_header_keywords w)
    (_default_scope_type w) (_scope_sep w) (_registering w) (_closed w)
    (_dumping w) (_next_var_id w) (_scope_var_strs w) (_scope_var_names w)
    v (_ident_values w) (_prev_timestamp w).

Definition with_ident_values (v : list (string * string)) (w : VCDWriter) :=
  mkWriter (_ofile w) (_ofile_flushes w) (_header_keywords w)
    (_default_scope_type w) (_scope_sep w) (_registering w) (_closed w)
    (_dumping w) (_next_var_id w) (_scope_var_strs w) (_scope_var_names w)
    (_scope_types w) v (_prev_timestamp w).

Definition with_prev_timestamp (v : Z) (w : VCDWriter) :=
  mkWriter (_ofile w) (_ofile_flushes w) (_header_keywords w)
    (_default_scope_type w) (_scope_sep w) (_registering w) (_closed w)
    (_dumping w) (_next_var_id w) (_scope_var_strs w) (_scope_var_names w)
    (_scope_types w) (_ident_values w) v.

(** *** Methods run in a state monad with exceptions *)

Definition M (A : Type) : Type := VCDWriter -> (exn + A) * VCDWriter.

Definition ret {A} (x : A) : M A := fun w => (inr x, w).
Definition raise {A} (e : exn) : M A := fun w => (inl e, w).
Definition bind {A B} (m : M A) (k : A -> M B) : M B :=
  fun w =>
    match m w with
    | (inr x, w') => k x w'
    | (inl e, w') => (inl e, w')
    end.
Definition gets {A} (f : VCDWriter -> A) : M A := fun w => (inr (f w), w).
Definition modify (f : VCDWriter -> VCDWriter) : M unit :=
  fun w => (inr tt, f w).
Definition lift {A} (r : exn + A) : M A := fun w => (r, w).
Definition when (b : bool) (m : M unit) : M unit := if b then m else ret tt.

Declare Scope writer_scope.
Delimit Scope writer_scope with writer.
Notation "x <- m ;; k" := (bind m (fun x => k))
  (at level 61, m at next level, right associativity) : writer_scope.
Notation "m ;; k" := (bind m (fun _ => k))
  (at level 61, right associativity) : writer_scope.
Local Open Scope writer_scope.

(** [print(line, file=self._ofile)]: the string is written, then a
    newline; [_ofile] keeps the string as it was handed over. *)
Definition print (line : string) : M unit :=
  modify (with_ofile (fun out => out +++ [line])).

(** [print] of an unpacked sequence with [sep='\n']: every item is
    followed by a newline; with no item at all a newline is written all
    the same. *)
Definition print_star (lines : list string) : M unit :=
  modify (with_ofile (fun out =>
            out +++ match lines with [] => [""] | _ => lines end)).

(** *** Construction *)

(** The [for num in sorted(TIMESCALE_NUMS, reverse=True)] loop: the unit of
    the first number the timescale starts with. *)
Fixpoint timescale_unit (nums : list Z) (timescale : string) : option string :=
  match nums with
  | [] => None
  | num :: rest =>
      let num_str := Py.str num in
      if Py.startswith timescale num_str
      then Some (Py.lstrip_space
                   (String.substring (String.length num_str)
                      (String.length timescale - String.length num_str)
                      timescale))
      else timescale_unit rest timescale
  end.

(** [VCDWriter._check_timescale]. *)
Definition _check_timescale (timescale : string) : exn + unit :=
  match timescale_unit (rev (Py.sorted Z.compare TIMESCALE_NUMS)) timescale with
  | None => inl ValueError
  | Some unit =>
      if Py.in_list unit TIMESCALE_UNITS then inr tt else inl ValueError
  end.

(** [VCDWriter.__init__]; [now] is [str(datetime.datetime.now())]. *)
Definition VCDWriter_init (now : string) (timescale : string)
           (date : option string) (comment version : string)
           (default_scope_type scope_sep : string) : exn + VCDWriter :=
  match _check_timescale timescale with
  | inl e => inl e
  | inr _ =>
      if negb (Py.in_list default_scope_type SCOPE_TYPES) then inl ValueError
      else inr {|
        _ofile := [];
        _ofile_flushes := 0;
        _header_keywords :=
          [("$timescale", timescale);
           ("$date", match date with None => now | Some d => d end);
           ("$comment", comment);
           ("$version", version)];
        _default_scope_type := default_scope_type;
        _scope_sep := scope_sep;
        _registering := true;
        _closed := false;
        _dumping := true;
        _next_var_id := 0;
        _scope_var_strs := [];
        _scope_var_names := [];
        _scope_types := [];
        _ident_values := [];
        _prev_timestamp := 0 |}
  end.

(** [VCDWriter._get_scope_tuple]. *)
Definition _get_scope_tuple (scope : pyscope) : M scope_tuple :=
  match scope with
  | ScopeStr s =>
      sep <- gets _scope_sep ;;
      match Py.split s sep with
      | Some t => ret t
      | None => raise ValueError
      end
  | ScopeSeq l => ret l
  | ScopeOther => raise TypeError
  end.

(** [VCDWriter.set_scope_type]. *)
Definition set_scope_type (scope : pyscope) (scope_type : option string)
  : M unit :=
  match scope_type with
  | Some t => when (negb (Py.in_list t SCOPE_TYPES)) (raise ValueError)
  | None => ret tt
  end ;;
  scope_tuple <- _get_scope_tuple scope ;;
  types <- gets _scope_types ;;
  modify (with_scope_types (Py.set Py.tuple_eqb types scope_tuple scope_type)).

(** *** Header generation *)

(** The lines of one header keyword. *)
Definition keyword_lines (kw : string * string) : list string :=
  let (kwname, kwvalue) := kw in
  if String.eqb kwvalue "" then []
  else
    match Py.split kwvalue (String "010" EmptyString) with
    | Some [line] => [kwname ++ " " ++ line ++ " $end"]
    | Some lines =>
        [kwname] +++ map (fun line => String "009" line) lines +++ ["$end"]
    | None => []
    end.

(** The index of the first position at which [zip_longest(prev, this)]
    holds two different things; the fill value [None] differs from every
    segment. *)
Fixpoint first_diff (i : nat) (prev this : list string) : option nat :=
  match prev, this with
  | [], [] => None
  | p :: prev', t :: this' =>
      if String.eqb p t then first_diff (S i) prev' this' else Some i
  | _, _ => Some i
  end.

(** ['{}'.format(scope_type)] for what [dict.get] returned. *)
Definition show_scope_type (t : option string) : string :=
  match t with
  | Some s => s
  | None => "None"
  end.

(** [enumerate(l)]. *)
Definition enumerate {A} (l : list A) : list (nat * A) :=
  combine (seq 0 (List.length l)) l.

(** What the body of the [if prev != this] branch yields. *)
Definition scope_switch_lines (types : list (scope_tuple * option string))
           (default : string) (prev_scope scope : scope_tuple) (i : nat)
  : list string :=
  map (fun _ => "$upscope $end") (skipn i prev_scope)
  +++ map (fun jn : nat * string =>
             let (j, name) := jn in
             let scope_type :=
               match Py.get Py.tuple_eqb types (firstn (i + j + 1) scope) with
               | Some t => t
               | None => Some default
               end in
             "$scope " ++ show_scope_type scope_type ++ " " ++ name ++ " $end")
        (enumerate (skipn i scope)).

(** The loop over [sorted(self._scope_var_strs)].  [prev_scope] is [None]
    while it still is the initial empty list, which no tuple equals.  Every
    visited scope is popped from the dictionary [strs]; the lines come
    back together with what is left of it. *)
Fixpoint scope_loop (types : list (scope_tuple * option string))
         (default : string) (scopes : list scope_tuple)
         (prev_scope : option scope_tuple)
         (strs : list (scope_tuple * list string))
  : (exn + list string) * list (scope_tuple * list string) :=
  match scopes with
  | [] =>
      (inr (map (fun _ => "$upscope $end")
              (match prev_scope with Some p => p | None => [] end)
            +++ ["$enddefinitions $end"]), strs)
  | scope :: rest =>
      match Py.pop Py.tuple_eqb strs scope with
      | None => (inl KeyError, strs)
      | Some (var_strs, strs') =>
          let prev := match prev_scope with Some p => p | None => [] end in
          match first_diff 0 prev scope, prev_scope with
          | None, Some _ => (inl AssertionError, strs')
          | d, _ =>
              let switch :=
                match d with
                | Some i => scope_switch_lines types default prev scope i
                | None => []
                end in
              match scope_loop types default rest (Some scope) strs' with
              | (inr lines, strs'') =>
                  (inr (switch +++ var_strs +++ lines), strs'')
              | (inl e, strs'') => (inl e, strs'')
              end
          end
      end
  end.

(** [list(self._gen_header())]: the generator is run to its end before
    anything is printed. *)
Definition _gen_header : M (list string) :=
  kws <- gets _header_keywords ;;
  let kw_lines := flat_map keyword_lines (Py.sorted Py.cmp_item kws) in
  types <- gets _scope_types ;;
  default <- gets _default_scope_type ;;
  strs <- gets _scope_var_strs ;;
  let (r, strs') :=
    scope_loop types default (Py.sorted Py.cmp_tuple (Py.keys strs)) None strs in
  modify (with_scope_var_strs strs') ;;
  lines <- lift r ;;
  ret (kw_lines +++ lines).

(** *** Dump blocks *)

(** [VCDWriter._dump_values]. *)
Definition _dump_values (keyword : string) : M unit :=
  print keyword ;;
  values <- gets _ident_values ;;
  print_star (Py.values values) ;;
  print "$end".

(** The [for] loop of [_dump_off]; [val_str[0]] raises [IndexError] on an
    empty string. *)
Fixpoint _dump_off_loop (items : list (string * string)) : M unit :=
  match items with
  | [] => ret tt
  | (ident, val_str) :: rest =>
      match val_str with
      | EmptyString => raise IndexError
      | String c _ =>
          (if Ascii.eqb c "b" then print ("bx " ++ ident)
           else if Ascii.eqb c "r" then ret tt
           else print ("x" ++ ident)) ;;
          _dump_off_loop rest
      end
  end.

(** [VCDWriter._dump_off]. *)
Definition _dump_off (timestamp : Z) : M unit :=
  print ("#" ++ Py.str timestamp) ;;
  print "$dumpoff" ;;
  items <- gets _ident_values ;;
  _dump_off_loop items ;;
  print "$end".

(** The truth value of a container. *)
Definition nonempty {A} (l : list A) : bool :=
  match l with [] => false | _ => true end.

(** [VCDWriter._finalize_registration]. *)
Definition _finalize_registration : M unit :=
  registering <- gets _registering ;;
  when (negb registering) (raise AssertionError) ;;
  header <- _gen_header ;;
  print_star header ;;
  values <- gets _ident_values ;;
  when (nonempty values)
    (_dump_values "$dumpvars" ;;
     dumping <- gets _dumping ;;
     when (negb dumping) (_dump_off 0)) ;;
  modify (with_registering false) ;;
  modify (with_header_keywords []) ;;
  modify (with_scope_types []) ;;
  modify (with_scope_var_names []).

(** [VCDWriter.dump_off]. *)
Definition dump_off (timestamp : Z) : M unit :=
  dumping <- gets _dumping ;;
  registering <- gets _registering ;;
  values <- gets _ident_values ;;
  when (dumping && negb registering && nonempty values) (_dump_off timestamp) ;;
  modify (with_dumping false).

(** [VCDWriter.dump_on]. *)
Definition dump_on (timestamp : Z) : M unit :=
  dumping <- gets _dumping ;;
  registering <- gets _registering ;;
  values <- gets _ident_values ;;
  when (negb dumping && negb registering && nonempty values)
    (print ("#" ++ Py.str timestamp) ;;
     _dump_values "$dumpon") ;;
  modify (with_dumping true).

(** [VCDWriter.flush]. *)
Definition flush (timestamp : option Z) : M unit :=
  closed <- gets _closed ;;
  when closed (raise VCDPhaseError) ;;
  registering <- gets _registering ;;
  when registering _finalize_registration ;;
  prev <- gets _prev_timestamp ;;
  match timestamp with
  | Some t => when (prev <? t) (print ("#" ++ Py.str t))
  | None => ret tt
  end ;;
  modify (with_ofile_flushes S).

(** [VCDWriter.close]. *)
Definition close (timestamp : option Z) : M unit :=
  closed <- gets _closed ;;
  when (negb closed)
    (flush timestamp ;;
     modify (with_closed true)).

Section Writer.

(** ['{:.16g}'.format(value)] for a number: Python's float formatting is
    taken as given. *)
Variable format_16g : pyvalue -> string.

Definition change (var : VarHandle) (timestamp : Z) (value : pyvalue)
  : M unit :=
  prev <- gets _prev_timestamp ;;
  closed <- gets _closed ;;
  if timestamp <? prev then raise VCDPhaseError
  else if closed then raise VCDPhaseError
  else
    val_str <- lift (format_value format_16g var value) ;;
    registering <- gets _registering ;;
    when (negb (timestamp =? 0) && registering) _finalize_registration ;;
    dumping <- gets _dumping ;;
    if negb (timestamp =? 0) && dumping then
      let ts_int := timestamp in
      prev <- gets _prev_timestamp ;;
      when (prev <? ts_int)
        (print ("#" ++ Py.str ts_int) ;;
         modify (with_prev_timestamp ts_int)) ;;
      print val_str
    else
      values <- gets _ident_values ;;
      modify (with_ident_values (Py.set String.eqb values (ident var) val_str)).

(** [d.setdefault(k, [])]. *)
Definition setdefault (d : list (scope_tuple * list string)) (k : scope_tuple)
  : list string * list (scope_tuple * list string) :=
  match Py.get Py.tuple_eqb d k with
  | Some v => (v, d)
  | None => ([], Py.set Py.tuple_eqb d k [])
  end.

(** [d[k].append(x)] on the list object stored under [k]. *)
Definition append_at (d : list (scope_tuple * list string)) (k : scope_tuple)
           (x : string) : list (scope_tuple * list string) :=
  match Py.get Py.tuple_eqb d k with
  | Some v => Py.set Py.tuple_eqb d k (v +++ [x])
  | None => d
  end.

(** [VCDWriter.register_var]. *)
Definition register_var (scope : pyscope) (name var_type : string) (size : Z)
           (init : pyvalue) (ident : option string) : M VarHandle :=
  closed <- gets _closed ;;
  registering <- gets _registering ;;
  if closed then raise VCDPhaseError
  else if negb registering then raise VCDPhaseError
  else if negb (Py.in_list var_type VAR_TYPES) then raise ValueError
  else
    scope_tuple <- _get_scope_tuple scope ;;
    names <- gets _scope_var_names ;;
    let (scope_names, names') := setdefault names scope_tuple in
    modify (with_scope_var_names names') ;;
    if Py.in_list name scope_names then raise KeyError
    else
      next <- gets _next_var_id ;;
      let ident :=
        match ident with
        | None => "v" ++ Py.str next
        | Some i => i
        end in
      let var_str :=
        "$var " ++ var_type ++ " " ++ Py.str size ++ " " ++ ident ++ " "
                ++ name ++ " $end" in
      let init :=
        match init with
        | PyNone =>
            if String.eqb var_type "real" then PyFloat (S754_zero false)
            else PyStr "x"
        | _ => init
        end in
      let var :=
        if size =? 1 then mkVar ScalarVariable ident var_type size
        else if String.eqb var_type "real"
             then mkVar RealVariable ident var_type size
             else mkVar VectorVariable ident var_type size in
      change var 0 init ;;
      next <- gets _next_var_id ;;
      modify (with_next_var_id (next + 1)) ;;
      strs <- gets _scope_var_strs ;;
      modify (with_scope_var_strs
                (append_at (snd (setdefault strs scope_tuple)) scope_tuple var_str)) ;;
      names <- gets _scope_var_names ;;
      modify (with_scope_var_names (append_at names scope_tuple name)) ;;
      ret var.

(** [VCDWriter.register_int]. *)
Definition register_int (scope : pyscope) (name : string) (size : Z)
           (init : pyvalue) (ident : option string) : M VarHandle :=
  register_var scope name "integer" size init ident.

(** [VCDWriter.register_real]: the call passes [ident=None]. *)
Definition register_real (scope : pyscope) (name : string) (size : Z)
           (init : pyvalue) (ident : option string) : M VarHandle :=
  register_var scope name "real" size init None.

(** [VCDWriter.register_event]. *)
Definition register_event (scope : pyscope) (name : string) (size : Z)
           (init : pyvalue) (ident : option string) : M VarHandle :=
  register_var scope name "event" size init ident.

End Writer.

(** ** Call sequences *)

(** One call of a public method, with its arguments. *)
Inductive call : Type :=
| SetScopeType (scope : pyscope) (scope_type : option string)
| RegisterVar (scope : pyscope) (name var_type : string) (size : Z)
              (init : pyvalue) (ident : option string)
| RegisterInt (scope : pyscope) (name : string) (size : Z)
              (init : pyvalue) (ident : option string)
| RegisterReal (scope : pyscope) (name : string) (size : Z)
               (init : pyvalue) (ident : option string)
| RegisterEvent (scope : pyscope) (name : string) (size : Z)
                (init : pyvalue) (ident : option string)
| Change (var : VarHandle) (timestamp : Z) (value : pyvalue)
| DumpOff (timestamp : Z)
| DumpOn (timestamp : Z)
| Flush (timestamp : option Z)
| Close (timestamp : option Z).

(** The timestamp a call carries, if any. *)
Definition call_timestamp (c : call) : list Z :=
  match c with
  | Change _ t _ | DumpOff t | DumpOn t => [t]
  | Flush (Some t) | Close (Some t) => [t]
  | _ => []
  end.

Definition timestamps (cs : list call) : list Z := flat_map call_timestamp cs.

Section Run.

Variable format_16g : pyvalue -> string.

(** The writer after one call; a caller that catches an exception goes
    on with the object as the failed call left it. *)
Definition exec (c : call) (w : VCDWriter) : VCDWriter :=
  match c with
  | SetScopeType s t => snd (set_scope_type s t w)
  | RegisterVar s n vt sz i id => snd (register_var format_16g s n vt sz i id w)
  | RegisterInt s n sz i id => snd (register_int format_16g s n sz i id w)
  | RegisterReal s n sz i id => snd (register_real format_16g s n sz i id w)
  | RegisterEvent s n sz i id => snd (register_event format_16g s n sz i id w)
  | Change v t x => snd (change format_16g v t x w)
  | DumpOff t => snd (dump_off t w)
  | DumpOn t => snd (dump_on t w)
  | Flush t => snd (flush t w)
  | Close t => snd (close t w)
  end.

Definition run (cs : list call) (w : VCDWriter) : VCDWriter :=
  fold_left (fun w c => exec c w) cs w.

End Run.

(** ** Reading the output back *)

Definition newline : ascii := "010"%char.

(** The text in the file: every string handed to [print], followed by a
    newline. *)
Fixpoint file_text (out : list string) : string :=
  match out with
  | [] => EmptyString
  | s :: rest => s ++ String newline (file_text rest)
  end.

(** The lines of a text; [cur] is the line being read. *)
Fixpoint text_lines (cur : string) (text : string) : list string :=
  match text with
  | EmptyString =>
      match cur with
      | EmptyString => []
      | _ => [cur]
      end
  | String c rest =>
      if Ascii.eqb c newline then cur :: text_lines EmptyString rest
      else text_lines (cur ++ String c EmptyString) rest
  end.

(** The lines of the file. *)
Definition file_lines (out : list string) : list string :=
  text_lines EmptyString (file_text out).

(** Whether a string holds no newline. *)
Definition one_line (s : string) : bool := negb (Py.char_in newline s).

(** The integer of a timestamp marker line [#<integer>]. *)
Definition marker_of (line : string) : list Z :=
  match line with
  | String "#" rest =>
      match Py.int_of rest with
      | Some t => [t]
      | None => []
      end
  | _ => []
  end.

(** The integers of the marker lines among [lines], in order. *)
Definition markers (lines : list string) : list Z := flat_map marker_of lines.

(** Decoding of a vector value-change line, as a reader of the stream
    does it: the binary digits stand between the leading [b] and the
    space before the ident. *)
Definition bit_of (c : ascii) : option Z :=
  if Ascii.eqb c "0" then Some 0
  else if Ascii.eqb c "1" then Some 1
  else None.

Fixpoint decode_bits (acc : Z) (s : string) : option Z :=
  match s with
  | EmptyString => Some acc
  | String c s' =>
      match bit_of c with
      | Some b => decode_bits (2 * acc + b) s'
      | None => None
      end
  end.

Definition decode_unsigned (digits : string) : option Z :=
  match digits with
  | EmptyString => None
  | _ => decode_bits 0 digits
  end.

(** The digits read as a two's-complement number of width [n]. *)
Definition decode_twos_complement (n : Z) (digits : string) : option Z :=
  match decode_unsigned digits with
  | Some u => Some (if 2 ^ (n - 1) <=? u then u - 2 ^ n else u)
  | None => None
  end.

Fixpoint until_space (s : string) : string :=
  match s with
  | EmptyString => EmptyString
  | String c s' => if Ascii.eqb c " " then EmptyString else String c (until_space s')
  end.

(** Whether a string holds binary digits only. *)
Fixpoint only_bits (s : string) : bool :=
  match s with
  | EmptyString => true
  | String c s' => (Ascii.eqb c "0" || Ascii.eqb c "1") && only_bits s'
  end.

Definition vector_digits (line : string) : option string :=
  match line with
  | String "b" rest => Some (until_space rest)
  | _ => None
  end.

(** A writer as [VCDWriter(file, timescale='1 us', date='today')] builds
    it, used to run examples. *)
Definition new_writer : VCDWriter := {|
  _ofile := [];
  _ofile_flushes := 0;
  _header_keywords :=
    [("$timescale", "1 us"); ("$date", "today"); ("$comment", "");
     ("$version", "")];
  _default_scope_type := "module";
  _scope_sep := ".";
  _registering := true;
  _closed := false;
  _dumping := true;
  _next_var_id := 0;
  _scope_var_strs := [];
  _scope_var_names := [];
  _scope_types := [];
  _ident_values := [];
  _prev_timestamp := 0 |}.

(** An instance of the formatting parameter for running examples: exact
    on integers that a double holds exactly and print in at most sixteen
    digits, ["0"] for the float zero. *)
Definition format_16g_sample (v : pyvalue) : string :=
  match as_integer v with
  | Some n => Py.str n
  | None => "0"
  end.


(** Reading a vector line back. *)
Definition decode_vector_line (n : Z) (line : string) : option Z :=
  match vector_digits line with
  | Some digits => decode_twos_complement n digits
  | None => None
  end.


(** The nine inputs the spec lists as valid for a scalar. *)
Definition scalar_inputs : list pyvalue :=
  [PyInt 0; PyInt 1; PyStr "x"; PyStr "z"; PyStr "X"; PyStr "Z";
   PyBool true; PyBool false; PyNone].

(** The state character of a valid scalar input: a string gives its own
    character, [None] gives [z], anything else its truth value. *)
Definition scalar_state (value : pyvalue) : ascii :=
  match value with
  | PyStr (String c _) => c
  | PyNone => "z"
  | _ => if truthy value then "1" else "0"
  end.


(** ** Reasoning about methods *)

(** [wp m Q E w]: run from [w], the method [m] either returns [x] in a
    state satisfying [Q x], or raises in a state satisfying [E]. *)
Definition wp {A} (m : M A) (Q : A -> VCDWriter -> Prop)
           (E : VCDWriter -> Prop) (w : VCDWriter) : Prop :=
  match m w with
  | (inr x, w') => Q x w'
  | (inl _, w') => E w'
  end.

(** A line that is not a timestamp marker. *)
Definition plain (line : string) : Prop := marker_of line = [].

(** The timestamps that may be written as a marker without the cursor
    taking them: those of [dump_off], [dump_on], [flush] and [close]. *)
Definition unrecorded_timestamp (c : call) : list Z :=
  match c with
  | DumpOff t | DumpOn t => [t]
  | Flush (Some t) | Close (Some t) => [t]
  | _ => []
  end.

Definition unrecorded_timestamps (cs : list call) : list Z :=
  flat_map unrecorded_timestamp cs.

(** The largest of the numbers of a list, and 0. *)
Definition hi (l : list Z) : Z := fold_right Z.max 0 l.

(** What is left to the caller, [before] being the calls made so far.
    [dump_off] and [dump_on] write their timestamp as it is: it is not
    negative and not below any timestamp passed before.  [change],
    [flush] and [close] compare theirs with the cursor themselves, but
    the cursor knows only the markers of [change]: a timestamp above 0
    passed to one of them is not below any timestamp passed before to
    [dump_off], [dump_on], [flush] or [close]. *)
Fixpoint caller_keeps_order (before cs : list call) : Prop :=
  match cs with
  | [] => True
  | c :: rest =>
      match c with
      | DumpOff t | DumpOn t =>
          0 <= t /\ Forall (fun t' => t' <= t) (timestamps before)
      | Change _ t _ | Flush (Some t) | Close (Some t) =>
          0 < t -> Forall (fun t' => t' <= t) (unrecorded_timestamps before)
      | _ => True
      end
      /\ caller_keeps_order (before +++ [c]) rest
  end.

(** Whether the strings of a call hold no newline: the scope, the name,
    the ident and a string value.  [register_real] does not use its
    ident. *)
Definition clean_value (v : pyvalue) : bool :=
  match v with
  | PyStr s => one_line s
  | _ => true
  end.

Definition clean_scope (scope : pyscope) : bool :=
  match scope with
  | ScopeStr s => one_line s
  | ScopeSeq l => forallb one_line l
  | ScopeOther => true
  end.

Definition clean_ident (ident : option string) : bool :=
  match ident with
  | Some i => one_line i
  | None => true
  end.

Definition clean_call (c : call) : bool :=
  match c with
  | RegisterVar scope name _ _ init ident
  | RegisterInt scope name _ init ident
  | RegisterEvent scope name _ init ident =>
      clean_scope scope && one_line name && clean_value init
      && clean_ident ident
  | RegisterReal scope name _ init _ =>
      clean_scope scope && one_line name && clean_value init
  | Change var _ value => one_line (ident var) && clean_value value
  | SetScopeType _ _ | DumpOff _ | DumpOn _ | Flush _ | Close _ => true
  end.

(** What the writer keeps when no call brings a newline in: no string it
    has written, cached or staged holds one. *)
Record clean (w : VCDWriter) : Prop := {
  c_out : Forall (fun l => one_line l = true) (_ofile w);
  c_cache : Forall (fun kv => one_line (fst kv) = true
                              /\ one_line (snd kv) = true)
              (_ident_values w);
  c_strs : Forall (fun kv => Forall (fun l => one_line l = true) (fst kv)
                             /\ Forall (fun l => one_line l = true) (snd kv))
             (_scope_var_strs w);
  c_types : Forall (fun kv => one_line (show_scope_type (snd kv)) = true)
              (_scope_types w);
  c_default : one_line (_default_scope_type w) = true;
  c_kws : Forall (fun kv => one_line (fst kv) = true) (_header_keywords w)
}.

(** What the writer maintains about markers, [a] being at least every
    timestamp passed so far and [u] at least every one the cursor may
    have missed: the strings it keeps for
    later are no markers, the markers written so far are non-decreasing
    and at most the larger of [u] and the cursor, the cursor is at most
    [a], and no marker above 0 is written while registration is open. *)
Record markers_ok (a u : Z) (w : VCDWriter) : Prop := {
  ok_cache : Forall (fun kv => plain (snd kv)) (_ident_values w);
  ok_strs : Forall (fun kv => Forall plain (snd kv)) (_scope_var_strs w);
  ok_kws : Forall (fun kv => exists s, fst kv = String "$" s)
             (_header_keywords w);
  ok_sorted : StronglySorted Z.le (markers (_ofile w));
  ok_bound : Forall (fun m => m <= Z.max u (_prev_timestamp w))
               (markers (_ofile w));
  ok_cursor : 0 <= _prev_timestamp w <= a;
  ok_unrecorded : 0 <= u <= a;
  ok_registering :
    _registering w = true -> Forall (fun m => m <= 0) (markers (_ofile w))
}.

(** ** Orders and the scope example of the spec *)

(** What [sorted] relies on: a three-way comparison of a total order. *)
Record total_order {A : Type} (cmp : A -> A -> comparison) : Prop := {
  cmp_eq : forall x y, cmp x y = Eq -> x = y;
  cmp_refl : forall x, cmp x x = Eq;
  cmp_antisym : forall x y, cmp x y = CompOpp (cmp y x);
  cmp_trans : forall x y z, cmp x y = Lt -> cmp y z = Lt -> cmp x z = Lt
}.

(** The order [sorted] puts its output in. *)
Definition le_of {A : Type} (cmp : A -> A -> comparison) (x y : A) : Prop :=
  Py.le cmp x y = true.

(** The four scope paths of the spec's example, each with the [$var]
    lines registered under it. *)
Definition abc_paths (va vab vac vb : list string)
  : list (scope_tuple * list string) :=
  [(["a"], va); (["a"; "b"], vab); (["a"; "c"], vac); (["b"], vb)].

(** The tag [_gen_header] prints for a scope path. *)
Definition scope_tag (w : VCDWriter) (path : scope_tuple) : string :=
  show_scope_type
    match Py.get Py.tuple_eqb (_scope_types w) path with
    | Some t => t
    | None => Some (_default_scope_type w)
    end.

(** All the orders in which a list can be arranged. *)
Fixpoint interleave {A} (x : A) (l : list A) : list (list A) :=
  match l with
  | [] => [[x]]
  | y :: l' => (x :: l) :: map (cons y) (interleave x l')
  end.

Fixpoint orders {A} (l : list A) : list (list A) :=
  match l with
  | [] => [[]]
  | x :: l' => flat_map (interleave x) (orders l')
  end.

(** The spec's example through the public methods: one 1-bit wire per
    scope path, registered in the given order, then [flush()]. *)
Definition abc_registrations : list (string * string) :=
  [("a", "s"); ("a.b", "t"); ("a.c", "r"); ("b", "q")].

Definition abc_calls (order : list (string * string)) : list call :=
  map (fun sn => RegisterVar (ScopeStr (fst sn)) (snd sn) "wire" 1 PyNone None)
      order
  +++ [Flush None].

(** The [$var] line of the wire [name]: its ident counts the
    registrations before it. *)
Fixpoint position (name : string) (order : list (string * string)) : Z :=
  match order with
  | [] => 0
  | sn :: rest => if String.eqb (snd sn) name then 0 else 1 + position name rest
  end.

Definition abc_var (order : list (string * string)) (name : string) : string :=
  "$var wire 1 v" ++ Py.str (position name order) ++ " " ++ name ++ " $end".

Definition abc_output (order : list (string * string)) : list string :=
  ["$date today $end"; "$timescale 1 us $end";
   "$scope module a $end"; abc_var order "s";
   "$scope module b $end"; abc_var order "t";
   "$upscope $end";
   "$scope module c $end"; abc_var order "r";
   "$upscope $end"; "$upscope $end";
   "$scope module b $end"; abc_var order "q";
   "$upscope $end"; "$enddefinitions $end";
   "$dumpvars"; "xv0"; "xv1"; "xv2"; "xv3"; "$end"].


(** ** Further notions used to state what the writer keeps *)

(** [wpx m Q E w]: as [wp], with a postcondition on the exception that
    also sees which exception it is. *)
Definition wpx {A} (m : M A) (Q : A -> VCDWriter -> Prop)
           (E : exn -> VCDWriter -> Prop) (w : VCDWriter) : Prop :=
  match m w with
  | (inr x, w') => Q x w'
  | (inl e, w') => E e w'
  end.

(** The keys [__init__] puts in [_header_keywords]. *)
Definition HEADER_KEYWORDS : list string :=
  ["$timescale"; "$date"; "$comment"; "$version"].

(** A line that starts as a [$var] declaration. *)
Definition var_line (line : string) : Prop := String.prefix "$var " line = true.

(** [k] spaces. *)
Fixpoint spaces (k : nat) : string :=
  match k with
  | O => EmptyString
  | S k' => String " " (spaces k')
  end.

(** How a header line moves the scope depth: [$scope ...] opens one
    level, [$upscope $end] closes one, any other line leaves it. *)
Definition scope_delta (line : string) : Z :=
  if String.prefix "$scope " line then 1
  else if String.eqb line "$upscope $end" then -1
  else 0.

(** The depth after a run of lines, [None] as soon as a level is closed
    that was never opened. *)
Fixpoint nesting (depth : Z) (lines : list string) : option Z :=
  match lines with
  | [] => Some depth
  | line :: rest =>
      let d := depth + scope_delta line in
      if d <? 0 then None else nesting d rest
  end.

(** A line as the encoders make it: not empty, and starting neither as a
    keyword nor as a marker. *)
Definition value_line (line : string) : Prop :=
  exists c rest, line = String c rest /\ c <> "$"%char /\ c <> "#"%char.

(** A line that neither moves the scope depth, nor ends the
    declarations, nor declares a variable. *)
Definition ordinary (line : string) : Prop :=
  scope_delta line = 0 /\ line <> "$enddefinitions $end"
  /\ String.prefix "$var " line = false.

(** The [$var] lines among [lines], in order. *)
Definition var_lines (lines : list string) : list string :=
  filter (String.prefix "$var ") lines.

(** How many of [lines] end the declarations. *)
Definition enddefinitions (lines : list string) : nat :=
  count_occ string_dec lines "$enddefinitions $end".

(** The writer after [_finalize_registration] has written [lines]. *)
Definition finalized (lines : list string) (w : VCDWriter) : VCDWriter :=
  with_scope_var_names []
    (with_scope_types []
       (with_header_keywords []
          (with_registering false
             (with_ofile (fun out => out +++ lines)
                (with_scope_var_strs [] w))))).

(** What every call keeps, between a state [w0] and a later state [w]:
    the output only grows, the phase only moves forward, the cursor and
    the ident counter only rise, the configuration stays; and, of [w]
    alone: the dictionaries hold each key once, cached values are lines of
    the encoders, staged lines are [$var] lines, the scopes in the output
    are nested, a writer still registering has written nothing and has its
    cursor at 0, a closed writer has left registration, and a writer that
    has left registration has ended the declarations once and given up
    its registry; and no [$var] line is written after registration.
    What is said of the output here is said of the strings handed to
    [print]; they are the lines of the file when none of them holds a
    newline, which is what [clean] keeps. *)
Record sound (w0 w : VCDWriter) : Prop := {
  s_out : exists lines, _ofile w = _ofile w0 +++ lines;
  s_flushes : (_ofile_flushes w0 <= _ofile_flushes w)%nat;
  s_registering : _registering w0 = false -> _registering w = false;
  s_closed : _closed w0 = true -> _closed w = true;
  s_cursor : _prev_timestamp w0 <= _prev_timestamp w;
  s_next : _next_var_id w0 <= _next_var_id w;
  s_default : _default_scope_type w = _default_scope_type w0;
  s_sep : _scope_sep w = _scope_sep w0;
  s_cache_keys : NoDup (Py.keys (_ident_values w));
  s_cache_vals : Forall (fun kv => value_line (snd kv)) (_ident_values w);
  s_strs_keys : NoDup (Py.keys (_scope_var_strs w));
  s_strs_var : Forall (fun kv => Forall var_line (snd kv)) (_scope_var_strs w);
  s_kws : Forall (fun kv => In (fst kv) HEADER_KEYWORDS) (_header_keywords w);
  s_nested : nesting 0 (_ofile w) = Some 0;
  s_reg_cursor : _registering w = true -> _prev_timestamp w = 0;
  s_reg_out : _registering w = true -> _ofile w = [];
  s_closed_live : _closed w = true -> _registering w = false;
  s_live : _registering w = false ->
           _scope_var_strs w = [] /\ _header_keywords w = []
           /\ _scope_var_names w = []
           /\ enddefinitions (_ofile w) = 1%nat;
  s_vars : _registering w0 = false ->
           var_lines (_ofile w) = var_lines (_ofile w0)
}.

(** The staged [$var] lines in the order the header will list them: the
    scopes sorted, each scope's lines as they were appended. *)
Definition staged_lines (w : VCDWriter) : list string :=
  flat_map (fun scope =>
              match Py.get Py.tuple_eqb (_scope_var_strs w) scope with
              | Some var_strs => var_strs
              | None => []
              end)
           (Py.sorted Py.cmp_tuple (Py.keys (_scope_var_strs w))).

(** [line] is staged under some scope. *)
Definition staged (line : string) (w : VCDWriter) : Prop :=
  exists scope var_strs,
    Py.get Py.tuple_eqb (_scope_var_strs w) scope = Some var_strs
    /\ In line var_strs.

(** [line] is on its way into the output, or in it: staged while the
    writer is registering, written afterwards. *)
Definition declared (line : string) (w : VCDWriter) : Prop :=
  if _registering w then staged line w else In line (_ofile w).

(** The states a program can reach: a writer as [__init__] builds it,
    after any sequence of calls. *)
Definition reachable (format_16g : pyvalue -> string) (w : VCDWriter) : Prop :=
  exists now timescale date comment version default_scope_type scope_sep
         w0 calls,
    VCDWriter_init now timescale date comment version default_scope_type
      scope_sep = inr w0
    /\ w = run format_16g calls w0.

(** The states a program can reach with calls whose strings hold no
    newline. *)
Definition reachable_clean (format_16g : pyvalue -> string) (w : VCDWriter)
  : Prop :=
  exists now timescale date comment version default_scope_type scope_sep
         w0 calls,
    VCDWriter_init now timescale date comment version default_scope_type
      scope_sep = inr w0
    /\ forallb clean_call calls = true
    /\ w = run format_16g calls w0.

(** The calls that test [_closed] before anything else: registration,
    [change], [flush] and [close]. *)
Definition checks_closed (c : call) : bool :=
  match c with
  | RegisterVar _ _ _ _ _ _ | RegisterInt _ _ _ _ _ | RegisterReal _ _ _ _ _
  | RegisterEvent _ _ _ _ _ | Change _ _ _ | Flush _ | Close _ => true
  | SetScopeType _ _ | DumpOff _ | DumpOn _ => false
  end.

(** Whether a call is a [change]. *)
Definition is_change (c : call) : bool :=
  match c with
  | Change _ _ _ => true
  | _ => false
  end.

(** ** Facts about the built-ins *)

Module PyFacts.

Lemma int_of_str (n : Z) : Py.int_of (Py.str n) = Some n.
Proof.
  unfold Py.int_of, Py.str.
  rewrite NilZero.isi.
  - simpl. now rewrite DecimalZ.of_to.
  - destruct n; simpl; try discriminate.
    intros H. injection H as H. now apply Unsigned.to_uint_nonnil in H.
  - destruct n; simpl; try discriminate.
    intros H. injection H as H. now apply Unsigned.to_uint_nonnil in H.
Qed.

Lemma marker_of_marker (n : Z) : marker_of ("#" ++ Py.str n) = [n].
Proof. simpl. now rewrite int_of_str. Qed.

(** *** Binary digits *)

Lemma decode_bits_app (s t : string) :
  forall acc,
    decode_bits acc (s ++ t) =
    match decode_bits acc s with
    | Some a => decode_bits a t
    | None => None
    end.
Proof.
  induction s as [|c s IH]; intros acc; simpl; [reflexivity|].
  destruct (bit_of c); [apply IH | reflexivity].
Qed.

Lemma decode_bits_bin_pos (p : positive) :
  decode_bits 0 (Py.bin_pos p) = Some (Z.pos p).
Proof.
  induction p as [q IH|q IH|]; simpl; try reflexivity;
    rewrite decode_bits_app, IH; simpl; f_equal; lia.
Qed.

Lemma bin_pos_nonempty (p : positive) : Py.bin_pos p <> "".
Proof.
  induction p as [q IH|q IH|]; simpl; try discriminate;
    destruct (Py.bin_pos q); simpl; congruence.
Qed.

Lemma decode_unsigned_format_b (n : Z) :
  0 <= n -> decode_unsigned (Py.format_b n) = Some n.
Proof.
  intros Hn. destruct n as [|p|p]; try lia; [reflexivity|].
  simpl. unfold decode_unsigned.
  pose proof (bin_pos_nonempty p) as Hne.
  destruct (Py.bin_pos p) eqn:E; [congruence|].
  rewrite <- E. apply decode_bits_bin_pos.
Qed.

Lemma only_bits_app (s t : string) :
  only_bits (s ++ t) = only_bits s && only_bits t.
Proof.
  induction s as [|c s IH]; simpl; [reflexivity|].
  now rewrite IH, andb_assoc.
Qed.

Lemma only_bits_bin_pos (p : positive) : only_bits (Py.bin_pos p) = true.
Proof.
  induction p as [q IH|q IH|]; simpl; try reflexivity;
    now rewrite only_bits_app, IH.
Qed.

Lemma until_space_bits (s rest : string) :
  only_bits s = true -> until_space (s ++ String " " rest) = s.
Proof.
  induction s as [|c s IH]; simpl; [reflexivity|].
  intros H. apply andb_prop in H as [Hc Hs].
  destruct (Ascii.eqb_spec c " ") as [->|_]; [discriminate|].
  now rewrite IH.
Qed.

Lemma vector_digits_line (n : Z) (id : string) :
  0 <= n ->
  vector_digits ("b" ++ Py.format_b n ++ " " ++ id) = Some (Py.format_b n).
Proof.
  intros Hn. simpl. f_equal.
  apply until_space_bits.
  destruct n as [|p|p]; try lia; [reflexivity|apply only_bits_bin_pos].
Qed.

End PyFacts.

(** ** The encoders *)

Section VectorEncoder.

Variable self : VarHandle.
Local Abbreviation n := (size self).
Hypothesis width : 1 <= n.

Lemma vector_max_val : Z.shiftl 1 n = 2 ^ n.
Proof. rewrite Z.shiftl_1_l. reflexivity. Qed.

Lemma vector_half : Z.shiftr (Z.shiftl 1 n) 1 = 2 ^ (n - 1).
Proof.
  rewrite vector_max_val, Z.shiftr_div_pow2 by lia.
  replace (2 ^ n) with (2 ^ (n - 1) * 2 ^ 1).
  - apply Z.div_mul. discriminate.
  - rewrite <- Z.pow_add_r by lia. f_equal. lia.
Qed.

(** The integer path accepts exactly the union of the signed and the
    unsigned range and prints the residue modulo [2 ^ n]. *)
Lemma vector_format_int (v : Z) :
  - 2 ^ (n - 1) <= v < 2 ^ n ->
  Vector.format_value self (PyInt v)
  = inr ("b" ++ Py.format_b (v mod 2 ^ n) ++ " " ++ ident self).
Proof.
  intros [Hlo Hhi]. unfold Vector.format_value. simpl as_integer. cbv iota beta.
  rewrite vector_half, vector_max_val.
  destruct (Z.ltb_spec n 0) as [?|_]; [lia|].
  destruct (Z.ltb_spec (2 ^ (n - 1)) (- v)) as [?|_]; [lia|].
  destruct (Z.leb_spec (2 ^ n) v) as [?|_]; [lia|].
  simpl orb. cbv iota.
  assert (Hpos : 0 < 2 ^ (n - 1)) by (apply Z.pow_pos_nonneg; lia).
  assert (Hdbl : 2 ^ n = 2 * 2 ^ (n - 1)).
  { replace n with (1 + (n - 1)) at 1 by lia.
    rewrite Z.pow_add_r by lia. reflexivity. }
  assert (E : (if v <? 0 then v + 2 ^ n else v) = v mod 2 ^ n).
  { destruct (Z.ltb_spec v 0) as [Hneg|Hnn].
    - apply Z.mod_unique with (q := -1); lia.
    - symmetry. apply Z.mod_small. lia. }
  now rewrite E.
Qed.

Lemma vector_format_out_of_range (v : Z) :
  v < - 2 ^ (n - 1) \/ 2 ^ n <= v ->
  Vector.format_value self (PyInt v) = inl ValueError.
Proof.
  intros H. unfold Vector.format_value. simpl as_integer. cbv iota beta.
  rewrite vector_half, vector_max_val.
  destruct (Z.ltb_spec n 0) as [?|_]; [lia|].
  destruct (Z.ltb_spec (2 ^ (n - 1)) (- v)) as [?|?]; [reflexivity|].
  destruct (Z.leb_spec (2 ^ n) v) as [?|?]; [reflexivity|lia].
Qed.

End VectorEncoder.

Lemma bin_pos_leading_one (p : positive) :
  exists rest, Py.bin_pos p = String "1" rest.
Proof.
  induction p as [p [r IH]|p [r IH]|]; simpl.
  - rewrite IH. now eexists.
  - rewrite IH. now eexists.
  - now eexists.
Qed.

(** C2 (amended).  For a vector variable of width [n >= 1] and an integer
    [v] with [-(2^(n-1)) <= v < 2^n], the encoder returns exactly [b],
    the binary digits of [v mod 2^n], a space and the ident.  The digits
    are not padded: they start with [1] unless the number is 0.  Read
    back from the line and taken as an unsigned number they give
    [v mod 2^n]; taken as a two's-complement number of width [n] they
    give [v] when [v < 2^(n-1)], and [v - 2^n] when [2^(n-1) <= v]: the
    upper half of the accepted range shares its bit patterns with the
    negative half. *)
Theorem vector_encoder_roundtrip (self : VarHandle) (v : Z) :
  1 <= size self ->
  - 2 ^ (size self - 1) <= v < 2 ^ size self ->
  let digits := Py.format_b (v mod 2 ^ size self) in
  let line := "b" ++ digits ++ " " ++ ident self in
  Vector.format_value self (PyInt v) = inr line
  /\ (v mod 2 ^ size self <> 0 -> exists rest, digits = String "1" rest)
  /\ vector_digits line = Some digits
  /\ decode_unsigned digits = Some (v mod 2 ^ size self)
  /\ (v < 2 ^ (size self - 1) ->
      decode_vector_line (size self) line = Some v)
  /\ (2 ^ (size self - 1) <= v ->
      decode_vector_line (size self) line = Some (v - 2 ^ size self)).
Proof.
  intros Hn Hv. cbv zeta.
  set (n := size self) in *.
  assert (Hpos : 0 < 2 ^ (n - 1)) by (apply Z.pow_pos_nonneg; lia).
  assert (Hdbl : 2 ^ n = 2 * 2 ^ (n - 1)).
  { replace n with (1 + (n - 1)) at 1 by lia.
    rewrite Z.pow_add_r by lia. reflexivity. }
  assert (Hm : 0 <= v mod 2 ^ n < 2 ^ n) by (apply Z.mod_pos_bound; lia).
  assert (Hd : vector_digits ("b" ++ Py.format_b (v mod 2 ^ n) ++ " "
                                  ++ ident self)
               = Some (Py.format_b (v mod 2 ^ n)))
    by (apply PyFacts.vector_digits_line; lia).
  split; [apply vector_format_int; assumption|].
  split.
  { intros Hnz. destruct (v mod 2 ^ n) as [|p|p] eqn:E; [now elim Hnz| |lia].
    apply bin_pos_leading_one. }
  split; [exact Hd|].
  split; [apply PyFacts.decode_unsigned_format_b; lia|].
  unfold decode_vector_line. rewrite Hd. unfold decode_twos_complement.
  rewrite PyFacts.decode_unsigned_format_b by lia.
  split; intros Hc; f_equal.
  - destruct (Z.lt_ge_cases v 0) as [Hneg|Hnn].
    + assert (E : v mod 2 ^ n = v + 2 ^ n)
        by (symmetry; apply Z.mod_unique with (q := -1); lia).
      rewrite E.
      destruct (Z.leb_spec (2 ^ (n - 1)) (v + 2 ^ n)); lia.
    + rewrite Z.mod_small by lia.
      destruct (Z.leb_spec (2 ^ (n - 1)) v); lia.
  - rewrite Z.mod_small by lia.
    destruct (Z.leb_spec (2 ^ (n - 1)) v); lia.
Qed.

Lemma vector_encoder_roundtrip_witness :
  let self := mkVar VectorVariable "v1" "wire" 8 in
  1 <= size self
  /\ - 2 ^ (size self - 1) <= -56 < 2 ^ size self
  /\ let digits := Py.format_b ((-56) mod 2 ^ size self) in
     let line := "b" ++ digits ++ " " ++ ident self in
     Vector.format_value self (PyInt (-56)) = inr line
     /\ ((-56) mod 2 ^ size self <> 0 ->
         exists rest, digits = String "1" rest)
     /\ vector_digits line = Some digits
     /\ decode_unsigned digits = Some ((-56) mod 2 ^ size self)
     /\ (-56 < 2 ^ (size self - 1) ->
         decode_vector_line (size self) line = Some (-56))
     /\ (2 ^ (size self - 1) <= -56 ->
         decode_vector_line (size self) line = Some (-56 - 2 ^ size self)).
Proof.
  cbv zeta.
  assert (H1 : 1 <= size (mkVar VectorVariable "v1" "wire" 8))
    by (simpl; lia).
  assert (H2 : - 2 ^ (size (mkVar VectorVariable "v1" "wire" 8) - 1)
               <= -56 < 2 ^ size (mkVar VectorVariable "v1" "wire" 8))
    by (simpl; lia).
  split; [exact H1|]. split; [exact H2|].
  exact (vector_encoder_roundtrip _ _ H1 H2).
Defined.

(** C2, as stated, fails at [n = 8], [v = 200]: the value is in the
    accepted range and is encoded as [b11001000], which as a
    two's-complement number of width 8 is [-56], the value that [-56]
    itself is encoded to. *)
Lemma vector_roundtrip_counterexample :
  let self := mkVar VectorVariable "v1" "wire" 8 in
  (- 2 ^ (8 - 1) <= 200 < 2 ^ 8)
  /\ Vector.format_value self (PyInt 200) = inr "b11001000 v1"
  /\ Vector.format_value self (PyInt (-56)) = inr "b11001000 v1"
  /\ decode_vector_line 8 "b11001000 v1" = Some (-56)
  /\ decode_vector_line 8 "b11001000 v1" <> Some 200.
Proof.
  cbv zeta. repeat split; try reflexivity; try discriminate; simpl; lia.
Qed.

(** C7 (amended).  For every input among 0, 1, 'x', 'z', 'X', 'Z', True,
    False and None the scalar encoder returns exactly one state character
    followed at once by the ident.  The character of a string input is
    that string itself, so 'X' and 'Z' stay upper case; None gives [z], a
    true value [1] and a false value [0]. *)
Theorem scalar_encoder_valid_inputs (self : VarHandle) (value : pyvalue) :
  In value scalar_inputs ->
  Scalar.format_value self value
  = inr (String (scalar_state value) (ident self))
  /\ Py.char_in (scalar_state value) "01xzXZ" = true.
Proof.
  unfold scalar_inputs. simpl In.
  intros H. repeat (destruct H as [<-|H]; [split; reflexivity|]).
  contradiction.
Qed.

Lemma scalar_encoder_valid_inputs_witness :
  In (PyStr "Z") scalar_inputs
  /\ Scalar.format_value (mkVar ScalarVariable "v0" "wire" 1) (PyStr "Z")
     = inr (String (scalar_state (PyStr "Z")) "v0")
  /\ Py.char_in (scalar_state (PyStr "Z")) "01xzXZ" = true.
Proof.
  assert (H : In (PyStr "Z") scalar_inputs) by (simpl; tauto).
  split; [exact H|].
  exact (scalar_encoder_valid_inputs (mkVar ScalarVariable "v0" "wire" 1) _ H).
Defined.

(** C7, as stated, fails on 'X': the encoder returns [Xv0], not the
    case-folded [xv0]. *)
Lemma scalar_case_fold_counterexample :
  In (PyStr "X") scalar_inputs
  /\ Scalar.format_value (mkVar ScalarVariable "v0" "wire" 1) (PyStr "X")
     = inr "Xv0"
  /\ Scalar.format_value (mkVar ScalarVariable "v0" "wire" 1) (PyStr "X")
     <> inr "xv0".
Proof.
  repeat split; [simpl; tauto | discriminate].
Qed.

(** ** Rules for [wp] *)

Section WpRules.

Context {A B : Type}.
Implicit Types (Q : A -> VCDWriter -> Prop) (E : VCDWriter -> Prop).

Lemma wp_ret (x : A) Q E w : wp (ret x) Q E w <-> Q x w.
Proof. reflexivity. Qed.

Lemma wp_raise (e : exn) Q E w : wp (@raise A e) Q E w <-> E w.
Proof. reflexivity. Qed.

Lemma wp_gets (f : VCDWriter -> A) Q E w : wp (gets f) Q E w <-> Q (f w) w.
Proof. reflexivity. Qed.

Lemma wp_lift (r : exn + A) Q E w :
  wp (lift r) Q E w <-> match r with inr x => Q x w | inl _ => E w end.
Proof. unfold wp, lift. destruct r; reflexivity. Qed.

Lemma wp_bind (m : M A) (k : A -> M B) (R : B -> VCDWriter -> Prop) E w :
  wp (bind m k) R E w <-> wp m (fun x w' => wp (k x) R E w') E w.
Proof. unfold wp, bind. destruct (m w) as [[e|x] w']; reflexivity. Qed.

Lemma wp_mono (m : M A) Q Q' E E' w :
  wp m Q E w ->
  (forall x w', Q x w' -> Q' x w') ->
  (forall w', E w' -> E' w') ->
  wp m Q' E' w.
Proof.
  unfold wp. destruct (m w) as [[e|x] w']; intros H HQ HE; auto.
Qed.

End WpRules.

Lemma wp_modify (f : VCDWriter -> VCDWriter) Q E w :
  wp (modify f) Q E w <-> Q tt (f w).
Proof. reflexivity. Qed.

Lemma wp_when (b : bool) (m : M unit) Q E w :
  wp (when b m) Q E w <-> if b then wp m Q E w else Q tt w.
Proof. destruct b; reflexivity. Qed.

Lemma wp_print (line : string) Q E w :
  wp (print line) Q E w <-> Q tt (with_ofile (fun out => out +++ [line]) w).
Proof. reflexivity. Qed.

Lemma wp_result {A} (m : M A) Q E w :
  wp m Q E w ->
  match fst (m w) with
  | inr x => Q x (snd (m w))
  | inl _ => E (snd (m w))
  end.
Proof. unfold wp. destruct (m w) as [[e|x] w']; auto. Qed.

(** Stepping through straight-line code. *)
Ltac wp_step :=
  repeat first
    [ rewrite wp_bind | rewrite wp_gets | rewrite wp_modify | rewrite wp_ret
    | rewrite wp_raise | rewrite wp_when | rewrite wp_print | rewrite wp_lift ].

Lemma wp_inr {A} (m : M A) Q E w x w' :
  wp m Q E w -> m w = (inr x, w') -> Q x w'.
Proof. unfold wp. intros H Eq. now rewrite Eq in H. Qed.

Lemma get_scope_tuple_ok scope (Q : scope_tuple -> VCDWriter -> Prop) E w :
  (forall tuple, Q tuple w) -> E w -> wp (_get_scope_tuple scope) Q E w.
Proof.
  intros HQ HE. unfold _get_scope_tuple. destruct scope as [s|l|].
  - wp_step. destruct (Py.split s (_scope_sep w)); wp_step; auto.
  - wp_step. auto.
  - wp_step. auto.
Qed.

(** ** Sorting scope paths *)

Section LexOrder.

Context {A : Type} (cmp : A -> A -> comparison) (O : total_order cmp).

Lemma lex_eq (l1 l2 : list A) : Py.lex cmp l1 l2 = Eq -> l1 = l2.
Proof.
  revert l2. induction l1 as [|x l1 IH]; intros [|y l2]; simpl;
    try discriminate; [reflexivity|].
  destruct (cmp x y) eqn:E; try discriminate.
  intros H. apply (cmp_eq _ O) in E. subst. f_equal. now apply IH.
Qed.

Lemma lex_refl (l : list A) : Py.lex cmp l l = Eq.
Proof.
  induction l as [|x l IH]; simpl; [reflexivity|].
  now rewrite (cmp_refl _ O).
Qed.

Lemma lex_antisym (l1 l2 : list A) :
  Py.lex cmp l1 l2 = CompOpp (Py.lex cmp l2 l1).
Proof.
  revert l2. induction l1 as [|x l1 IH]; intros [|y l2]; simpl;
    try reflexivity.
  rewrite (cmp_antisym _ O x y).
  destruct (cmp y x); simpl; auto.
Qed.

Lemma lex_trans (l1 l2 l3 : list A) :
  Py.lex cmp l1 l2 = Lt -> Py.lex cmp l2 l3 = Lt -> Py.lex cmp l1 l3 = Lt.
Proof.
  revert l2 l3.
  induction l1 as [|x l1 IH]; intros [|y l2] [|z l3]; simpl;
    try discriminate; try reflexivity.
  destruct (cmp x y) eqn:Exy; try discriminate;
    destruct (cmp y z) eqn:Eyz; try discriminate; intros H1 H2.
  - apply (cmp_eq _ O) in Exy, Eyz. subst.
    rewrite (cmp_refl _ O). eapply IH; eassumption.
  - apply (cmp_eq _ O) in Exy. subst. now rewrite Eyz.
  - apply (cmp_eq _ O) in Eyz. subst. now rewrite Exy.
  - now rewrite (cmp_trans _ O x y z Exy Eyz).
Qed.

Lemma lex_total_order : total_order (Py.lex cmp).
Proof.
  constructor.
  - apply lex_eq.
  - apply lex_refl.
  - apply lex_antisym.
  - apply lex_trans.
Qed.

End LexOrder.

Lemma cmp_char_order : total_order Py.cmp_char.
Proof.
  unfold Py.cmp_char. constructor.
  - intros x y H. apply N.compare_eq_iff in H.
    rewrite <- (ascii_N_embedding x), <- (ascii_N_embedding y). now f_equal.
  - intros x. apply N.compare_refl.
  - intros x y. apply N.compare_antisym.
  - intros x y z. rewrite !N.compare_lt_iff. apply N.lt_trans.
Qed.

Lemma cmp_str_order : total_order Py.cmp_str.
Proof.
  pose proof (lex_total_order _ cmp_char_order) as O.
  unfold Py.cmp_str. constructor.
  - intros x y H. apply (cmp_eq _ O) in H.
    rewrite <- (string_of_list_ascii_of_string x),
            <- (string_of_list_ascii_of_string y). now f_equal.
  - intros x. apply (cmp_refl _ O).
  - intros x y. apply (cmp_antisym _ O).
  - intros x y z. apply (cmp_trans _ O).
Qed.

Lemma cmp_tuple_order : total_order Py.cmp_tuple.
Proof. exact (lex_total_order _ cmp_str_order). Qed.

Section SortedFacts.

Context {A : Type} (cmp : A -> A -> comparison) (O : total_order cmp).

Local Abbreviation le := (le_of cmp).

Lemma le_total (x y : A) : Py.le cmp x y = false -> le y x.
Proof.
  unfold le_of, Py.le. rewrite (cmp_antisym _ O y x).
  destruct (cmp x y); simpl; congruence.
Qed.

Lemma le_trans (x y z : A) : le x y -> le y z -> le x z.
Proof.
  unfold le_of, Py.le.
  destruct (cmp x y) eqn:Exy; try discriminate;
    destruct (cmp y z) eqn:Eyz; try discriminate; intros _ _.
  - apply (cmp_eq _ O) in Exy. subst. now rewrite Eyz.
  - apply (cmp_eq _ O) in Exy. subst. now rewrite Eyz.
  - apply (cmp_eq _ O) in Eyz. subst. now rewrite Exy.
  - now rewrite (cmp_trans _ O x y z Exy Eyz).
Qed.

Lemma le_antisym (x y : A) : le x y -> le y x -> x = y.
Proof.
  unfold le_of, Py.le. rewrite (cmp_antisym _ O y x).
  destruct (cmp x y) eqn:E; simpl; try discriminate.
  intros _ _. now apply (cmp_eq _ O).
Qed.

Lemma insert_perm (x : A) (l : list A) : Permutation (Py.insert cmp x l) (x :: l).
Proof.
  induction l as [|y l IH]; simpl; [reflexivity|].
  destruct (Py.le cmp x y); [reflexivity|].
  rewrite IH. apply perm_swap.
Qed.

Lemma sorted_perm (l : list A) : Permutation (Py.sorted cmp l) l.
Proof.
  induction l as [|x l IH]; simpl; [reflexivity|].
  rewrite insert_perm. now constructor.
Qed.

Lemma insert_sorted (x : A) (l : list A) :
  StronglySorted le l -> StronglySorted le (Py.insert cmp x l).
Proof.
  induction 1 as [|y l Hs IH Hy]; simpl.
  - repeat constructor.
  - destruct (Py.le cmp x y) eqn:E.
    + constructor; [now constructor|].
      constructor; [exact E|].
      eapply Forall_impl; [|exact Hy]. intros z. now apply le_trans.
    + constructor; [exact IH|].
      eapply Permutation_Forall; [symmetry; apply insert_perm|].
      constructor; [now apply le_total|exact Hy].
Qed.

Lemma sorted_sorted (l : list A) : StronglySorted le (Py.sorted cmp l).
Proof.
  induction l as [|x l IH]; simpl; [constructor|].
  now apply insert_sorted.
Qed.

Lemma sorted_unique (l1 l2 : list A) :
  StronglySorted le l1 -> StronglySorted le l2 -> Permutation l1 l2 -> l1 = l2.
Proof.
  intros H1. revert l2.
  induction H1 as [|x l1 Hs1 IH Hx]; intros l2 H2 Hp.
  - apply Permutation_nil in Hp. now subst.
  - destruct H2 as [|y l2 Hs2 Hy].
    + symmetry in Hp. now apply Permutation_nil in Hp.
    + assert (x = y) as <-.
      { assert (Hxin : In x (y :: l2))
          by (eapply Permutation_in; [exact Hp|now left]).
        assert (Hyin : In y (x :: l1))
          by (eapply Permutation_in; [symmetry; exact Hp|now left]).
        destruct Hxin as [->|Hxin]; [reflexivity|].
        destruct Hyin as [->|Hyin]; [reflexivity|].
        apply le_antisym.
        - rewrite Forall_forall in Hx. now apply Hx.
        - rewrite Forall_forall in Hy. now apply Hy. }
      f_equal. apply IH; [assumption|].
      now apply Permutation_cons_inv in Hp.
Qed.

(** [sorted] forgets the order of its input. *)
Lemma sorted_of_perm (l l' : list A) :
  Permutation l l' -> Py.sorted cmp l = Py.sorted cmp l'.
Proof.
  intros Hp. apply sorted_unique; try apply sorted_sorted.
  rewrite !sorted_perm. exact Hp.
Qed.

End SortedFacts.

(** ** The header does not depend on the order of registration *)

Lemma tuple_eqb_eq (t1 t2 : list string) : Py.tuple_eqb t1 t2 = true <-> t1 = t2.
Proof.
  revert t2. induction t1 as [|x t1 IH]; intros [|y t2]; simpl;
    try (split; [discriminate|congruence]); [tauto|].
  rewrite andb_true_iff, String.eqb_eq, IH.
  split; [intros [-> ->]; reflexivity|intros E; injection E; auto].
Qed.

Lemma tuple_eqb_refl (t : list string) : Py.tuple_eqb t t = true.
Proof. now apply tuple_eqb_eq. Qed.

Lemma tuple_eqb_neq (t1 t2 : list string) :
  t1 <> t2 -> Py.tuple_eqb t1 t2 = false.
Proof.
  intros H. destruct (Py.tuple_eqb t1 t2) eqn:E; [|reflexivity].
  now apply tuple_eqb_eq in E.
Qed.

Section PopFacts.

Context {V : Type}.
Implicit Types (d : list (scope_tuple * V)) (k : scope_tuple).

Lemma pop_some d k v r :
  Py.pop Py.tuple_eqb d k = Some (v, r) ->
  In (k, v) d /\ Permutation d ((k, v) :: r).
Proof.
  revert v r. induction d as [|[k0 v0] d IH]; intros v r; simpl;
    [discriminate|].
  destruct (Py.tuple_eqb k k0) eqn:E.
  - apply tuple_eqb_eq in E. subst k0.
    intros H. injection H as <- <-. split; [now left|reflexivity].
  - destruct (Py.pop Py.tuple_eqb d k) as [[v1 r1]|]; [|discriminate].
    intros H. injection H as <- <-.
    destruct (IH v1 r1 eq_refl) as [Hin Hp].
    split; [now right|]. rewrite Hp. apply perm_swap.
Qed.

Lemma pop_in d k v :
  NoDup (Py.keys d) -> In (k, v) d ->
  exists r, Py.pop Py.tuple_eqb d k = Some (v, r).
Proof.
  induction d as [|[k0 v0] d IH]; simpl; [contradiction|].
  intros Hnd [E|Hin].
  - injection E as -> ->. rewrite tuple_eqb_refl. eauto.
  - inversion Hnd as [|? ? Hnotin Hnd']; subst.
    rewrite tuple_eqb_neq.
    + destruct (IH Hnd' Hin) as [r ->]. eauto.
    + intros ->. apply Hnotin. unfold Py.keys.
      change k0 with (fst (k0, v)). now apply in_map.
Qed.

Lemma keys_perm d d' : Permutation d d' -> Permutation (Py.keys d) (Py.keys d').
Proof. apply Permutation_map. Qed.

Lemma pop_none d k : Py.pop Py.tuple_eqb d k = None -> ~ In k (Py.keys d).
Proof.
  induction d as [|[k0 v0] d IH]; simpl; [tauto|].
  destruct (Py.tuple_eqb k k0) eqn:E; [discriminate|].
  destruct (Py.pop Py.tuple_eqb d k) as [[v1 r1]|]; [discriminate|].
  intros _ [H|H].
  - subst. now rewrite tuple_eqb_refl in E.
  - now apply IH.
Qed.

(** Popping a key from two orderings of one dictionary. *)
Lemma pop_perm d d' k :
  NoDup (Py.keys d) -> Permutation d d' ->
  match Py.pop Py.tuple_eqb d k, Py.pop Py.tuple_eqb d' k with
  | Some (v, r), Some (v', r') =>
      v = v' /\ Permutation r r' /\ NoDup (Py.keys r)
  | None, None => True
  | _, _ => False
  end.
Proof.
  intros Hnd Hp.
  assert (Hnd' : NoDup (Py.keys d'))
    by (eapply Permutation_NoDup; [apply keys_perm; exact Hp|exact Hnd]).
  destruct (Py.pop Py.tuple_eqb d k) as [[v r]|] eqn:E.
  - destruct (pop_some _ _ _ _ E) as [Hin Hpr].
    destruct (pop_in d' k v Hnd') as [r' E'].
    { eapply Permutation_in; eassumption. }
    rewrite E'. destruct (pop_some _ _ _ _ E') as [_ Hpr'].
    split; [reflexivity|]. split.
    + apply Permutation_cons_inv with (a := (k, v)).
      now rewrite <- Hpr, <- Hpr'.
    + apply keys_perm in Hpr. simpl in Hpr.
      apply (Permutation_NoDup Hpr) in Hnd. now inversion Hnd.
  - destruct (Py.pop Py.tuple_eqb d' k) as [[v' r']|] eqn:E'; [|exact I].
    apply pop_none in E. apply E.
    destruct (pop_some _ _ _ _ E') as [Hin _].
    eapply Permutation_in; [symmetry; apply keys_perm; exact Hp|].
    unfold Py.keys. change k with (fst (k, v')). now apply in_map.
Qed.

End PopFacts.

Lemma scope_loop_perm types default scopes :
  forall prev strs strs',
    NoDup (Py.keys strs) -> Permutation strs strs' ->
    fst (scope_loop types default scopes prev strs)
    = fst (scope_loop types default scopes prev strs')
    /\ Permutation (snd (scope_loop types default scopes prev strs))
                   (snd (scope_loop types default scopes prev strs')).
Proof.
  induction scopes as [|scope rest IH]; intros prev strs strs' Hnd Hp; simpl.
  - split; [reflexivity|exact Hp].
  - pose proof (pop_perm strs strs' scope Hnd Hp) as Hpop.
    destruct (Py.pop Py.tuple_eqb strs scope) as [[v r]|];
      destruct (Py.pop Py.tuple_eqb strs' scope) as [[v' r']|];
      try contradiction; [|split; [reflexivity|exact Hp]].
    destruct Hpop as (<- & Hpr & Hndr).
    destruct (IH (Some scope) r r' Hndr Hpr) as [Hf Hs].
    destruct (first_diff 0 _ scope), prev; simpl;
      try (split; [reflexivity|exact Hpr]);
      destruct (scope_loop types default rest (Some scope) r) as [[e|l] s1],
               (scope_loop types default rest (Some scope) r') as [[e'|l'] s2];
      simpl in *; try discriminate;
      (split; [congruence|exact Hs]).
Qed.

(** Two writers that differ only in the order of the entries of
    [_scope_var_strs] generate the same header. *)
Lemma gen_header_perm (w : VCDWriter) (strs' : list (scope_tuple * list string)) :
  NoDup (Py.keys (_scope_var_strs w)) ->
  Permutation (_scope_var_strs w) strs' ->
  fst (_gen_header w) = fst (_gen_header (with_scope_var_strs strs' w)).
Proof.
  intros Hnd Hp. unfold _gen_header, bind, gets, modify, lift, ret. simpl.
  rewrite (sorted_of_perm _ cmp_tuple_order _ _ (keys_perm _ _ Hp)).
  destruct (scope_loop_perm (_scope_types w) (_default_scope_type w)
              (Py.sorted Py.cmp_tuple (Py.keys strs')) None
              (_scope_var_strs w) strs' Hnd Hp) as [Hf _].
  destruct (scope_loop _ _ _ None (_scope_var_strs w)) as [[e|l] s1],
           (scope_loop _ _ _ None strs') as [[e'|l'] s2];
    simpl in *; congruence.
Qed.

(** C4.  With the scope paths [a], [a,b], [a,c] and [b] registered, in
    whatever order they were inserted, header generation visits them in
    lexicographic order and yields, after the keyword lines, exactly: open
    [a], the variables of [a], open [b] under [a], its variables, one
    close, open [c] under [a], its variables, one close, close [a], open
    the top-level [b], its variables, one close, and
    [$enddefinitions $end]; every scope has been taken out of the
    registry. *)
Theorem header_scopes_abc (w : VCDWriter) (va vab vac vb : list string) :
  Permutation (_scope_var_strs w) (abc_paths va vab vac vb) ->
  Py.sorted Py.cmp_tuple (Py.keys (_scope_var_strs w))
  = [["a"]; ["a"; "b"]; ["a"; "c"]; ["b"]]
  /\ _gen_header w
     = (inr (flat_map keyword_lines
               (Py.sorted Py.cmp_item (_header_keywords w))
             +++ ["$scope " ++ scope_tag w ["a"] ++ " a $end"]
             +++ va
             +++ ["$scope " ++ scope_tag w ["a"; "b"] ++ " b $end"]
             +++ vab
             +++ ["$upscope $end";
                  "$scope " ++ scope_tag w ["a"; "c"] ++ " c $end"]
             +++ vac
             +++ ["$upscope $end"; "$upscope $end";
                  "$scope " ++ scope_tag w ["b"] ++ " b $end"]
             +++ vb
             +++ ["$upscope $end"; "$enddefinitions $end"]),
        with_scope_var_strs [] w).
Proof.
  intros Hp.
  assert (Hnd : NoDup (Py.keys (_scope_var_strs w))).
  { eapply Permutation_NoDup; [symmetry; apply keys_perm; exact Hp|].
    simpl. repeat constructor; simpl; intuition discriminate. }
  assert (Hkeys : Py.sorted Py.cmp_tuple (Py.keys (_scope_var_strs w))
                  = [["a"]; ["a"; "b"]; ["a"; "c"]; ["b"]]).
  { rewrite (sorted_of_perm _ cmp_tuple_order _ _ (keys_perm _ _ Hp)).
    reflexivity. }
  split; [exact Hkeys|].
  unfold _gen_header, bind, gets, modify, lift, ret. simpl.
  rewrite Hkeys.
  destruct (scope_loop_perm (_scope_types w) (_default_scope_type w)
              [["a"]; ["a"; "b"]; ["a"; "c"]; ["b"]] None
              (_scope_var_strs w) (abc_paths va vab vac vb) Hnd Hp)
    as [Hf Hs].
  destruct (scope_loop _ _ _ None (_scope_var_strs w)) as [r strs'].
  simpl in Hf, Hs. apply Permutation_sym, Permutation_nil in Hs.
  subst r strs'. reflexivity.
Qed.

Lemma header_scopes_abc_witness :
  let w :=
    with_scope_var_strs
      [(["b"], ["$var wire 1 v0 q $end"]);
       (["a"; "c"], ["$var wire 1 v1 r $end"]);
       (["a"], ["$var wire 1 v2 s $end"]);
       (["a"; "b"], ["$var wire 1 v3 t $end"])] new_writer in
  Permutation (_scope_var_strs w)
    (abc_paths ["$var wire 1 v2 s $end"] ["$var wire 1 v3 t $end"]
               ["$var wire 1 v1 r $end"] ["$var wire 1 v0 q $end"])
  /\ Py.sorted Py.cmp_tuple (Py.keys (_scope_var_strs w))
     = [["a"]; ["a"; "b"]; ["a"; "c"]; ["b"]]
  /\ _gen_header w
     = (inr ["$date today $end"; "$timescale 1 us $end";
             "$scope module a $end"; "$var wire 1 v2 s $end";
             "$scope module b $end"; "$var wire 1 v3 t $end";
             "$upscope $end";
             "$scope module c $end"; "$var wire 1 v1 r $end";
             "$upscope $end"; "$upscope $end";
             "$scope module b $end"; "$var wire 1 v0 q $end";
             "$upscope $end"; "$enddefinitions $end"],
        with_scope_var_strs [] w).
Proof.
  cbv zeta.
  match goal with
  | |- ?P /\ _ => assert (Hp : P)
  end.
  { simpl. unfold abc_paths.
    apply Permutation_cons_app with (l1 := [_; _; _]) (l2 := []).
    apply Permutation_cons_app with (l1 := [_; _]) (l2 := []).
    reflexivity. }
  split; [exact Hp|].
  exact (header_scopes_abc _ _ _ _ _ Hp).
Defined.

Lemma interleave_in {A} (x : A) (l1 l2 : list A) :
  In (l1 +++ x :: l2) (interleave x (l1 +++ l2)).
Proof.
  induction l1 as [|y l1 IH]; simpl.
  - destruct l2; simpl; auto.
  - right. apply in_map. exact IH.
Qed.

(** [orders] lists every arrangement. *)
Lemma orders_complete {A} (l : list A) :
  forall l', Permutation l l' -> In l' (orders l).
Proof.
  induction l as [|x l IH]; intros l' Hp; simpl.
  - apply Permutation_nil in Hp. subst. now left.
  - assert (Hin : In x l') by (eapply Permutation_in; [exact Hp|now left]).
    apply in_split in Hin as (l1 & l2 & ->).
    apply Permutation_cons_app_inv in Hp.
    apply in_flat_map. exists (l1 +++ l2). split; [now apply IH|].
    apply interleave_in.
Qed.

(** The same through the public methods: in whatever order the four wires
    are registered, [flush()] writes the scopes in the one nesting, the
    idents alone recording the order. *)
Example header_any_registration_order (order : list (string * string)) :
  Permutation abc_registrations order ->
  _ofile (run format_16g_sample (abc_calls order) new_writer)
  = abc_output order.
Proof.
  intros Hp. apply orders_complete in Hp.
  vm_compute in Hp.
  repeat (destruct Hp as [<-|Hp]; [vm_compute; reflexivity|]).
  contradiction.
Qed.

(** ** Scope types *)

Lemma get_set_same {V} (d : list (scope_tuple * V)) (k : scope_tuple) (v : V) :
  Py.get Py.tuple_eqb (Py.set Py.tuple_eqb d k v) k = Some v.
Proof.
  induction d as [|[k0 v0] d IH]; simpl.
  - now rewrite tuple_eqb_refl.
  - destruct (Py.tuple_eqb k k0) eqn:E; simpl; rewrite E; auto.
Qed.

(** A tag outside [SCOPE_TYPES] is refused and nothing changes. *)
Lemma set_scope_type_invalid_tag scope tag w :
  Py.in_list tag SCOPE_TYPES = false ->
  set_scope_type scope (Some tag) w = (inl ValueError, w).
Proof. intros H. unfold set_scope_type, bind, when. now rewrite H. Qed.

(** [set_scope_type(path, None)] stores [None] under the path; the lookup
    in [_gen_header] then finds the key and never falls back on the
    default. *)
Lemma set_scope_type_none_tag path w :
  set_scope_type (ScopeSeq path) None w
  = (inr tt, with_scope_types
               (Py.set Py.tuple_eqb (_scope_types w) path None) w)
  /\ scope_tag (snd (set_scope_type (ScopeSeq path) None w)) path = "None".
Proof.
  split; [reflexivity|].
  unfold scope_tag. simpl. now rewrite get_set_same.
Qed.

(** C8.  The code at the failing input: after
    [set_scope_type(['top'], None)] the header reads [$scope None top $end];
    without the call it reads [$scope module top $end]. *)
Theorem set_scope_type_none_prints_None :
  _ofile (run format_16g_sample
            [SetScopeType (ScopeSeq ["top"]) None;
             RegisterVar (ScopeSeq ["top"]) "clk" "wire" 1 (PyInt 0) None;
             Flush None] new_writer)
  = ["$date today $end"; "$timescale 1 us $end";
     "$scope None top $end"; "$var wire 1 v0 clk $end"; "$upscope $end";
     "$enddefinitions $end"; "$dumpvars"; "0v0"; "$end"]
  /\ _ofile (run format_16g_sample
               [RegisterVar (ScopeSeq ["top"]) "clk" "wire" 1 (PyInt 0) None;
                Flush None] new_writer)
     = ["$date today $end"; "$timescale 1 us $end";
        "$scope module top $end"; "$var wire 1 v0 clk $end"; "$upscope $end";
        "$enddefinitions $end"; "$dumpvars"; "0v0"; "$end"].
Proof. split; vm_compute; reflexivity. Qed.

(** ** Shared facts on strings, lists and dictionaries *)

Lemma prefix_cons_eq (a : ascii) (p s : string) :
  String.prefix (String a p) (String a s) = String.prefix p s.
Proof.
  cbn [String.prefix]. destruct (ascii_dec a a); [reflexivity|congruence].
Qed.

Lemma prefix_cons_ne (a b : ascii) (p s : string) :
  a <> b -> String.prefix (String a p) (String b s) = false.
Proof.
  intros H. cbn [String.prefix].
  destruct (ascii_dec a b); [contradiction|reflexivity].
Qed.

Lemma with_ofile_app (a b : list string) (w : VCDWriter) :
  with_ofile (fun out => out +++ b) (with_ofile (fun out => out +++ a) w)
  = with_ofile (fun out => out +++ (a +++ b)) w.
Proof. unfold with_ofile. simpl. now rewrite <- List.app_assoc. Qed.

Lemma with_ofile_nil (w : VCDWriter) : with_ofile (fun out => out +++ []) w = w.
Proof. destruct w. unfold with_ofile. simpl. now rewrite List.app_nil_r. Qed.

Lemma Forall_insert {A} (cmp : A -> A -> comparison) (P : A -> Prop) x l :
  P x -> Forall P l -> Forall P (Py.insert cmp x l).
Proof.
  intros Hx. induction 1 as [|y l Hy Hl IH]; simpl.
  - now constructor.
  - destruct (Py.le cmp x y); repeat constructor; assumption.
Qed.

Lemma Forall_sorted {A} (cmp : A -> A -> comparison) (P : A -> Prop) l :
  Forall P l -> Forall P (Py.sorted cmp l).
Proof.
  induction 1 as [|x l Hx Hl IH]; simpl; [constructor|].
  now apply Forall_insert.
Qed.

Lemma Forall_pop {K V} (eqb : K -> K -> bool) (P : K * V -> Prop) d k v d' :
  Forall P d -> Py.pop eqb d k = Some (v, d') ->
  (exists k', P (k', v)) /\ Forall P d'.
Proof.
  intros H. revert v d'.
  induction H as [|[k0 v0] d Hx Hd IH]; intros v d'; simpl; [discriminate|].
  destruct (eqb k k0).
  - intros E. injection E as <- <-. split; [now exists k0|assumption].
  - destruct (Py.pop eqb d k) as [[r d'']|]; [|discriminate].
    intros E. injection E as <- <-.
    destruct (IH r d'' eq_refl) as [He Hd'].
    split; [assumption|]. now constructor.
Qed.

Lemma Forall_set {K V} (eqb : K -> K -> bool) (P : V -> Prop) d k v :
  P v -> Forall (fun kv => P (snd kv)) d ->
  Forall (fun kv : K * V => P (snd kv)) (Py.set eqb d k v).
Proof.
  intros Hv. induction 1 as [|[k0 v0] d Hx Hd IH]; simpl.
  - repeat constructor. exact Hv.
  - destruct (eqb k k0); constructor; assumption.
Qed.

Lemma Forall_get {K V} (eqb : K -> K -> bool) (P : V -> Prop) d k v :
  Forall (fun kv : K * V => P (snd kv)) d -> Py.get eqb d k = Some v -> P v.
Proof.
  induction 1 as [|[k0 v0] d Hx Hd IH]; simpl; [discriminate|].
  destruct (eqb k k0); [|exact IH].
  intros E. now injection E as <-.
Qed.

Lemma Forall_append_at (P : string -> Prop) d k x :
  P x -> Forall (fun kv => Forall P (snd kv)) d ->
  Forall (fun kv => Forall P (snd kv)) (append_at d k x).
Proof.
  intros Hx Hd. unfold append_at.
  destruct (Py.get Py.tuple_eqb d k) as [v|] eqn:Eg; [|assumption].
  apply (Forall_set Py.tuple_eqb (Forall P)); [|assumption].
  apply Forall_app. split; [|now repeat constructor].
  exact (Forall_get _ (Forall P) _ _ _ Hd Eg).
Qed.

Lemma Forall_setdefault (P : string -> Prop) d k :
  Forall (fun kv => Forall P (snd kv)) d ->
  Forall (fun kv => Forall P (snd kv)) (snd (setdefault d k)).
Proof.
  intros Hd. unfold setdefault.
  destruct (Py.get Py.tuple_eqb d k); simpl; [assumption|].
  apply (Forall_set Py.tuple_eqb (Forall P)); [constructor|assumption].
Qed.

Lemma append_empty_r (s : string) : s ++ EmptyString = s.
Proof. induction s as [|c s IH]; simpl; [reflexivity|now rewrite IH]. Qed.

Lemma append_assoc_string (a b c : string) : (a ++ b) ++ c = a ++ (b ++ c).
Proof. induction a as [|x a IH]; simpl; [reflexivity|now rewrite IH]. Qed.

(** ** The lines of the file *)

Lemma one_line_cons (c : ascii) (s : string) :
  one_line (String c s) = negb (Ascii.eqb newline c) && one_line s.
Proof. unfold one_line. simpl. now rewrite negb_orb. Qed.

Lemma one_line_app (a b : string) :
  one_line (a ++ b) = one_line a && one_line b.
Proof.
  induction a as [|c a IH]; [reflexivity|].
  change (String c a ++ b) with (String c (a ++ b)).
  rewrite !one_line_cons, IH. apply andb_assoc.
Qed.

Lemma one_line_join (a b : string) :
  one_line a = true -> one_line b = true -> one_line (a ++ b) = true.
Proof. intros Ha Hb. now rewrite one_line_app, Ha, Hb. Qed.

Lemma one_line_uint (d : Decimal.uint) :
  one_line (NilEmpty.string_of_uint d) = true.
Proof.
  induction d; simpl; [reflexivity|..];
    rewrite one_line_cons, IHd; reflexivity.
Qed.

Lemma one_line_str (n : Z) : one_line (Py.str n) = true.
Proof.
  unfold Py.str, NilZero.string_of_int, NilZero.string_of_uint.
  destruct (Z.to_int n) as [d|d].
  - destruct d; try reflexivity; apply one_line_uint.
  - rewrite one_line_cons. cbn [negb andb Ascii.eqb].
    destruct d; try reflexivity; apply one_line_uint.
Qed.

Lemma one_line_bin_pos (p : positive) : one_line (Py.bin_pos p) = true.
Proof.
  induction p as [p IH|p IH|]; simpl; [| |reflexivity];
    now rewrite one_line_app, IH.
Qed.

Lemma one_line_format_b (n : Z) : one_line (Py.format_b n) = true.
Proof.
  destruct n as [|p|p]; simpl; [reflexivity|apply one_line_bin_pos|].
  rewrite one_line_cons. now rewrite one_line_bin_pos.
Qed.

(** Splits a goal [one_line (a ++ b ++ ...) = true] into its pieces. *)
Ltac one_line_solve :=
  repeat match goal with
         | H : one_line (String _ _) = true |- _ =>
             rewrite one_line_cons in H; apply andb_prop in H; destruct H
         end;
  repeat first [rewrite one_line_cons | rewrite one_line_app];
  repeat (apply andb_true_intro; split);
  try reflexivity; try assumption;
  try apply one_line_str; try apply one_line_format_b; auto.

Lemma one_line_of_list (l : list ascii) :
  Forall (fun c => Ascii.eqb newline c = false) l ->
  one_line (string_of_list_ascii l) = true.
Proof.
  induction 1 as [|c l Hc _ IH]; [reflexivity|].
  simpl. now rewrite one_line_cons, Hc, IH.
Qed.

(** A string without newline is one line of the text. *)
Lemma text_lines_line (s : string) :
  one_line s = true ->
  forall cur rest,
    text_lines cur (s ++ String newline rest)
    = (cur ++ s) :: text_lines EmptyString rest.
Proof.
  induction s as [|c s IH]; intros Hs cur rest.
  - simpl. now rewrite append_empty_r.
  - rewrite one_line_cons in Hs. apply andb_prop in Hs as [Hc Hs].
    apply negb_true_iff in Hc. rewrite Ascii.eqb_sym in Hc.
    change (String c s ++ String newline rest)
      with (String c (s ++ String newline rest)).
    cbn [text_lines]. rewrite Hc, (IH Hs).
    now rewrite append_assoc_string.
Qed.

(** When no string handed to [print] holds a newline, the lines of the
    file are these strings. *)
Lemma file_lines_clean (out : list string) :
  Forall (fun l => one_line l = true) out -> file_lines out = out.
Proof.
  unfold file_lines. induction 1 as [|s out Hs _ IH]; [reflexivity|].
  cbn [file_text]. rewrite (text_lines_line s Hs). simpl. now rewrite IH.
Qed.

(** [str.split] cuts its pieces out of the string. *)
Lemma split_aux_clean (sep : string) (s : string) :
  one_line s = true ->
  forall skip cur,
    Forall (fun c => Ascii.eqb newline c = false) cur ->
    Forall (fun l => one_line l = true) (Py.split_aux sep skip cur s).
Proof.
  assert (Hcur : forall cur,
             Forall (fun c => Ascii.eqb newline c = false) cur ->
             one_line (string_of_list_ascii (rev cur)) = true).
  { intros cur H. apply one_line_of_list. now apply Forall_rev. }
  induction s as [|c s IH]; intros Hs skip cur Hc.
  - destruct skip; simpl; repeat constructor; now apply Hcur.
  - rewrite one_line_cons in Hs. apply andb_prop in Hs as [Hn Hs].
    apply negb_true_iff in Hn.
    destruct skip as [|k]; cbn [Py.split_aux].
    + destruct (String.prefix sep (String c s)).
      * constructor; [now apply Hcur|]. apply IH; [exact Hs|constructor].
      * apply IH; [exact Hs|]. now constructor.
    + now apply IH.
Qed.

(** Cut at the newlines, no piece holds one. *)
Lemma split_newline_clean (s : string) :
  forall cur,
    Forall (fun c => Ascii.eqb newline c = false) cur ->
    Forall (fun l => one_line l = true)
      (Py.split_aux (String newline EmptyString) 0 cur s).
Proof.
  assert (Hcur : forall cur,
             Forall (fun c => Ascii.eqb newline c = false) cur ->
             one_line (string_of_list_ascii (rev cur)) = true).
  { intros cur H. apply one_line_of_list. now apply Forall_rev. }
  induction s as [|c s IH]; intros cur Hc; cbn [Py.split_aux].
  - repeat constructor. now apply Hcur.
  - destruct (Ascii.eqb newline c) eqn:En.
    + apply Ascii.eqb_eq in En. subst c. rewrite prefix_cons_eq.
      replace (String.prefix EmptyString s) with true by now destruct s.
      constructor; [now apply Hcur|]. apply IH. constructor.
    + rewrite prefix_cons_ne
        by (intros Heq; rewrite <- Heq, Ascii.eqb_refl in En; discriminate).
      apply IH. now constructor.
Qed.

Lemma in_list_clean (x : string) (l : list string) :
  forallb one_line l = true -> Py.in_list x l = true -> one_line x = true.
Proof.
  unfold Py.in_list. intros Hl Hx. apply existsb_exists in Hx as (y & Hy & E).
  apply String.eqb_eq in E. subst y.
  rewrite forallb_forall in Hl. now apply Hl.
Qed.

(** *** What the encoders return *)

Section CleanEncoders.

Variable format_16g : pyvalue -> string.
Hypothesis format_16g_clean : forall v, one_line (format_16g v) = true.

Lemma format_value_clean var value line :
  one_line (ident var) = true -> clean_value value = true ->
  format_value format_16g var value = inr line -> one_line line = true.
Proof.
  intros Hid Hv. unfold format_value.
  destruct (cls var); [discriminate| | |].
  - unfold Scalar.format_value.
    destruct value as [|b|n|f|s|o|fm o];
      try (intros E; injection E as <-; one_line_solve);
      try (match goal with
           | |- context [if truthy ?v then _ else _] => destruct (truthy v)
           end; intros E; injection E as <-; one_line_solve).
    destruct s as [|c [|c' s]]; try discriminate.
    destruct (Py.char_in c "01xzXZ"); [|discriminate].
    intros E; injection E as <-. simpl in Hv. one_line_solve.
  - unfold Real.format_value.
    destruct (is_number value); [|discriminate].
    destruct (format_16g_raises value); [discriminate|].
    intros E; injection E as <-. one_line_solve.
  - unfold Vector.format_value.
    destruct (as_integer value) as [n|].
    + destruct (size var <? 0); [discriminate|].
      match goal with
      | |- context [if ?c then _ else _] => destruct c
      end; [discriminate|].
      intros E; injection E as <-. one_line_solve.
    + destruct value as [|b|n|f|s|o|fm o]; try discriminate.
      * intros E; injection E as <-. one_line_solve.
      * destruct (_ <=? _); [|discriminate].
        intros E; injection E as <-. simpl in Hv. one_line_solve.
Qed.

End CleanEncoders.

(** *** One setter at a time *)

Lemma clean_append (lines : list string) (w : VCDWriter) :
  Forall (fun l => one_line l = true) lines -> clean w ->
  clean (with_ofile (fun out => out +++ lines) w).
Proof.
  intros Hl Hc. destruct Hc as [Hout Hcache Hstrs Htypes Hdef Hkws].
  constructor; try assumption. simpl. apply Forall_app. now split.
Qed.

Lemma clean_print (line : string) (w : VCDWriter) :
  one_line line = true -> clean w ->
  clean (with_ofile (fun out => out +++ [line]) w).
Proof. intros Hl. apply clean_append. now constructor. Qed.

Lemma clean_same (w w' : VCDWriter) :
  _ofile w' = _ofile w -> _ident_values w' = _ident_values w ->
  _scope_var_strs w' = _scope_var_strs w ->
  _scope_types w' = _scope_types w ->
  _default_scope_type w' = _default_scope_type w ->
  _header_keywords w' = _header_keywords w ->
  clean w -> clean w'.
Proof.
  intros E1 E2 E3 E4 E5 E6 Hc.
  destruct Hc as [Hout Hcache Hstrs Htypes Hdef Hkws].
  constructor; congruence.
Qed.

Lemma clean_with_scope_var_strs strs w :
  Forall (fun kv => Forall (fun l => one_line l = true) (fst kv)
                    /\ Forall (fun l => one_line l = true) (snd kv)) strs ->
  clean w -> clean (with_scope_var_strs strs w).
Proof.
  intros H Hc. destruct Hc as [Hout Hcache Hstrs Htypes Hdef Hkws].
  constructor; assumption.
Qed.

Lemma clean_with_ident_values values w :
  Forall (fun kv => one_line (fst kv) = true /\ one_line (snd kv) = true)
    values ->
  clean w -> clean (with_ident_values values w).
Proof.
  intros H Hc. destruct Hc as [Hout Hcache Hstrs Htypes Hdef Hkws].
  constructor; assumption.
Qed.

Lemma clean_with_scope_types types w :
  Forall (fun kv => one_line (show_scope_type (snd kv)) = true) types ->
  clean w -> clean (with_scope_types types w).
Proof.
  intros H Hc. destruct Hc as [Hout Hcache Hstrs Htypes Hdef Hkws].
  constructor; assumption.
Qed.

Lemma clean_with_header_keywords_nil w :
  clean w -> clean (with_header_keywords [] w).
Proof.
  intros Hc. destruct Hc as [Hout Hcache Hstrs Htypes Hdef Hkws].
  constructor; try assumption. constructor.
Qed.

Lemma Forall_set_pair {V} (P : string * V -> Prop) d k v :
  P (k, v) -> Forall P d -> Forall P (Py.set String.eqb d k v).
Proof.
  intros Hv. induction 1 as [|[k0 v0] d Hx Hd IH]; simpl.
  - repeat constructor. exact Hv.
  - destruct (String.eqb_spec k k0) as [<-|_]; constructor; assumption.
Qed.

Lemma Forall_set_tuple {V} (P : scope_tuple * V -> Prop) d k v :
  P (k, v) -> Forall P d -> Forall P (Py.set Py.tuple_eqb d k v).
Proof.
  intros Hv. induction 1 as [|[k0 v0] d Hx Hd IH]; simpl.
  - repeat constructor. exact Hv.
  - destruct (Py.tuple_eqb k k0) eqn:E; constructor; try assumption.
    apply tuple_eqb_eq in E. now subst k0.
Qed.

Lemma Forall_get_tuple {V} (P : scope_tuple * V -> Prop) d k v :
  Forall P d -> Py.get Py.tuple_eqb d k = Some v -> P (k, v).
Proof.
  induction 1 as [|[k0 v0] d Hx Hd IH]; simpl; [discriminate|].
  destruct (Py.tuple_eqb k k0) eqn:E; [|exact IH].
  apply tuple_eqb_eq in E. subst k0. intros H. now injection H as <-.
Qed.

(** *** The header *)

Lemma keyword_lines_clean (kw : string * string) :
  one_line (fst kw) = true ->
  Forall (fun l => one_line l = true) (keyword_lines kw).
Proof.
  destruct kw as [kwname kwvalue]. simpl fst. intros Hk.
  unfold keyword_lines.
  destruct (String.eqb kwvalue ""); [constructor|].
  simpl Py.split. cbv iota.
  pose proof (split_newline_clean kwvalue [] (Forall_nil _)) as Hl.
  change (String "010" EmptyString) with (String newline EmptyString).
  revert Hl.
  generalize (Py.split_aux (String newline EmptyString) 0 [] kwvalue).
  intros lines Hl.
  assert (Htab : Forall (fun l => one_line l = true)
                   (map (fun line => String "009" line) lines)).
  { apply Forall_map. eapply Forall_impl; [|exact Hl].
    intros l H. simpl. now rewrite one_line_cons, H. }
  destruct lines as [|l [|l' lines]].
  - repeat constructor; assumption.
  - inversion Hl; subst. repeat constructor.
    apply one_line_join; [exact Hk|].
    apply one_line_join; [reflexivity|]. now apply one_line_join.
  - constructor; [exact Hk|].
    apply Forall_app. split; [exact Htab|repeat constructor].
Qed.

Lemma scope_switch_lines_clean types default prev scope i :
  Forall (fun kv => one_line (show_scope_type (snd kv)) = true) types ->
  one_line default = true ->
  Forall (fun l => one_line l = true) scope ->
  Forall (fun l => one_line l = true)
    (scope_switch_lines types default prev scope i).
Proof.
  intros Ht Hd Hs. unfold scope_switch_lines. apply Forall_app. split.
  - apply Forall_map. apply Forall_forall. intros; reflexivity.
  - apply Forall_map. apply Forall_forall. intros [j name] Hin.
    apply in_combine_r in Hin.
    assert (Hname : one_line name = true).
    { assert (H : Forall (fun l => one_line l = true) (skipn i scope)).
      { rewrite <- (firstn_skipn i scope) in Hs.
        now apply Forall_app in Hs as [_ Hs]. }
      rewrite Forall_forall in H. now apply H. }
    apply one_line_join; [reflexivity|].
    apply one_line_join.
    + destruct (Py.get Py.tuple_eqb types (firstn (i + j + 1) scope))
        as [t|] eqn:Eg; [|exact Hd].
      exact (Forall_get_tuple _ _ _ _ Ht Eg).
    + apply one_line_join; [reflexivity|]. now apply one_line_join.
Qed.

Lemma scope_loop_clean types default scopes :
  Forall (fun kv => one_line (show_scope_type (snd kv)) = true) types ->
  one_line default = true ->
  forall prev strs,
    Forall (fun kv => Forall (fun l => one_line l = true) (fst kv)
                      /\ Forall (fun l => one_line l = true) (snd kv)) strs ->
    Forall (fun kv => Forall (fun l => one_line l = true) (fst kv)
                      /\ Forall (fun l => one_line l = true) (snd kv))
      (snd (scope_loop types default scopes prev strs))
    /\ match fst (scope_loop types default scopes prev strs) with
       | inr lines => Forall (fun l => one_line l = true) lines
       | inl _ => True
       end.
Proof.
  intros Ht Hd.
  induction scopes as [|scope rest IH]; intros prev strs Hs; simpl.
  - split; [assumption|].
    apply Forall_app. split; [|repeat constructor].
    apply Forall_map. apply Forall_forall. intros; reflexivity.
  - destruct (Py.pop Py.tuple_eqb strs scope) as [[var_strs strs']|] eqn:Ep;
      [|split; [assumption|exact I]].
    destruct (Forall_pop _ _ _ _ _ _ Hs Ep) as [_ Hs'].
    destruct (pop_some _ _ _ _ Ep) as [Hin _].
    rewrite Forall_forall in Hs. destruct (Hs _ Hin) as [Hkey Hval].
    simpl in Hkey, Hval.
    specialize (IH (Some scope) strs' Hs').
    assert (Hgo :
      forall switch, Forall (fun l => one_line l = true) switch ->
        Forall (fun kv => Forall (fun l => one_line l = true) (fst kv)
                          /\ Forall (fun l => one_line l = true) (snd kv))
          (snd (match scope_loop types default rest (Some scope) strs' with
                | (inr lines, strs'') =>
                    (inr (switch +++ var_strs +++ lines), strs'')
                | (inl e, strs'') => (inl e, strs'')
                end))
        /\ match fst (match scope_loop types default rest (Some scope) strs' with
                      | (inr lines, strs'') =>
                          (inr (switch +++ var_strs +++ lines), strs'')
                      | (inl e, strs'') => (@inl exn (list string) e, strs'')
                      end) with
           | inr lines => Forall (fun l => one_line l = true) lines
           | inl _ => True
           end).
    { intros switch Hsw.
      destruct (scope_loop types default rest (Some scope) strs')
        as [[e|lines] strs'']; simpl in *; destruct IH as [H1 H2];
        (split; [assumption|]); [exact I|].
      apply Forall_app. split; [assumption|].
      apply Forall_app. split; assumption. }
    destruct (first_diff 0 _ scope) as [i|] eqn:Ed.
    + apply Hgo. now apply scope_switch_lines_clean.
    + destruct prev as [p|].
      * split; [assumption|exact I].
      * exact (Hgo [] (Forall_nil _)).
Qed.

Lemma gen_header_clean (Q : list string -> VCDWriter -> Prop)
      (E : VCDWriter -> Prop) (w : VCDWriter) :
  clean w ->
  (forall lines strs,
      Forall (fun l => one_line l = true) lines ->
      Forall (fun kv => Forall (fun l => one_line l = true) (fst kv)
                        /\ Forall (fun l => one_line l = true) (snd kv))
        strs ->
      Q lines (with_scope_var_strs strs w)) ->
  (forall strs,
      Forall (fun kv => Forall (fun l => one_line l = true) (fst kv)
                        /\ Forall (fun l => one_line l = true) (snd kv))
        strs ->
      E (with_scope_var_strs strs w)) ->
  wp _gen_header Q E w.
Proof.
  intros Hc HQ HE. unfold _gen_header.
  wp_step.
  destruct (scope_loop_clean (_scope_types w) (_default_scope_type w)
              (Py.sorted Py.cmp_tuple (Py.keys (_scope_var_strs w)))
              (c_types _ Hc) (c_default _ Hc) None
              (_scope_var_strs w) (c_strs _ Hc)) as [Hs Hl].
  destruct (scope_loop _ _ _ _ _) as [r strs']. simpl in Hs, Hl.
  wp_step. destruct r as [e|lines].
  - apply HE. exact Hs.
  - wp_step. apply HQ; [|exact Hs].
    apply Forall_app. split; [|exact Hl].
    apply Forall_flat_map. apply Forall_sorted.
    eapply Forall_impl; [|exact (c_kws _ Hc)].
    intros kw. apply keyword_lines_clean.
Qed.

(** *** The dump blocks *)

Lemma dump_values_clean (keyword : string) Q E w :
  one_line keyword = true -> clean w ->
  (forall lines, Forall (fun l => one_line l = true) lines ->
                 Q tt (with_ofile (fun out => out +++ lines) w)) ->
  wp (_dump_values keyword) Q E w.
Proof.
  intros Hk Hc HQ.
  unfold _dump_values, wp, bind, print, print_star, gets, modify.
  cbv beta iota.
  rewrite !with_ofile_app. apply HQ.
  constructor; [exact Hk|]. apply Forall_app. split; [|repeat constructor].
  assert (Hp : Forall (fun l => one_line l = true)
                 (Py.values (_ident_values w))).
  { unfold Py.values. apply Forall_map.
    eapply Forall_impl; [|exact (c_cache _ Hc)]. now intros kv [_ H]. }
  change (_ident_values (with_ofile (fun out => out +++ [keyword]) w))
    with (_ident_values w).
  destruct (Py.values (_ident_values w)); [repeat constructor|exact Hp].
Qed.

Lemma dump_off_loop_clean (items : list (string * string)) :
  Forall (fun kv => one_line (fst kv) = true /\ one_line (snd kv) = true)
    items ->
  forall w,
  exists lines,
    Forall (fun l => one_line l = true) lines
    /\ snd (_dump_off_loop items w) = with_ofile (fun out => out +++ lines) w.
Proof.
  induction 1 as [|[id val_str] items [Hid _] _ IH]; intros w;
    cbn [_dump_off_loop].
  - exists []. split; [constructor|]. now rewrite with_ofile_nil.
  - simpl in Hid. destruct val_str as [|c val_str].
    + exists []. split; [constructor|]. simpl. now rewrite with_ofile_nil.
    + unfold bind.
      destruct (Ascii.eqb c "b"); [|destruct (Ascii.eqb c "r")];
        unfold print, modify, ret; cbv beta iota.
      * destruct (IH (with_ofile (fun out => out +++ ["bx " ++ id]) w))
          as (lines & Hl & E).
        exists (["bx " ++ id] +++ lines). split.
        -- constructor; [now apply one_line_join|exact Hl].
        -- rewrite <- with_ofile_app.
           destruct (_dump_off_loop items _) as [[e|[]] w']; exact E.
      * destruct (IH w) as (lines & Hl & E).
        exists lines. split; [exact Hl|].
        destruct (_dump_off_loop items _) as [[e|[]] w']; exact E.
      * destruct (IH (with_ofile (fun out => out +++ ["x" ++ id]) w))
          as (lines & Hl & E).
        exists (["x" ++ id] +++ lines). split.
        -- constructor; [now apply one_line_join|exact Hl].
        -- rewrite <- with_ofile_app.
           destruct (_dump_off_loop items _) as [[e|[]] w']; exact E.
Qed.

Lemma dump_off_clean_block (m : Z) Q E w :
  clean w ->
  (forall lines, Forall (fun l => one_line l = true) lines ->
                 Q tt (with_ofile (fun out => out +++ lines) w)
                 /\ E (with_ofile (fun out => out +++ lines) w)) ->
  wp (_dump_off m) Q E w.
Proof.
  intros Hc H. unfold wp, _dump_off, bind, print, gets, modify.
  cbv beta iota.
  set (w1 := with_ofile _ (with_ofile _ w)).
  change (_ident_values w1) with (_ident_values w).
  destruct (dump_off_loop_clean (_ident_values w) (c_cache _ Hc) w1)
    as (lines & Hl & Eq).
  assert (Hhead : Forall (fun l => one_line l = true)
                    ["#" ++ Py.str m; "$dumpoff"]).
  { constructor; [|repeat constructor].
    apply one_line_join; [reflexivity|apply one_line_str]. }
  destruct (_dump_off_loop (_ident_values w) w1) as [[e|[]] w2];
    simpl in Eq; subst w2; unfold w1; rewrite !with_ofile_app.
  - apply H. inversion Hhead as [|? ? H1 H2]; subst.
    repeat (apply Forall_app; split); try assumption.
    now constructor.
  - apply H. inversion Hhead as [|? ? H1 H2]; subst.
    repeat (apply Forall_app; split); try assumption;
      [now constructor|repeat constructor].
Qed.

(** *** Every method keeps the file free of stray newlines *)

Section MethodsClean.

Variable format_16g : pyvalue -> string.
Hypothesis format_16g_clean : forall v, one_line (format_16g v) = true.

Lemma finalize_clean Q E w :
  clean w ->
  (forall w', clean w' -> Q tt w') ->
  (forall w', clean w' -> E w') ->
  wp _finalize_registration Q E w.
Proof.
  intros Hc HQ HE. unfold _finalize_registration.
  wp_step. destruct (_registering w) eqn:Hr; simpl negb; cbv iota.
  2:{ wp_step. now apply HE. }
  wp_step. apply gen_header_clean; [assumption| |].
  2:{ intros strs Hs. apply HE. now apply clean_with_scope_var_strs. }
  intros lines strs Hl Hs.
  set (w1 := with_scope_var_strs strs w).
  assert (Hc1 : clean w1) by now apply clean_with_scope_var_strs.
  wp_step. unfold print_star at 1. wp_step.
  match goal with
  | |- context [with_ofile (fun out => out +++ ?l) w1] =>
      set (hdr := l);
      assert (Hhdr : Forall (fun ln => one_line ln = true) hdr)
  end.
  { unfold hdr. destruct lines; [repeat constructor|assumption]. }
  set (w2 := with_ofile _ w1).
  assert (Hc2 : clean w2) by now apply clean_append.
  assert (Hdone : forall w3, clean w3 ->
            Q tt (with_scope_var_names []
                    (with_scope_types []
                       (with_header_keywords []
                          (with_registering false w3))))).
  { intros w3 Hc3. apply HQ.
    apply (clean_same (with_scope_types []
                         (with_header_keywords [] w3))); try reflexivity.
    apply clean_with_scope_types; [constructor|].
    now apply clean_with_header_keywords_nil. }
  destruct (nonempty (_ident_values w2)).
  - wp_step. apply dump_values_clean; [reflexivity|assumption|].
    intros dv Hdv.
    set (w3 := with_ofile _ w2).
    assert (Hc3 : clean w3) by now apply clean_append.
    wp_step. destruct (_dumping w3); simpl negb; cbv iota.
    + wp_step. now apply Hdone.
    + apply dump_off_clean_block; [exact Hc3|]. intros off Hoff.
      assert (Hc4 : clean (with_ofile (fun out => out +++ off) w3))
        by now apply clean_append.
      split; [|now apply HE].
      wp_step. now apply Hdone.
  - wp_step. now apply Hdone.
Qed.

Lemma change_clean var ts value w :
  one_line (ident var) = true -> clean_value value = true ->
  clean w ->
  wp (change format_16g var ts value) (fun _ => clean) clean w.
Proof.
  intros Hid Hv Hc. unfold change.
  wp_step.
  destruct (ts <? _prev_timestamp w); [wp_step; assumption|].
  destruct (_closed w); [wp_step; assumption|].
  wp_step.
  destruct (format_value format_16g var value) as [e|val_str] eqn:Ef;
    [assumption|].
  apply (format_value_clean format_16g format_16g_clean _ _ _ Hid Hv) in Ef.
  wp_step.
  assert (Hrest : forall w1,
    clean w1 ->
    wp (dumping <- gets _dumping ;;
        if negb (ts =? 0) && dumping then
          prev <- gets _prev_timestamp ;;
          when (prev <? ts)
            (print ("#" ++ Py.str ts) ;;
             modify (with_prev_timestamp ts)) ;;
          print val_str
        else
          values <- gets _ident_values ;;
          modify (with_ident_values
                    (Py.set String.eqb values (ident var) val_str)))
       (fun _ => clean) clean w1).
  { intros w1 Hc1. wp_step.
    assert (Hcache : clean (with_ident_values
                              (Py.set String.eqb (_ident_values w1)
                                 (ident var) val_str) w1)).
    { apply clean_with_ident_values; [|assumption].
      apply Forall_set_pair; [now split|exact (c_cache _ Hc1)]. }
    destruct (negb (ts =? 0) && _dumping w1); [|wp_step; exact Hcache].
    wp_step. destruct (_prev_timestamp w1 <? ts); wp_step.
    - apply clean_print; [assumption|].
      apply (clean_same (with_ofile (fun out => out +++ ["#" ++ Py.str ts])
                           w1)); try reflexivity.
      apply clean_print; [|assumption].
      apply one_line_join; [reflexivity|apply one_line_str].
    - now apply clean_print. }
  destruct (negb (ts =? 0) && _registering w).
  - apply finalize_clean; [assumption| |auto].
    intros w' Hc'. now apply Hrest.
  - wp_step. now apply Hrest.
Qed.

Lemma set_scope_type_clean scope scope_type w :
  clean w ->
  wp (set_scope_type scope scope_type) (fun _ => clean) clean w.
Proof.
  intros Hc. unfold set_scope_type.
  assert (Hrest :
    one_line (show_scope_type scope_type) = true ->
    wp (scope_tuple <- _get_scope_tuple scope ;;
        types <- gets _scope_types ;;
        modify (with_scope_types
                  (Py.set Py.tuple_eqb types scope_tuple scope_type)))
       (fun _ => clean) clean w).
  { intros Ht. wp_step. apply get_scope_tuple_ok; [|assumption].
    intros tuple. wp_step. apply clean_with_scope_types; [|assumption].
    apply (Forall_set_tuple
             (fun kv => one_line (show_scope_type (snd kv)) = true));
      [exact Ht|exact (c_types _ Hc)]. }
  rewrite wp_bind.
  destruct scope_type as [tag|]; [|rewrite wp_ret; now apply Hrest].
  rewrite wp_when.
  destruct (Py.in_list tag SCOPE_TYPES) eqn:Hin; cbn [negb];
    [|rewrite wp_raise; assumption].
  apply Hrest. simpl. now apply (in_list_clean tag SCOPE_TYPES).
Qed.

Lemma get_scope_tuple_clean scope (Q : scope_tuple -> VCDWriter -> Prop) E w :
  clean_scope scope = true ->
  (forall tuple, Forall (fun l => one_line l = true) tuple -> Q tuple w) ->
  E w -> wp (_get_scope_tuple scope) Q E w.
Proof.
  intros Hs HQ HE. unfold _get_scope_tuple. destruct scope as [s|l|].
  - wp_step. unfold Py.split.
    destruct (_scope_sep w); wp_step; [exact HE|].
    apply HQ. now apply split_aux_clean.
  - wp_step. apply HQ. simpl in Hs. rewrite forallb_forall in Hs.
    now apply Forall_forall.
  - wp_step. exact HE.
Qed.

Lemma register_var_clean scope name var_type size init ident w :
  clean_scope scope = true -> one_line name = true ->
  clean_value init = true -> clean_ident ident = true ->
  clean w ->
  wp (register_var format_16g scope name var_type size init ident)
     (fun _ => clean) clean w.
Proof.
  intros Hscope Hname Hinit Hident Hc. unfold register_var. wp_step.
  destruct (_closed w); [wp_step; assumption|].
  destruct (negb (_registering w)); [wp_step; assumption|].
  destruct (Py.in_list var_type VAR_TYPES) eqn:Hvt; cbn [negb];
    [|wp_step; assumption].
  wp_step. apply get_scope_tuple_clean; [exact Hscope| |assumption].
  intros tuple Htuple. wp_step.
  destruct (setdefault (_scope_var_names w) tuple) as [scope_names names'].
  wp_step.
  set (w1 := with_scope_var_names names' w).
  assert (Hc1 : clean w1) by (apply (clean_same w); auto).
  destruct (Py.in_list name scope_names); [wp_step; assumption|].
  wp_step.
  set (id := match ident with
             | Some i => i
             | None => "v" ++ Py.str (_next_var_id w1)
             end).
  assert (Hid : one_line id = true).
  { unfold id. destruct ident as [i|]; [exact Hident|].
    apply one_line_join; [reflexivity|apply one_line_str]. }
  eapply wp_mono; [apply change_clean; [| |exact Hc1]| |auto].
  - destruct (size =? 1); [exact Hid|].
    destruct (String.eqb var_type "real"); exact Hid.
  - destruct init; try exact Hinit.
    now destruct (String.eqb var_type "real").
  - intros [] w2 Hc2. wp_step.
    apply (clean_same
             (with_scope_var_strs
                (append_at (snd (setdefault (_scope_var_strs w2) tuple))
                   tuple
                   ("$var " ++ var_type ++ " " ++ Py.str size ++ " " ++ id
                            ++ " " ++ name ++ " $end")) w2));
      try reflexivity.
    apply clean_with_scope_var_strs; [|exact Hc2].
    assert (Hline : one_line ("$var " ++ var_type ++ " " ++ Py.str size
                                      ++ " " ++ id ++ " " ++ name ++ " $end")
                    = true).
    { apply one_line_join; [reflexivity|].
      apply one_line_join;
        [now apply (in_list_clean var_type VAR_TYPES)|].
      apply one_line_join; [reflexivity|].
      apply one_line_join; [apply one_line_str|].
      apply one_line_join; [reflexivity|].
      apply one_line_join; [exact Hid|].
      apply one_line_join; [reflexivity|].
      now apply one_line_join. }
    assert (Hsd : Forall
                    (fun kv => Forall (fun l => one_line l = true) (fst kv)
                               /\ Forall (fun l => one_line l = true) (snd kv))
                    (snd (setdefault (_scope_var_strs w2) tuple))).
    { unfold setdefault.
      destruct (Py.get Py.tuple_eqb (_scope_var_strs w2) tuple); simpl;
        [exact (c_strs _ Hc2)|].
      apply Forall_set_tuple; [now split|exact (c_strs _ Hc2)]. }
    unfold append_at.
    destruct (Py.get Py.tuple_eqb (snd (setdefault (_scope_var_strs w2) tuple))
                tuple) as [v|] eqn:Eg; [|exact Hsd].
    apply Forall_set_tuple; [|exact Hsd].
    destruct (Forall_get_tuple _ _ _ _ Hsd Eg) as [Hk Hv]. simpl in Hk, Hv.
    split; [exact Hk|]. simpl. apply Forall_app. split; [exact Hv|].
    now repeat constructor.
Qed.

Lemma dump_off_clean t w :
  clean w -> wp (dump_off t) (fun _ => clean) clean w.
Proof.
  intros Hc. unfold dump_off. wp_step.
  destruct (_dumping w && negb (_registering w) && nonempty (_ident_values w)).
  - apply dump_off_clean_block; [exact Hc|]. intros lines Hl.
    assert (Hc1 : clean (with_ofile (fun out => out +++ lines) w))
      by now apply clean_append.
    split; [|assumption]. wp_step.
    eapply clean_same; [| | | | | |exact Hc1]; reflexivity.
  - wp_step. now apply (clean_same w).
Qed.

Lemma dump_on_clean t w :
  clean w -> wp (dump_on t) (fun _ => clean) clean w.
Proof.
  intros Hc. unfold dump_on. wp_step.
  destruct (negb (_dumping w) && negb (_registering w)
            && nonempty (_ident_values w)).
  - wp_step.
    assert (Hc1 : clean (with_ofile
                     (fun out => out +++ ["#" ++ Py.str t]) w)).
    { apply clean_print; [|assumption].
      apply one_line_join; [reflexivity|apply one_line_str]. }
    apply dump_values_clean; [reflexivity|assumption|].
    intros lines Hl. wp_step.
    apply (clean_same (with_ofile (fun out => out +++ lines)
                         (with_ofile (fun out => out +++ ["#" ++ Py.str t])
                            w))); try reflexivity.
    now apply clean_append.
  - wp_step. now apply (clean_same w).
Qed.

Lemma flush_clean (ts : option Z) w :
  clean w -> wp (flush ts) (fun _ => clean) clean w.
Proof.
  intros Hc. unfold flush.
  rewrite wp_bind, wp_gets, wp_bind, wp_when.
  destruct (_closed w); [rewrite wp_raise; assumption|].
  rewrite wp_bind, wp_gets, wp_bind, wp_when.
  assert (Hrest : forall w1,
    clean w1 ->
    wp (prev <- gets _prev_timestamp ;;
        match ts with
        | Some t0 => when (prev <? t0) (print ("#" ++ Py.str t0))
        | None => ret tt
        end ;;
        modify (with_ofile_flushes S))
       (fun _ => clean) clean w1).
  { intros w1 Hc1. wp_step.
    destruct ts as [t|]; wp_step.
    - destruct (_prev_timestamp w1 <? t); wp_step.
      + apply (clean_same (with_ofile (fun out => out +++ ["#" ++ Py.str t])
                             w1)); try reflexivity.
        apply clean_print; [|assumption].
        apply one_line_join; [reflexivity|apply one_line_str].
      + now apply (clean_same w1).
    - now apply (clean_same w1). }
  destruct (_registering w).
  - apply finalize_clean; [assumption| |auto].
    intros w' Hc'. now apply Hrest.
  - now apply Hrest.
Qed.

Lemma close_clean (ts : option Z) w :
  clean w -> wp (close ts) (fun _ => clean) clean w.
Proof.
  intros Hc. unfold close. wp_step.
  destruct (_closed w); simpl negb; cbv iota; wp_step; [assumption|].
  eapply wp_mono; [now apply flush_clean| |auto].
  intros [] w' Hc'. wp_step. now apply (clean_same w').
Qed.

Lemma exec_clean (c : call) (w : VCDWriter) :
  clean_call c = true -> clean w -> clean (exec format_16g c w).
Proof.
  intros Hcall Hc.
  assert (Hwp : forall A (m : M A),
             wp m (fun _ => clean) clean w -> clean (snd (m w))).
  { intros A m H. unfold wp in H. now destruct (m w) as [[e|x] w']. }
  destruct c; simpl in Hcall; simpl; apply Hwp.
  - now apply set_scope_type_clean.
  - apply andb_prop in Hcall as [Hcall H4].
    apply andb_prop in Hcall as [Hcall H3].
    apply andb_prop in Hcall as [H1 H2].
    now apply register_var_clean.
  - apply andb_prop in Hcall as [Hcall H4].
    apply andb_prop in Hcall as [Hcall H3].
    apply andb_prop in Hcall as [H1 H2].
    now apply register_var_clean.
  - apply andb_prop in Hcall as [Hcall H3].
    apply andb_prop in Hcall as [H1 H2].
    now apply register_var_clean.
  - apply andb_prop in Hcall as [Hcall H4].
    apply andb_prop in Hcall as [Hcall H3].
    apply andb_prop in Hcall as [H1 H2].
    now apply register_var_clean.
  - apply andb_prop in Hcall as [H1 H2]. now apply change_clean.
  - now apply dump_off_clean.
  - now apply dump_on_clean.
  - now apply flush_clean.
  - now apply close_clean.
Qed.

Lemma run_clean (cs : list call) (w : VCDWriter) :
  forallb clean_call cs = true -> clean w -> clean (run format_16g cs w).
Proof.
  revert w. induction cs as [|c cs IH]; intros w Hcs Hc; [exact Hc|].
  simpl in Hcs. apply andb_prop in Hcs as [Hcall Hcs].
  simpl. apply IH; [exact Hcs|]. now apply exec_clean.
Qed.

End MethodsClean.

Lemma init_clean now timescale date comment version default_scope_type
      scope_sep w :
  VCDWriter_init now timescale date comment version default_scope_type
    scope_sep = inr w ->
  clean w.
Proof.
  unfold VCDWriter_init.
  destruct (_check_timescale timescale); [discriminate|].
  destruct (Py.in_list default_scope_type SCOPE_TYPES) eqn:Hd; cbn [negb];
    [|discriminate].
  intros E; injection E as <-.
  constructor; simpl; try (now constructor).
  - now apply (in_list_clean default_scope_type SCOPE_TYPES).
  - repeat constructor.
Qed.

(** The formatting used in the examples returns no newline. *)
Lemma format_16g_sample_clean (v : pyvalue) :
  one_line (format_16g_sample v) = true.
Proof.
  unfold format_16g_sample.
  destruct (as_integer v); [apply one_line_str|reflexivity].
Qed.

(** ** Timestamp markers in the output *)

Lemma markers_app (a b : list string) :
  markers (a +++ b) = markers a +++ markers b.
Proof. apply flat_map_app. Qed.

Lemma markers_plain (lines : list string) :
  Forall plain lines -> markers lines = [].
Proof.
  induction 1 as [|l lines Hl _ IH]; [reflexivity|].
  simpl. unfold plain in Hl. now rewrite Hl, IH.
Qed.

Lemma plain_first (c : ascii) (s : string) : c <> "#"%char -> plain (String c s).
Proof.
  intros Hc. unfold plain. simpl.
  destruct c as [[] [] [] [] [] [] [] []]; try reflexivity.
  now elim Hc.
Qed.

Lemma sorted_snoc (l : list Z) (m : Z) :
  StronglySorted Z.le l -> Forall (fun x => x <= m) l ->
  StronglySorted Z.le (l +++ [m]).
Proof.
  induction 1 as [|x l Hs IH Hx]; intros Hm; simpl.
  - repeat constructor.
  - inversion Hm; subst. constructor; [auto|].
    apply Forall_app. split; [assumption|]. now constructor.
Qed.

Section MarkersOk.

Variables a u : Z.

Lemma ok_append_plain (lines : list string) (w : VCDWriter) :
  Forall plain lines -> markers_ok a u w ->
  markers_ok a u (with_ofile (fun out => out +++ lines) w).
Proof.
  intros Hl [].
  constructor; simpl; try assumption;
    rewrite markers_app, (markers_plain _ Hl), List.app_nil_r; assumption.
Qed.

Lemma ok_print_plain (line : string) (w : VCDWriter) :
  plain line -> markers_ok a u w ->
  markers_ok a u (with_ofile (fun out => out +++ [line]) w).
Proof. intros Hl. apply ok_append_plain. now constructor. Qed.

(** Lines holding the single marker [m] may be written when [m] is at
    least every earlier marker, at most the bound, and, while registration
    is open, at most 0. *)
Lemma ok_append_marker (m : Z) (lines : list string) (w : VCDWriter) :
  markers lines = [m] ->
  Forall (fun x => x <= m) (markers (_ofile w)) ->
  m <= Z.max u (_prev_timestamp w) ->
  (_registering w = true -> m <= 0) ->
  markers_ok a u w ->
  markers_ok a u (with_ofile (fun out => out +++ lines) w).
Proof.
  intros Hl Hm Ht Hr [].
  constructor; simpl; try assumption; rewrite markers_app, Hl.
  - now apply sorted_snoc.
  - apply Forall_app. split; [assumption|]. now constructor.
  - intros H. apply Forall_app. split; [auto|]. constructor; auto.
Qed.

(** The marker of a [change]: above the cursor, which moves to it. *)
Lemma ok_change_marker (ts : Z) (w : VCDWriter) :
  _prev_timestamp w < ts -> u <= ts -> ts <= a ->
  _registering w = false ->
  markers_ok a u w ->
  markers_ok a u
    (with_prev_timestamp ts
       (with_ofile (fun out => out +++ ["#" ++ Py.str ts]) w)).
Proof.
  intros Hp Hu Ha Hr [].
  assert (Hm : markers [String "#" (Py.str ts)] = [ts]).
  { unfold markers. simpl. now rewrite PyFacts.int_of_str. }
  assert (Hle : Forall (fun x => x <= ts) (markers (_ofile w))).
  { eapply Forall_impl; [|eassumption]. simpl. intros; lia. }
  constructor; simpl; try assumption; try lia;
    try (rewrite markers_app, Hm).
  - now apply sorted_snoc.
  - apply Forall_app. split.
    + eapply Forall_impl; [|exact Hle]. simpl. intros; lia.
    + constructor; [lia|constructor].
  - congruence.
Qed.

Lemma ok_bound_le (m : Z) (w : VCDWriter) :
  u <= m -> _prev_timestamp w <= m -> markers_ok a u w ->
  Forall (fun x => x <= m) (markers (_ofile w)).
Proof.
  intros Hu Hp []. eapply Forall_impl; [|eassumption]. simpl. intros; lia.
Qed.

Lemma ok_with_ofile_flushes f w :
  markers_ok a u w -> markers_ok a u (with_ofile_flushes f w).
Proof. intros []. constructor; assumption. Qed.

Lemma ok_with_header_keywords_nil w :
  markers_ok a u w -> markers_ok a u (with_header_keywords [] w).
Proof. intros []. constructor; simpl; auto. Qed.

Lemma ok_with_registering_false w :
  markers_ok a u w -> markers_ok a u (with_registering false w).
Proof. intros []. constructor; simpl; auto. discriminate. Qed.

Lemma ok_with_closed b w : markers_ok a u w -> markers_ok a u (with_closed b w).
Proof. intros []. constructor; assumption. Qed.

Lemma ok_with_dumping b w :
  markers_ok a u w -> markers_ok a u (with_dumping b w).
Proof. intros []. constructor; assumption. Qed.

Lemma ok_with_next_var_id n w :
  markers_ok a u w -> markers_ok a u (with_next_var_id n w).
Proof. intros []. constructor; assumption. Qed.

Lemma ok_with_scope_var_strs strs w :
  Forall (fun kv => Forall plain (snd kv)) strs ->
  markers_ok a u w -> markers_ok a u (with_scope_var_strs strs w).
Proof. intros H []. constructor; assumption. Qed.

Lemma ok_with_scope_var_names names w :
  markers_ok a u w -> markers_ok a u (with_scope_var_names names w).
Proof. intros []. constructor; assumption. Qed.

Lemma ok_with_scope_types types w :
  markers_ok a u w -> markers_ok a u (with_scope_types types w).
Proof. intros []. constructor; assumption. Qed.

Lemma ok_with_ident_values values w :
  Forall (fun kv => plain (snd kv)) values ->
  markers_ok a u w -> markers_ok a u (with_ident_values values w).
Proof. intros H []. constructor; assumption. Qed.

End MarkersOk.

Lemma ok_weaken (a u a' u' : Z) (w : VCDWriter) :
  a <= a' -> u <= u' -> u' <= a' -> markers_ok a u w -> markers_ok a' u' w.
Proof.
  intros Ha Hu Hua []. constructor; try assumption; try lia.
  eapply Forall_impl; [|eassumption]. simpl. intros; lia.
Qed.

(** *** What the dump blocks append *)

Lemma dump_values_appends (keyword : string) (w : VCDWriter) :
  plain keyword ->
  Forall (fun kv => plain (snd kv)) (_ident_values w) ->
  exists lines,
    Forall plain lines
    /\ _dump_values keyword w = (inr tt, with_ofile (fun out => out +++ lines) w).
Proof.
  intros Hk Hv.
  exists ([keyword]
          +++ match Py.values (_ident_values w) with [] => [""] | l => l end
          +++ ["$end"]).
  split.
  - apply Forall_app. split; [now constructor|].
    apply Forall_app. split; [|constructor; [reflexivity|constructor]].
    assert (Hp : Forall plain (Py.values (_ident_values w))).
    { unfold Py.values. apply Forall_map. exact Hv. }
    destruct (Py.values (_ident_values w)); [|exact Hp].
    constructor; [reflexivity|constructor].
  - unfold _dump_values, bind, print, print_star, gets, modify. simpl.
    f_equal. unfold with_ofile. simpl. f_equal.
    rewrite <- !List.app_assoc. simpl.
    now destruct (Py.values (_ident_values w)).
Qed.

Lemma dump_off_loop_appends (items : list (string * string)) (w : VCDWriter) :
  exists lines,
    Forall plain lines
    /\ snd (_dump_off_loop items w) = with_ofile (fun out => out +++ lines) w.
Proof.
  revert w. induction items as [|[id val_str] items IH]; intros w; simpl.
  - exists []. split; [constructor|]. now rewrite with_ofile_nil.
  - destruct val_str as [|c val_str].
    + exists []. split; [constructor|]. simpl. now rewrite with_ofile_nil.
    + unfold bind.
      destruct (Ascii.eqb c "b").
      * simpl. destruct (IH (with_ofile (fun out => out +++ ["bx " ++ id]) w))
          as (lines & Hl & E).
        exists (["bx " ++ id] +++ lines). split.
        -- constructor; [reflexivity|exact Hl].
        -- rewrite <- with_ofile_app.
           destruct (_dump_off_loop items _) as [[e|[]] w']; exact E.
      * destruct (Ascii.eqb c "r").
        -- simpl. destruct (IH w) as (lines & Hl & E).
           exists lines. split; [exact Hl|].
           destruct (_dump_off_loop items _) as [[e|[]] w']; exact E.
        -- simpl. destruct (IH (with_ofile (fun out => out +++ ["x" ++ id]) w))
             as (lines & Hl & E).
           exists (["x" ++ id] +++ lines). split.
           ++ constructor; [reflexivity|exact Hl].
           ++ rewrite <- with_ofile_app.
              destruct (_dump_off_loop items _) as [[e|[]] w']; exact E.
Qed.

Lemma dump_off_appends (m : Z) (w : VCDWriter) :
  exists lines,
    markers lines = [m]
    /\ snd (_dump_off m w) = with_ofile (fun out => out +++ lines) w.
Proof.
  unfold _dump_off, bind, print, gets, modify. simpl.
  set (w1 := with_ofile _ (with_ofile _ w)).
  destruct (dump_off_loop_appends (_ident_values w) w1) as (lines & Hl & E).
  assert (Hm : forall tail, Forall plain tail ->
                 markers (["#" ++ Py.str m; "$dumpoff"] +++ lines +++ tail) = [m]).
  { intros tail Ht. rewrite !markers_app, (markers_plain _ Hl), (markers_plain _ Ht).
    unfold markers. simpl. now rewrite PyFacts.int_of_str. }
  destruct (_dump_off_loop (_ident_values w) w1) as [[e|[]] w2];
    simpl in E; simpl snd.
  - exists (["#" ++ Py.str m; "$dumpoff"] +++ lines +++ []). split.
    + apply Hm. constructor.
    + rewrite E. unfold w1. rewrite !with_ofile_app. rewrite List.app_nil_r. reflexivity.
  - exists (["#" ++ Py.str m; "$dumpoff"] +++ lines +++ ["$end"]). split.
    + apply Hm. constructor; [reflexivity|constructor].
    + rewrite E. unfold w1. rewrite !with_ofile_app.
      f_equal.
Qed.

(** *** The header holds no marker *)


Lemma keyword_lines_plain (kw : string * string) :
  (exists s, fst kw = String "$" s) -> Forall plain (keyword_lines kw).
Proof.
  destruct kw as [kwname kwvalue]. simpl. intros [s ->].
  unfold keyword_lines.
  destruct (String.eqb kwvalue ""); [constructor|].
  simpl Py.split. cbv iota.
  generalize (Py.split_aux (String "010" EmptyString) 0 [] kwvalue).
  intros lines.
  assert (Htab : Forall plain (map (fun line => String "009" line) lines)).
  { apply Forall_map. apply Forall_forall. intros; reflexivity. }
  destruct lines as [|l [|l' lines]].
  - repeat constructor.
  - repeat constructor.
  - constructor; [reflexivity|].
    apply Forall_app. split; [exact Htab|repeat constructor].
Qed.

Lemma scope_switch_lines_plain types default prev scope i :
  Forall plain (scope_switch_lines types default prev scope i).
Proof.
  unfold scope_switch_lines. apply Forall_app. split.
  - apply Forall_map. apply Forall_forall. intros; reflexivity.
  - apply Forall_map. apply Forall_forall. intros [j name] _. reflexivity.
Qed.

Lemma scope_loop_plain types default scopes :
  forall prev strs,
    Forall (fun kv => Forall plain (snd kv)) strs ->
    Forall (fun kv => Forall plain (snd kv))
      (snd (scope_loop types default scopes prev strs))
    /\ match fst (scope_loop types default scopes prev strs) with
       | inr lines => Forall plain lines
       | inl _ => True
       end.
Proof.
  induction scopes as [|scope rest IH]; intros prev strs Hs; simpl.
  - split; [assumption|].
    apply Forall_app. split; [|repeat constructor].
    apply Forall_map. apply Forall_forall. intros; reflexivity.
  - destruct (Py.pop Py.tuple_eqb strs scope) as [[var_strs strs']|] eqn:Ep;
      [|split; [assumption|exact I]].
    destruct (Forall_pop _ _ _ _ _ _ Hs Ep) as [[k' Hv] Hs']. simpl in Hv.
    specialize (IH (Some scope) strs' Hs').
    assert (Hgo :
      forall switch, Forall plain switch ->
        Forall (fun kv => Forall plain (snd kv))
          (snd (match scope_loop types default rest (Some scope) strs' with
                | (inr lines, strs'') =>
                    (inr (switch +++ var_strs +++ lines), strs'')
                | (inl e, strs'') => (inl e, strs'')
                end))
        /\ match fst (match scope_loop types default rest (Some scope) strs' with
                      | (inr lines, strs'') =>
                          (inr (switch +++ var_strs +++ lines), strs'')
                      | (inl e, strs'') => (@inl exn (list string) e, strs'')
                      end) with
           | inr lines => Forall plain lines
           | inl _ => True
           end).
    { intros switch Hsw.
      destruct (scope_loop types default rest (Some scope) strs')
        as [[e|lines] strs'']; simpl in *; destruct IH as [H1 H2];
        (split; [assumption|]); [exact I|].
      apply Forall_app. split; [assumption|].
      apply Forall_app. split; assumption. }
    destruct (first_diff 0 _ scope) as [i|] eqn:Ed.
    + apply Hgo. apply scope_switch_lines_plain.
    + destruct prev as [p|].
      * split; [assumption|exact I].
      * exact (Hgo [] (Forall_nil _)).
Qed.

Lemma gen_header_ok (a u : Z) (Q : list string -> VCDWriter -> Prop)
      (E : VCDWriter -> Prop) (w : VCDWriter) :
  markers_ok a u w ->
  (forall lines strs,
      Forall plain lines ->
      Forall (fun kv => Forall plain (snd kv)) strs ->
      Q lines (with_scope_var_strs strs w)) ->
  (forall strs,
      Forall (fun kv => Forall plain (snd kv)) strs ->
      E (with_scope_var_strs strs w)) ->
  wp _gen_header Q E w.
Proof.
  intros Hok HQ HE. unfold _gen_header.
  wp_step.
  destruct (scope_loop_plain (_scope_types w) (_default_scope_type w)
              (Py.sorted Py.cmp_tuple (Py.keys (_scope_var_strs w))) None
              (_scope_var_strs w) (ok_strs _ _ _ Hok)) as [Hs Hl].
  destruct (scope_loop _ _ _ _ _) as [r strs']. simpl in Hs, Hl.
  wp_step. destruct r as [e|lines].
  - apply HE. exact Hs.
  - wp_step. apply HQ; [|exact Hs].
    apply Forall_app. split; [|exact Hl].
    apply Forall_flat_map. apply Forall_sorted.
    eapply Forall_impl; [|exact (ok_kws _ _ _ Hok)].
    intros kw. apply keyword_lines_plain.
Qed.

Lemma wp_dump_values (a u : Z) (keyword : string) Q E w :
  plain keyword ->
  markers_ok a u w ->
  (forall lines, Forall plain lines ->
                 Q tt (with_ofile (fun out => out +++ lines) w)) ->
  wp (_dump_values keyword) Q E w.
Proof.
  intros Hk Hok HQ.
  destruct (dump_values_appends keyword w Hk (ok_cache _ _ _ Hok))
    as (lines & Hl & Eq).
  unfold wp. rewrite Eq. now apply HQ.
Qed.

Lemma wp_dump_off (m : Z) Q E w :
  (forall lines, markers lines = [m] ->
                 Q tt (with_ofile (fun out => out +++ lines) w)
                 /\ E (with_ofile (fun out => out +++ lines) w)) ->
  wp (_dump_off m) Q E w.
Proof.
  intros H. destruct (dump_off_appends m w) as (lines & Hl & Eq).
  unfold wp. destruct (_dump_off m w) as [[e|[]] w']; simpl in Eq; subst w';
    now apply H.
Qed.

(** *** Every method keeps the markers in order *)

Section MethodsOk.

Variable format_16g : pyvalue -> string.

Lemma finalize_ok (a u : Z) Q E w :
  markers_ok a u w ->
  (forall w', markers_ok a u w' -> _registering w' = false -> Q tt w') ->
  (forall w', markers_ok a u w' -> E w') ->
  wp _finalize_registration Q E w.
Proof.
  intros Hok HQ HE. unfold _finalize_registration.
  wp_step. destruct (_registering w) eqn:Hr; simpl negb; cbv iota.
  2:{ wp_step. now apply HE. }
  wp_step. apply gen_header_ok with (a := a) (u := u); [assumption| |].
  2:{ intros strs Hs. apply HE. now apply ok_with_scope_var_strs. }
  intros lines strs Hl Hs.
  set (w1 := with_scope_var_strs strs w).
  assert (Hok1 : markers_ok a u w1) by now apply ok_with_scope_var_strs.
  wp_step. unfold print_star at 1. wp_step.
  match goal with
  | |- context [with_ofile (fun out => out +++ ?l) w1] =>
      set (hdr := l); assert (Hhdr : Forall plain hdr)
  end.
  { unfold hdr. destruct lines; [repeat constructor|assumption]. }
  set (w2 := with_ofile _ w1).
  assert (Hok2 : markers_ok a u w2) by now apply ok_append_plain.
  assert (Hdone : forall w3, markers_ok a u w3 ->
            Q tt (with_scope_var_names []
                    (with_scope_types []
                       (with_header_keywords []
                          (with_registering false w3))))).
  { intros w3 Hok3. apply HQ; [|reflexivity].
    apply ok_with_scope_var_names, ok_with_scope_types,
      ok_with_header_keywords_nil, ok_with_registering_false. exact Hok3. }
  destruct (nonempty (_ident_values w2)).
  - wp_step. apply wp_dump_values with (a := a) (u := u);
      [reflexivity|assumption|].
    intros dv Hdv.
    set (w3 := with_ofile _ w2).
    assert (Hok3 : markers_ok a u w3) by now apply ok_append_plain.
    wp_step. destruct (_dumping w3); simpl negb; cbv iota.
    + wp_step. now apply Hdone.
    + apply wp_dump_off. intros off Hoff.
      assert (Hok4 : markers_ok a u (with_ofile (fun out => out +++ off) w3)).
      { apply ok_append_marker with (m := 0); try assumption; try lia.
        - apply (ok_registering _ _ _ Hok3). exact Hr.
        - pose proof (ok_unrecorded _ _ _ Hok3). lia. }
      split; [|now apply HE].
      wp_step. now apply Hdone.
  - wp_step. now apply Hdone.
Qed.

Lemma format_value_plain var value line :
  format_value format_16g var value = inr line -> plain line.
Proof.
  unfold format_value.
  destruct (cls var); [discriminate| | |].
  - unfold Scalar.format_value.
    destruct value as [|b|n|f|s|o|fm o];
      try (intros E; injection E as <-; reflexivity);
      try (match goal with
           | |- context [if truthy ?v then _ else _] => destruct (truthy v)
           end; intros E; injection E as <-; reflexivity).
    destruct s as [|c [|c' s]]; try discriminate.
    destruct (Py.char_in c "01xzXZ") eqn:Hc; [|discriminate].
    intros E; injection E as <-. apply plain_first.
    intros ->. discriminate.
  - unfold Real.format_value.
    destruct (is_number value); [|discriminate].
    destruct (format_16g_raises value); [discriminate|].
    intros E; injection E as <-. reflexivity.
  - unfold Vector.format_value.
    destruct (as_integer value) as [n|].
    + destruct (size var <? 0); [discriminate|].
      match goal with
      | |- context [if ?c then _ else _] => destruct c
      end; [discriminate|].
      intros E; injection E as <-. reflexivity.
    + destruct value as [|b|n|f|s|o|fm o]; try discriminate.
      * intros E; injection E as <-. reflexivity.
      * destruct (_ <=? _); [|discriminate].
        intros E; injection E as <-. reflexivity.
Qed.

(** [change] needs nothing of its timestamp but that it is not below
    what the cursor may have missed: the cursor test does the rest. *)
Lemma change_ok (a u : Z) var ts value w :
  (0 < ts -> u <= ts) -> ts <= a ->
  markers_ok a u w ->
  wp (change format_16g var ts value)
     (fun _ => markers_ok a u) (markers_ok a u) w.
Proof.
  intros Hts Ha Hok. unfold change.
  wp_step.
  destruct (Z.ltb_spec ts (_prev_timestamp w)) as [Hlt|Hge];
    [wp_step; assumption|].
  destruct (_closed w); [wp_step; assumption|].
  wp_step.
  destruct (format_value format_16g var value) as [e|val_str] eqn:Ef;
    [assumption|].
  apply format_value_plain in Ef.
  wp_step.
  assert (Hu : ts <> 0 -> u <= ts).
  { intros Hnz. apply Hts. pose proof (ok_cursor _ _ _ Hok). lia. }
  assert (Hrest : forall w1,
    markers_ok a u w1 -> (ts <> 0 -> _registering w1 = false) ->
    wp (dumping <- gets _dumping ;;
        if negb (ts =? 0) && dumping then
          prev <- gets _prev_timestamp ;;
          when (prev <? ts)
            (print ("#" ++ Py.str ts) ;;
             modify (with_prev_timestamp ts)) ;;
          print val_str
        else
          values <- gets _ident_values ;;
          modify (with_ident_values
                    (Py.set String.eqb values (ident var) val_str)))
       (fun _ => markers_ok a u) (markers_ok a u) w1).
  { intros w1 Hok1 Hreg. wp_step.
    destruct (Z.eqb_spec ts 0) as [Hz|Hnz]; simpl negb; simpl andb; cbv iota.
    - wp_step. apply ok_with_ident_values; [|assumption].
      apply Forall_set; [assumption|]. exact (ok_cache _ _ _ Hok1).
    - destruct (_dumping w1); cbv iota.
      + wp_step. destruct (Z.ltb_spec (_prev_timestamp w1) ts).
        * wp_step. apply ok_print_plain; [assumption|].
          apply ok_change_marker; auto.
        * wp_step. now apply ok_print_plain.
      + wp_step. apply ok_with_ident_values; [|assumption].
        apply Forall_set; [assumption|]. exact (ok_cache _ _ _ Hok1). }
  destruct (Z.eqb_spec ts 0) as [Hz|Hnz]; simpl negb; simpl andb; cbv iota.
  - wp_step. apply Hrest; [assumption|]. intros; contradiction.
  - destruct (_registering w) eqn:Hr; cbv iota.
    + apply finalize_ok with (a := a) (u := u); [assumption| |auto].
      intros w' Hok' Hr'. apply Hrest; auto.
    + wp_step. apply Hrest; auto.
Qed.

Lemma set_scope_type_ok (a u : Z) scope scope_type w :
  markers_ok a u w ->
  wp (set_scope_type scope scope_type)
     (fun _ => markers_ok a u) (markers_ok a u) w.
Proof.
  intros Hok. unfold set_scope_type.
  assert (Hrest :
    wp (scope_tuple <- _get_scope_tuple scope ;;
        types <- gets _scope_types ;;
        modify (with_scope_types
                  (Py.set Py.tuple_eqb types scope_tuple scope_type)))
       (fun _ => markers_ok a u) (markers_ok a u) w).
  { wp_step. apply get_scope_tuple_ok; [|assumption].
    intros tuple. wp_step. now apply ok_with_scope_types. }
  rewrite wp_bind.
  destruct scope_type as [tag|]; [|rewrite wp_ret; exact Hrest].
  rewrite wp_when.
  destruct (negb (Py.in_list tag SCOPE_TYPES)); [|exact Hrest].
  rewrite wp_raise. assumption.
Qed.

Lemma register_var_ok (a u : Z) scope name var_type size init ident w :
  markers_ok a u w ->
  wp (register_var format_16g scope name var_type size init ident)
     (fun _ => markers_ok a u) (markers_ok a u) w.
Proof.
  intros Hok. unfold register_var. wp_step.
  destruct (_closed w); [wp_step; assumption|].
  destruct (negb (_registering w)); [wp_step; assumption|].
  destruct (negb (Py.in_list var_type VAR_TYPES)); [wp_step; assumption|].
  wp_step. apply get_scope_tuple_ok; [|assumption].
  intros tuple. wp_step.
  destruct (setdefault (_scope_var_names w) tuple) as [scope_names names'].
  wp_step.
  set (w1 := with_scope_var_names names' w).
  assert (Hok1 : markers_ok a u w1) by now apply ok_with_scope_var_names.
  destruct (Py.in_list name scope_names); [wp_step; assumption|].
  wp_step.
  eapply wp_mono; [apply change_ok; [lia| |exact Hok1]| |auto].
  { pose proof (ok_unrecorded _ _ _ Hok). lia. }
  intros [] w2 Hok2. wp_step.
  apply ok_with_scope_var_names, ok_with_scope_var_strs;
    [|now apply ok_with_next_var_id].
  apply Forall_append_at; [reflexivity|].
  apply Forall_setdefault. exact (ok_strs _ _ _ Hok2).
Qed.

(** [dump_off] and [dump_on] write their timestamp as it is: [t] is at
    least every timestamp passed before. *)
Variable t : Z.

Lemma ok_cursor_le w : markers_ok t t w -> _prev_timestamp w <= t.
Proof. intros Hok. pose proof (ok_cursor _ _ _ Hok). lia. Qed.

Lemma dump_off_ok w :
  markers_ok t t w ->
  wp (dump_off t) (fun _ => markers_ok t t) (markers_ok t t) w.
Proof.
  intros Hok. unfold dump_off. wp_step.
  destruct (_dumping w && negb (_registering w) && nonempty (_ident_values w))
    eqn:Hg.
  - apply andb_prop in Hg as [Hg _]. apply andb_prop in Hg as [_ Hr].
    apply negb_true_iff in Hr.
    apply wp_dump_off. intros lines Hl.
    assert (Hok1 : markers_ok t t (with_ofile (fun out => out +++ lines) w)).
    { apply ok_append_marker with (m := t); try assumption; try lia.
      - apply (ok_bound_le t t); [lia|now apply ok_cursor_le|assumption].
      - rewrite Hr. discriminate. }
    split; [|assumption]. wp_step. now apply ok_with_dumping.
  - wp_step. now apply ok_with_dumping.
Qed.

Lemma dump_on_ok w :
  markers_ok t t w ->
  wp (dump_on t) (fun _ => markers_ok t t) (markers_ok t t) w.
Proof.
  intros Hok. unfold dump_on. wp_step.
  destruct (negb (_dumping w) && negb (_registering w)
            && nonempty (_ident_values w)) eqn:Hg.
  - apply andb_prop in Hg as [Hg _]. apply andb_prop in Hg as [_ Hr].
    apply negb_true_iff in Hr.
    wp_step.
    assert (Hok1 : markers_ok t t (with_ofile
                     (fun out => out +++ ["#" ++ Py.str t]) w)).
    { apply ok_append_marker with (m := t); try assumption; try lia.
      - unfold markers. simpl. now rewrite PyFacts.int_of_str.
      - apply (ok_bound_le t t); [lia|now apply ok_cursor_le|assumption].
      - rewrite Hr. discriminate. }
    apply wp_dump_values with (a := t) (u := t); [reflexivity|assumption|].
    intros lines Hl. wp_step.
    apply ok_with_dumping. now apply ok_append_plain.
  - wp_step. now apply ok_with_dumping.
Qed.

(** [flush] writes its marker only after the header is out and only
    above the cursor, which stays: the marker is one the cursor misses
    from then on. *)
Lemma flush_ok (a u : Z) w :
  (0 < t -> u <= t) ->
  markers_ok a u w ->
  wp (flush (Some t))
     (fun _ => markers_ok (Z.max a (hi [t])) (Z.max u (hi [t])))
     (markers_ok (Z.max a (hi [t])) (Z.max u (hi [t]))) w.
Proof.
  intros Hts Hok.
  assert (Hua : 0 <= u <= a) by exact (ok_unrecorded _ _ _ Hok).
  assert (Hup : forall w', markers_ok a u w' ->
                  markers_ok (Z.max a (hi [t])) (Z.max u (hi [t])) w').
  { intros w' H. apply (ok_weaken a u); auto; simpl; lia. }
  unfold flush.
  rewrite wp_bind, wp_gets, wp_bind, wp_when.
  destruct (_closed w); [rewrite wp_raise; now apply Hup|].
  rewrite wp_bind, wp_gets, wp_bind, wp_when.
  assert (Hrest : forall w1,
    markers_ok a u w1 -> _registering w1 = false ->
    wp (prev <- gets _prev_timestamp ;;
        when (prev <? t) (print ("#" ++ Py.str t)) ;;
        modify (with_ofile_flushes S))
       (fun _ => markers_ok (Z.max a (hi [t])) (Z.max u (hi [t])))
       (markers_ok (Z.max a (hi [t])) (Z.max u (hi [t]))) w1).
  { intros w1 Hok1 Hr1. wp_step.
    destruct (Z.ltb_spec (_prev_timestamp w1) t) as [Hlt|Hge]; wp_step;
      apply ok_with_ofile_flushes; [|now apply Hup].
    pose proof (ok_cursor _ _ _ Hok1) as Hcur.
    assert (Hu : u <= t) by (apply Hts; lia).
    apply ok_append_marker with (m := t); try (now apply Hup).
    - unfold markers. simpl. now rewrite PyFacts.int_of_str.
    - apply (ok_bound_le a u); [exact Hu|lia|exact Hok1].
    - simpl. lia.
    - rewrite Hr1. discriminate. }
  destruct (_registering w) eqn:Hr.
  - apply finalize_ok with (a := a) (u := u); [assumption| |auto].
    intros w' Hok' Hr'. now apply Hrest.
  - now apply Hrest.
Qed.

End MethodsOk.

(** [flush()] with no timestamp writes no marker. *)
Lemma flush_none_ok (a u : Z) w :
  markers_ok a u w ->
  wp (flush None) (fun _ => markers_ok a u) (markers_ok a u) w.
Proof.
  intros Hok. unfold flush.
  rewrite wp_bind, wp_gets, wp_bind, wp_when.
  destruct (_closed w); [rewrite wp_raise; assumption|].
  rewrite wp_bind, wp_gets, wp_bind, wp_when.
  assert (Hrest : forall w1,
    markers_ok a u w1 ->
    wp (prev <- gets _prev_timestamp ;;
        ret tt ;;
        modify (with_ofile_flushes S))
       (fun _ => markers_ok a u) (markers_ok a u) w1).
  { intros w1 Hok1. wp_step. now apply ok_with_ofile_flushes. }
  destruct (_registering w) eqn:Hr.
  - apply finalize_ok with (a := a) (u := u); [assumption| |auto].
    intros w' Hok' Hr'. now apply Hrest.
  - now apply Hrest.
Qed.

Lemma close_ok (a u : Z) (t : Z) w :
  (0 < t -> u <= t) ->
  markers_ok a u w ->
  wp (close (Some t))
     (fun _ => markers_ok (Z.max a (hi [t])) (Z.max u (hi [t])))
     (markers_ok (Z.max a (hi [t])) (Z.max u (hi [t]))) w.
Proof.
  intros Hts Hok. unfold close. wp_step.
  destruct (_closed w); simpl negb; cbv iota; wp_step.
  - pose proof (ok_unrecorded _ _ _ Hok).
    apply (ok_weaken a u); auto; simpl; lia.
  - eapply wp_mono; [exact (flush_ok t a u w Hts Hok)| |auto].
    intros [] w' Hok'. wp_step. now apply ok_with_closed.
Qed.

Lemma close_none_ok (a u : Z) w :
  markers_ok a u w ->
  wp (close None) (fun _ => markers_ok a u) (markers_ok a u) w.
Proof.
  intros Hok. unfold close. wp_step.
  destruct (_closed w); simpl negb; cbv iota; wp_step; [assumption|].
  eapply wp_mono; [exact (flush_none_ok a u w Hok)| |auto].
  intros [] w' Hok'. wp_step. now apply ok_with_closed.
Qed.

Lemma hi_nonneg (l : list Z) : 0 <= hi l.
Proof. induction l as [|x l IH]; simpl; lia. Qed.

Lemma hi_app (l1 l2 : list Z) : hi (l1 +++ l2) = Z.max (hi l1) (hi l2).
Proof.
  induction l1 as [|x l1 IH]; simpl.
  - pose proof (hi_nonneg l2). lia.
  - rewrite IH. lia.
Qed.

Lemma hi_le (l : list Z) (t : Z) :
  0 <= t -> Forall (fun x => x <= t) l -> hi l <= t.
Proof. intros Ht. induction 1 as [|x l Hx _ IH]; simpl; lia. Qed.

(** One call, after the calls [before], made as the caller owes it. *)
Lemma exec_ok format_16g (before : list call) (c : call) (w : VCDWriter) :
  match c with
  | DumpOff ts | DumpOn ts =>
      0 <= ts /\ Forall (fun t' => t' <= ts) (timestamps before)
  | Change _ ts _ | Flush (Some ts) | Close (Some ts) =>
      0 < ts -> Forall (fun t' => t' <= ts) (unrecorded_timestamps before)
  | _ => True
  end ->
  markers_ok (hi (timestamps before)) (hi (unrecorded_timestamps before)) w ->
  markers_ok (hi (timestamps (before +++ [c])))
             (hi (unrecorded_timestamps (before +++ [c])))
             (exec format_16g c w).
Proof.
  intros Hc Hok.
  unfold timestamps, unrecorded_timestamps in *.
  rewrite !flat_map_app, !hi_app. simpl flat_map.
  rewrite !List.app_nil_r.
  set (a := hi (flat_map call_timestamp before)) in *.
  set (u := hi (flat_map unrecorded_timestamp before)) in *.
  assert (Hua : 0 <= u <= a) by exact (ok_unrecorded _ _ _ Hok).
  assert (Hwp : forall a' u' A (m : M A),
             wp m (fun _ => markers_ok a' u') (markers_ok a' u') w ->
             markers_ok a' u' (snd (m w))).
  { intros a' u' A m H. unfold wp in H. now destruct (m w) as [[e|x] w']. }
  assert (Hsame : forall w', markers_ok a u w' ->
                             markers_ok (Z.max a (hi [])) (Z.max u (hi [])) w').
  { intros w' H. simpl. now rewrite !Z.max_l by lia. }
  assert (Hbump : forall ts,
             0 <= ts /\ Forall (fun t' => t' <= ts)
                          (flat_map call_timestamp before) ->
             markers_ok ts ts w
             /\ Z.max a (hi [ts]) = ts /\ Z.max u (hi [ts]) = ts).
  { intros ts [Hts Hall].
    assert (a <= ts) by now apply hi_le.
    split; [apply (ok_weaken a u); auto; lia|]. simpl. lia. }
  assert (Hu : forall ts,
             (0 < ts -> Forall (fun t' => t' <= ts)
                          (flat_map unrecorded_timestamp before)) ->
             0 < ts -> u <= ts).
  { intros ts H Hpos. unfold u. apply hi_le; [lia|auto]. }
  destruct c; cbn [exec call_timestamp unrecorded_timestamp].
  - apply Hsame, Hwp. now apply set_scope_type_ok.
  - apply Hsame, Hwp. now apply register_var_ok.
  - apply Hsame, Hwp. now apply register_var_ok.
  - apply Hsame, Hwp. now apply register_var_ok.
  - apply Hsame, Hwp. now apply register_var_ok.
  - apply (ok_weaken (Z.max a (hi [timestamp])) u);
      [lia|simpl; lia|simpl; lia|].
    apply Hwp. apply change_ok.
    + now apply Hu.
    + simpl. lia.
    + apply (ok_weaken a u); auto; simpl; lia.
  - destruct (Hbump _ Hc) as (Hok' & -> & ->).
    apply Hwp. now apply dump_off_ok.
  - destruct (Hbump _ Hc) as (Hok' & -> & ->).
    apply Hwp. now apply dump_on_ok.
  - destruct timestamp as [ts|].
    + apply Hwp. apply flush_ok; [now apply Hu|exact Hok].
    + apply Hsame, Hwp. now apply flush_none_ok.
  - destruct timestamp as [ts|].
    + apply Hwp. apply close_ok; [now apply Hu|exact Hok].
    + apply Hsame, Hwp. now apply close_none_ok.
Qed.

Lemma run_ok format_16g (cs : list call) :
  forall (before : list call) (w : VCDWriter),
    markers_ok (hi (timestamps before)) (hi (unrecorded_timestamps before)) w ->
    caller_keeps_order before cs ->
    markers_ok (hi (timestamps (before +++ cs)))
               (hi (unrecorded_timestamps (before +++ cs)))
               (run format_16g cs w).
Proof.
  induction cs as [|c cs IH]; intros before w Hok Hcs.
  - now rewrite List.app_nil_r.
  - destruct Hcs as [Hc Hcs]. simpl run.
    replace (before +++ c :: cs) with ((before +++ [c]) +++ cs)
      by now rewrite <- List.app_assoc.
    apply IH; [|exact Hcs].
    apply exec_ok; [|exact Hok].
    destruct c; try exact Hc; try exact I.
Qed.

Lemma init_ok now timescale date comment version default_scope_type scope_sep w :
  VCDWriter_init now timescale date comment version default_scope_type scope_sep
  = inr w ->
  markers_ok 0 0 w.
Proof.
  unfold VCDWriter_init.
  destruct (_check_timescale timescale); [discriminate|].
  destruct (negb _); [discriminate|].
  intros E; injection E as <-.
  constructor; simpl; try (now constructor); try lia.
  repeat constructor; simpl; eauto.
Qed.

(** C5 (amended).  For a writer fresh from construction and calls whose
    strings hold no newline, the marker lines [#<integer>] of the file
    are non-decreasing, each carrying an integer at least that of every
    marker before it, when the caller keeps in order what the writer does
    not: every timestamp passed to [dump_off] or [dump_on] is not negative
    and not below any timestamp passed before, and every timestamp above
    0 passed to [change], [flush] or [close] is not below any timestamp
    passed before to [dump_off], [dump_on], [flush] or [close].  The
    timestamps of [change] calls need not be ordered among themselves,
    nor those of [flush] after them: [change] refuses a timestamp below
    its cursor, and [change] and [flush] write a marker only above it.
    But the cursor moves with the markers of [change] alone, and
    [dump_off] and [dump_on] do not look at it. *)
Theorem markers_nondecreasing
        (format_16g : pyvalue -> string)
        (now timescale : string) (date : option string)
        (comment version default_scope_type scope_sep : string)
        (w : VCDWriter) (calls : list call) :
  VCDWriter_init now timescale date comment version default_scope_type scope_sep
  = inr w ->
  (forall v, one_line (format_16g v) = true) ->
  forallb clean_call calls = true ->
  caller_keeps_order [] calls ->
  StronglySorted Z.le
    (markers (file_lines (_ofile (run format_16g calls w)))).
Proof.
  intros Hinit Hfmt Hclean Horder.
  rewrite file_lines_clean.
  - apply (ok_sorted (hi (timestamps ([] +++ calls)))
             (hi (unrecorded_timestamps ([] +++ calls)))).
    apply run_ok; [|exact Horder].
    simpl. eapply init_ok; eassumption.
  - apply c_out. apply run_clean; [exact Hfmt|exact Hclean|].
    eapply init_clean; eassumption.
Qed.

Lemma markers_nondecreasing_witness :
  let calls :=
    [RegisterVar (ScopeStr "top") "clk" "wire" 1 (PyInt 0) None;
     Change (mkVar ScalarVariable "v0" "wire" 1) 10 (PyInt 1);
     Change (mkVar ScalarVariable "v0" "wire" 1) 4 (PyInt 0);
     DumpOff 15;
     Change (mkVar ScalarVariable "v0" "wire" 1) 15 (PyStr "z");
     Change (mkVar ScalarVariable "v0" "wire" 1) 40 (PyInt 1);
     Change (mkVar ScalarVariable "v0" "wire" 1) 30 (PyInt 0);
     DumpOn 40;
     Change (mkVar ScalarVariable "v0" "wire" 1) 45 (PyInt 1);
     Change (mkVar ScalarVariable "v0" "wire" 1) 42 (PyInt 0);
     Flush (Some 41);
     Flush (Some 50);
     Change (mkVar ScalarVariable "v0" "wire" 1) 50 (PyInt 0);
     Close (Some 50)] in
  VCDWriter_init "now" "1 us" (Some "today") "" "" "module" "." = inr new_writer
  /\ (forall v, one_line (format_16g_sample v) = true)
  /\ forallb clean_call calls = true
  /\ caller_keeps_order [] calls
  /\ StronglySorted Z.le
       (markers (file_lines (_ofile (run format_16g_sample calls new_writer)))).
Proof.
  cbv zeta.
  match goal with
  | |- ?A /\ ?B /\ ?C /\ ?D /\ _ =>
      assert (HA : A) by reflexivity;
      assert (HB : B) by exact format_16g_sample_clean;
      assert (HC : C) by reflexivity;
      assert (HD : D)
        by (simpl; repeat split; intros; repeat constructor; lia)
  end.
  split; [exact HA|]. split; [exact HB|]. split; [exact HC|].
  split; [exact HD|].
  exact (markers_nondecreasing format_16g_sample _ _ _ _ _ _ _ _ _
           HA HB HC HD).
Defined.

(** C5, as stated, fails twice over.  [flush(5)] writes [#5] without
    advancing the cursor, so a following [change] at time 3 is accepted
    and writes [#3].  And a string value is written as it is: the value
    of a 16-bit vector that holds [#0] between two newlines, changed at
    time 7, puts the line [#0] into the file after the line [#7]. *)
Lemma markers_decrease_counterexample :
  let calls :=
    [RegisterVar (ScopeStr "top") "clk" "wire" 1 (PyInt 0) None;
     Flush (Some 5);
     Change (mkVar ScalarVariable "v0" "wire" 1) 3 (PyInt 1)] in
  let calls' :=
    [RegisterVar (ScopeStr "top") "d" "wire" 16 (PyInt 0) None;
     Change (mkVar VectorVariable "v0" "wire" 16) 7
       (PyStr (String "1" (String newline
                             (String "#" (String "0"
                                            (String newline EmptyString))))))]
  in
  (markers (file_lines (_ofile (run format_16g_sample calls new_writer)))
   = [5; 3]
   /\ ~ StronglySorted Z.le
         (markers (file_lines
                     (_ofile (run format_16g_sample calls new_writer)))))
  /\ (caller_keeps_order [] calls'
      /\ markers (file_lines
                    (_ofile (run format_16g_sample calls' new_writer)))
         = [7; 0]
      /\ ~ StronglySorted Z.le
            (markers (file_lines
                        (_ofile (run format_16g_sample calls' new_writer))))).
Proof.
  cbv zeta.
  assert (Hno : forall x y, y < x -> ~ StronglySorted Z.le [x; y]).
  { intros x y Hxy H. inversion H as [|? ? _ Hall]; subst.
    inversion Hall; subst. lia. }
  split.
  - match goal with
    | |- ?m = _ /\ _ => assert (E : m = [5; 3]) by (vm_compute; reflexivity)
    end.
    split; [exact E|]. rewrite E. apply Hno. lia.
  - split; [simpl; repeat split; intros; repeat constructor; lia|].
    match goal with
    | |- ?m = _ /\ _ => assert (E : m = [7; 0]) by (vm_compute; reflexivity)
    end.
    split; [exact E|]. rewrite E. apply Hno. lia.
Qed.

(** ** The writer protocol *)

Section Protocol.

Variable format_16g : pyvalue -> string.

(** *** After [close()] *)

Lemma close_twice (t : option Z) (w : VCDWriter) :
  _closed w = true -> close t w = (inr tt, w).
Proof. intros H. unfold close, bind, gets, when. simpl. now rewrite H. Qed.

Lemma close_first (t : option Z) (w : VCDWriter) :
  _closed w = false ->
  close t w =
  match flush t w with
  | (inr _, w') => (inr tt, with_closed true w')
  | (inl e, w') => (inl e, w')
  end.
Proof.
  intros H. unfold close, bind, gets, when. simpl. rewrite H. simpl.
  destruct (flush t w) as [[e|[]] w']; reflexivity.
Qed.

Lemma register_var_after_close scope name var_type size init ident w :
  _closed w = true ->
  register_var format_16g scope name var_type size init ident w
  = (inl VCDPhaseError, w).
Proof. intros H. unfold register_var, bind, gets. simpl. now rewrite H. Qed.

Lemma change_after_close var timestamp value w :
  _closed w = true ->
  change format_16g var timestamp value w = (inl VCDPhaseError, w).
Proof.
  intros H. unfold change, bind, gets. simpl. rewrite H.
  now destruct (timestamp <? _prev_timestamp w).
Qed.

Lemma flush_after_close t w :
  _closed w = true -> flush t w = (inl VCDPhaseError, w).
Proof. intros H. unfold flush, bind, gets, when. simpl. now rewrite H. Qed.

End Protocol.

(** *** Rejected values *)

Section Rejected.

Variable format_16g : pyvalue -> string.

(** A value the encoder refuses leaves the writer as it was. *)
Lemma change_invalid_value_atomic var timestamp value e w :
  format_value format_16g var value = inl e ->
  snd (change format_16g var timestamp value w) = w
  /\ (fst (change format_16g var timestamp value w) = inl e
      \/ fst (change format_16g var timestamp value w) = inl VCDPhaseError).
Proof.
  intros H. unfold change, bind, gets, lift, raise. simpl.
  destruct (timestamp <? _prev_timestamp w); [auto|].
  destruct (_closed w); [auto|].
  rewrite H. auto.
Qed.

(** [register_var] has already run [setdefault] on [_scope_var_names]
    when it reaches the initial value: an initial value that the encoder
    of the new variable refuses leaves that entry behind, and nothing
    else. *)
Lemma register_var_invalid_init path name var_type size init ident e w :
  _closed w = false -> _registering w = true -> _prev_timestamp w <= 0 ->
  Py.in_list var_type VAR_TYPES = true ->
  Py.in_list name (fst (setdefault (_scope_var_names w) path)) = false ->
  let id := match ident with
            | None => "v" ++ Py.str (_next_var_id w)
            | Some i => i
            end in
  let init' := match init with
               | PyNone =>
                   if String.eqb var_type "real" then PyFloat (S754_zero false)
                   else PyStr "x"
               | _ => init
               end in
  let var := if size =? 1 then mkVar ScalarVariable id var_type size
             else if String.eqb var_type "real"
                  then mkVar RealVariable id var_type size
                  else mkVar VectorVariable id var_type size in
  format_value format_16g var init' = inl e ->
  register_var format_16g (ScopeSeq path) name var_type size init ident w
  = (inl e,
     with_scope_var_names (snd (setdefault (_scope_var_names w) path)) w).
Proof.
  intros Hc Hr Hp Hvt Hn id init' var Hf.
  unfold register_var, bind, gets, raise, modify, _get_scope_tuple, ret.
  rewrite Hc, Hr, Hvt. cbn [negb]. cbv beta iota.
  destruct (setdefault (_scope_var_names w) path) as [names names'] eqn:Es.
  cbn [fst snd] in *. cbv beta iota. rewrite Hn. cbv beta iota.
  unfold change, bind, gets, lift, raise. cbv beta iota.
  change (_prev_timestamp (with_scope_var_names names' w))
    with (_prev_timestamp w).
  change (_closed (with_scope_var_names names' w)) with (_closed w).
  change (_next_var_id (with_scope_var_names names' w))
    with (_next_var_id w).
  destruct (Z.ltb_spec 0 (_prev_timestamp w)); [lia|].
  rewrite Hc. fold id. fold init'. fold var. now rewrite Hf.
Qed.

(** The refused initial value of the example: 256 in 8 bits. *)
Example register_var_invalid_init_256 :
  register_var format_16g (ScopeSeq ["top"]) "data" "wire" 8 (PyInt 256)
    None new_writer
  = (inl ValueError, with_scope_var_names [(["top"], [])] new_writer).
Proof.
  apply (register_var_invalid_init ["top"] "data" "wire" 8 (PyInt 256) None
           ValueError new_writer); reflexivity || (simpl; lia).
Qed.

End Rejected.

(** C6.  The code at the failing input: on a fresh writer,
    [register_var(['top'], 'data', 'wire', 8, init=256)] raises for the
    initial value, and [_scope_var_names] has gained the entry
    [('top',) : []]; the other fields are as before. *)
Theorem register_var_bad_init_leaves_entry :
  register_var format_16g_sample (ScopeSeq ["top"]) "data" "wire" 8
    (PyInt 256) None new_writer
  = (inl ValueError, with_scope_var_names [(["top"], [])] new_writer)
  /\ _scope_var_names new_writer = []
  /\ with_scope_var_names [(["top"], [])] new_writer <> new_writer.
Proof.
  split; [vm_compute; reflexivity|]. split; [reflexivity|].
  intros H. apply (f_equal _scope_var_names) in H. discriminate.
Qed.

(** *** Dump suspension *)

Section Dump.

Variable format_16g : pyvalue -> string.

(** A change written live does not reach the last-value cache. *)
Lemma change_live_keeps_cache var timestamp value line w :
  _closed w = false -> _registering w = false -> _dumping w = true ->
  timestamp <> 0 -> _prev_timestamp w <= timestamp ->
  format_value format_16g var value = inr line ->
  exists w',
    change format_16g var timestamp value w = (inr tt, w')
    /\ _ident_values w' = _ident_values w
    /\ exists lines, _ofile w' = _ofile w +++ lines +++ [line].
Proof.
  intros Hc Hr Hd Hnz Hp Hf.
  unfold change, bind, gets, lift, raise, when, ret, modify, print. simpl.
  destruct (Z.ltb_spec timestamp (_prev_timestamp w)); [lia|].
  rewrite Hc, Hf, Hr.
  destruct (Z.eqb_spec timestamp 0); [contradiction|]. simpl.
  rewrite Hd. simpl.
  destruct (_prev_timestamp w <? timestamp); simpl; eexists;
    (split; [reflexivity|split; [reflexivity|]]); simpl.
  - exists ["#" ++ Py.str timestamp]. now rewrite <- List.app_assoc.
  - now exists [].
Qed.

(** [dump_on] writes the cache as it stands. *)
Lemma dump_on_writes_cache timestamp w :
  _dumping w = false -> _registering w = false -> _ident_values w <> [] ->
  exists w',
    dump_on timestamp w = (inr tt, w')
    /\ _ofile w' = _ofile w +++ ["#" ++ Py.str timestamp; "$dumpon"]
                   +++ Py.values (_ident_values w) +++ ["$end"].
Proof.
  intros Hd Hr Hv.
  unfold dump_on, bind, gets, when, _dump_values, print, print_star, modify.
  simpl. rewrite Hd, Hr. simpl.
  destruct (_ident_values w) as [|kv values] eqn:E; [congruence|].
  simpl. eexists. split; [reflexivity|]. simpl.
  rewrite E. simpl. now rewrite <- !List.app_assoc.
Qed.

End Dump.

(** C1.  The code at the failing input: a scalar registered with initial
    value 0 is changed to 1 at time 1, written live; [dump_off(2)] then
    [dump_on(3)] writes [0v0] in the [$dumpon] block, the value from
    registration, not the 1 the variable held before the suspension. *)
Theorem dump_on_after_live_change_is_stale :
  let clk := mkVar ScalarVariable "v0" "wire" 1 in
  fst (register_var format_16g_sample (ScopeSeq ["top"]) "clk" "wire" 1
         (PyInt 0) None new_writer) = inr clk
  /\ _ofile (run format_16g_sample
               [RegisterVar (ScopeSeq ["top"]) "clk" "wire" 1 (PyInt 0) None;
                Change clk 1 (PyInt 1);
                DumpOff 2;
                DumpOn 3] new_writer)
     = ["$date today $end"; "$timescale 1 us $end";
        "$scope module top $end"; "$var wire 1 v0 clk $end"; "$upscope $end";
        "$enddefinitions $end"; "$dumpvars"; "0v0"; "$end";
        "#1"; "1v0";
        "#2"; "$dumpoff"; "xv0"; "$end";
        "#3"; "$dumpon"; "0v0"; "$end"].
Proof. split; vm_compute; reflexivity. Qed.

(** C3.  The code at the failing input: after [close()], [dump_off(5)]
    and [dump_on(6)] raise nothing and write their blocks. *)
Theorem dump_off_after_close_writes :
  let w := run format_16g_sample
             [RegisterVar (ScopeSeq ["top"]) "clk" "wire" 1 (PyInt 0) None;
              Close None] new_writer in
  _closed w = true
  /\ fst (dump_off 5 w) = inr tt
  /\ _ofile (snd (dump_off 5 w))
     = _ofile w +++ ["#5"; "$dumpoff"; "xv0"; "$end"]
  /\ fst (dump_on 6 (snd (dump_off 5 w))) = inr tt
  /\ _ofile (snd (dump_on 6 (snd (dump_off 5 w))))
     = _ofile w +++ ["#5"; "$dumpoff"; "xv0"; "$end";
                     "#6"; "$dumpon"; "0v0"; "$end"].
Proof. repeat split; vm_compute; reflexivity. Qed.

(** *** Registration wrappers *)

Section Wrappers.

Variable format_16g : pyvalue -> string.

Lemma register_int_forwards scope name size init ident :
  register_int format_16g scope name size init ident
  = register_var format_16g scope name "integer" size init ident.
Proof. reflexivity. Qed.

Lemma register_event_forwards scope name size init ident :
  register_event format_16g scope name size init ident
  = register_var format_16g scope name "event" size init ident.
Proof. reflexivity. Qed.

(** [register_real] forwards everything but the ident. *)
Lemma register_real_forwards scope name size init ident :
  register_real format_16g scope name size init ident
  = register_var format_16g scope name "real" size init None.
Proof. reflexivity. Qed.

End Wrappers.

(** C9.  The code at the failing input: [register_real] with
    [ident='myid'] registers the variable under the generated ident [v0],
    where [register_var] with the same arguments uses [myid]. *)
Theorem register_real_drops_ident :
  let zero := PyFloat (S754_zero false) in
  fst (register_real format_16g_sample (ScopeSeq ["top"]) "temp" 64 zero
         (Some "myid") new_writer)
  = inr (mkVar RealVariable "v0" "real" 64)
  /\ fst (register_var format_16g_sample (ScopeSeq ["top"]) "temp" "real" 64
            zero (Some "myid") new_writer)
     = inr (mkVar RealVariable "myid" "real" 64)
  /\ _scope_var_strs
       (snd (register_real format_16g_sample (ScopeSeq ["top"]) "temp" 64 zero
               (Some "myid") new_writer))
     = [(["top"], ["$var real 64 v0 temp $end"])]
  /\ _scope_var_strs
       (snd (register_var format_16g_sample (ScopeSeq ["top"]) "temp" "real"
               64 zero (Some "myid") new_writer))
     = [(["top"], ["$var real 64 myid temp $end"])].
Proof. repeat split; vm_compute; reflexivity. Qed.

(** *** Choice of the encoder *)

Section Encoder.

Variable format_16g : pyvalue -> string.

(** The handle [register_var] returns is built by the [if size == 1 /
    elif var_type == 'real' / else] chain. *)
Lemma register_var_returns scope name var_type size init ident w :
  wp (register_var format_16g scope name var_type size init ident)
     (fun var _ =>
        exists id,
          var = if size =? 1 then mkVar ScalarVariable id var_type size
                else if String.eqb var_type "real"
                     then mkVar RealVariable id var_type size
                     else mkVar VectorVariable id var_type size)
     (fun _ => True) w.
Proof.
  unfold register_var. wp_step.
  destruct (_closed w); [now wp_step|].
  destruct (negb (_registering w)); [now wp_step|].
  destruct (negb (Py.in_list var_type VAR_TYPES)); [now wp_step|].
  wp_step. apply get_scope_tuple_ok; [|exact I].
  intros tuple. wp_step.
  destruct (setdefault (_scope_var_names w) tuple) as [scope_names names'].
  wp_step.
  destruct (Py.in_list name scope_names); [now wp_step|].
  wp_step.
  match goal with
  | |- wp (change _ ?v _ _) _ _ _ => set (var := v)
  end.
  unfold wp.
  destruct (change format_16g var 0 _ _) as [[e|[]] w2]; [exact I|].
  fold (wp (A := VarHandle)). simpl. eexists. reflexivity.
Qed.

(** C10.  [register_var] chooses the encoder by size before kind: a
    variable registered with size 1 gets the scalar encoder whatever its
    [var_type], and the real encoder goes exactly to the variables with
    size other than 1 and [var_type] 'real'.  Hence a 1-bit 'real'
    variable formats every value by the scalar rules, a number as [1] or
    [0] by its truth value. *)
Theorem register_var_encoder_by_size
        scope name var_type size init id_opt w var w' :
  register_var format_16g scope name var_type size init id_opt w
  = (inr var, w') ->
  (size = 1 -> cls var = ScalarVariable)
  /\ (cls var = RealVariable <-> size <> 1 /\ var_type = "real")
  /\ (size = 1 -> var_type = "real" ->
      forall value,
        format_value format_16g var value = Scalar.format_value var value
        /\ (is_number value = true ->
            format_value format_16g var value
            = inr ((if truthy value then "1" else "0")
                   ++ ident var))).
Proof.
  intros Hreg.
  destruct (wp_inr _ _ _ _ _ _ (register_var_returns _ _ _ _ _ _ _) Hreg)
    as [id Hvar].
  assert (Hscalar : size = 1 -> cls var = ScalarVariable).
  { intros ->. now subst var. }
  split; [exact Hscalar|]. split.
  - subst var. destruct (Z.eqb_spec size 1) as [->|Hne].
    + simpl. split; [discriminate|intros [H _]; now elim H].
    + destruct (String.eqb_spec var_type "real") as [->|Hnr]; simpl.
      * tauto.
      * split; [discriminate|intros [_ H]; now elim Hnr].
  - intros Hs _ value. unfold format_value. rewrite (Hscalar Hs).
    split; [reflexivity|].
    unfold Scalar.format_value.
    destruct value; try discriminate; intros _;
      now destruct (truthy _).
Qed.

End Encoder.

Lemma register_var_encoder_by_size_witness :
  let var := mkVar ScalarVariable "v0" "real" 1 in
  let w' := snd (register_var format_16g_sample (ScopeSeq ["top"]) "temp"
                   "real" 1 PyNone None new_writer) in
  register_var format_16g_sample (ScopeSeq ["top"]) "temp" "real" 1 PyNone
    None new_writer = (inr var, w')
  /\ (1 = 1 -> cls var = ScalarVariable)
  /\ (cls var = RealVariable <-> 1 <> 1 /\ "real" = "real")
  /\ (1 = 1 -> "real" = "real" ->
      forall value,
        format_value format_16g_sample var value
        = Scalar.format_value var value
        /\ (is_number value = true ->
            format_value format_16g_sample var value
            = inr ((if truthy value then "1" else "0") ++ ident var))).
Proof.
  cbv zeta.
  match goal with
  | |- ?P /\ _ => assert (H : P) by reflexivity
  end.
  split; [exact H|].
  exact (register_var_encoder_by_size format_16g_sample _ _ _ _ _ _ _ _ _ H).
Defined.

(** A 1-bit 'real' variable at work: 2.5 is cached as [1v0], 0.0 as
    [0v0]. *)
Example one_bit_real_change :
  let var := mkVar ScalarVariable "v0" "real" 1 in
  let w := snd (register_var format_16g_sample (ScopeSeq ["top"]) "temp"
                  "real" 1 PyNone None new_writer) in
  _ident_values w = [("v0", "0v0")]
  /\ _ident_values
       (snd (change format_16g_sample var 0
               (PyFloat (S754_finite false 5 (-1))) w))
     = [("v0", "1v0")].
Proof. split; vm_compute; reflexivity. Qed.

(** ** More on the encoders *)

(** X1.  For a vector variable of width [n >= 1], the integer path of the
    encoder succeeds exactly on the integers [v] with
    [-(2^(n-1)) <= v < 2^n]; every other integer is refused with
    [ValueError]. *)
Theorem vector_int_accepted_iff (self : VarHandle) (v : Z) :
  1 <= size self ->
  ((exists line, Vector.format_value self (PyInt v) = inr line)
   <-> - 2 ^ (size self - 1) <= v < 2 ^ size self)
  /\ (~ (- 2 ^ (size self - 1) <= v < 2 ^ size self) ->
      Vector.format_value self (PyInt v) = inl ValueError).
Proof.
  intros Hn.
  assert (Hout : ~ (- 2 ^ (size self - 1) <= v < 2 ^ size self) ->
                 Vector.format_value self (PyInt v) = inl ValueError).
  { intros H. apply vector_format_out_of_range; [assumption|lia]. }
  split; [|exact Hout]. split.
  - intros [line Hline].
    destruct (Z_le_dec (- 2 ^ (size self - 1)) v) as [Hlo|Hlo];
      [destruct (Z_lt_dec v (2 ^ size self)) as [Hhi|Hhi]; [lia|]|];
      rewrite Hout in Hline by lia; discriminate.
  - intros Hv. eexists. now apply vector_format_int.
Qed.

Lemma vector_int_accepted_iff_witness :
  let self := mkVar VectorVariable "v1" "wire" 4 in
  1 <= size self
  /\ ((exists line, Vector.format_value self (PyInt 16) = inr line)
      <-> - 2 ^ (size self - 1) <= 16 < 2 ^ size self)
  /\ (~ (- 2 ^ (size self - 1) <= 16 < 2 ^ size self) ->
      Vector.format_value self (PyInt 16) = inl ValueError).
Proof.
  cbv zeta.
  assert (H : 1 <= size (mkVar VectorVariable "v1" "wire" 4)) by (simpl; lia).
  split; [exact H|].
  exact (vector_int_accepted_iff (mkVar VectorVariable "v1" "wire" 4) 16 H).
Defined.

(** The two outcomes of the scalar encoder. *)
Lemma scalar_encoder_cases (self : VarHandle) (value : pyvalue) :
  match Scalar.format_value self value with
  | inr line =>
      exists c, line = String c (ident self)
                /\ Py.char_in c "01xzXZ" = true
  | inl e =>
      e = ValueError
      /\ exists s, value = PyStr s
                   /\ forall c, s = String c EmptyString ->
                                Py.char_in c "01xzXZ" = false
  end.
Proof.
  unfold Scalar.format_value.
  destruct value as [|b|n|f|s|o|fm o];
    try (eexists; split; reflexivity);
    try (destruct (truthy _); eexists; split; reflexivity).
  destruct s as [|c [|c' s]].
  - split; [reflexivity|]. eexists; split; [reflexivity|]. discriminate.
  - destruct (Py.char_in c "01xzXZ") eqn:Hc.
    + exists c. split; [reflexivity|exact Hc].
    + split; [reflexivity|]. eexists; split; [reflexivity|].
      intros c0 E. now injection E as <-.
  - split; [reflexivity|]. eexists; split; [reflexivity|]. discriminate.
Qed.

(** X2.  The scalar encoder on any value at all: it either returns one
    character of [01xzXZ] followed by the ident, or raises [ValueError],
    and it raises only for a string that is not one of those six
    one-character strings. *)
Theorem scalar_encoder_total (self : VarHandle) (value : pyvalue) :
  match Scalar.format_value self value with
  | inr line =>
      exists c, line = String c (ident self)
                /\ Py.char_in c "01xzXZ" = true
  | inl e =>
      e = ValueError
      /\ exists s, value = PyStr s
                   /\ forall c, s = String c EmptyString ->
                                Py.char_in c "01xzXZ" = false
  end.
Proof. exact (scalar_encoder_cases self value). Qed.

(** X3.  What [_dump_off] writes for one cached value, by the class of
    the variable that formatted it: [x] and the ident for a scalar, [bx],
    a space and the ident for a vector, nothing for a real; it does not
    raise. *)
Theorem dump_off_line_by_class (format_16g : pyvalue -> string)
        (var : VarHandle) (value : pyvalue) (line : string) (w : VCDWriter) :
  format_value format_16g var value = inr line ->
  fst (_dump_off_loop [(ident var, line)] w) = inr tt
  /\ _ofile (snd (_dump_off_loop [(ident var, line)] w))
     = _ofile w +++ match cls var with
                    | ScalarVariable => ["x" ++ ident var]
                    | VectorVariable => ["bx " ++ ident var]
                    | _ => []
                    end.
Proof.
  unfold format_value.
  destruct (cls var) eqn:Hcls; [discriminate| | |].
  - pose proof (scalar_encoder_cases var value) as H.
    intros E. rewrite E in H. destruct H as (c & -> & Hc).
    simpl in Hc. simpl.
    destruct (Ascii.eqb_spec c "b") as [->|_]; [discriminate|].
    destruct (Ascii.eqb_spec c "r") as [->|_]; [discriminate|].
    split; reflexivity.
  - unfold Real.format_value. destruct (is_number value); [|discriminate].
    destruct (format_16g_raises value); [discriminate|].
    intros E; injection E as <-. simpl.
    split; [reflexivity|]. now rewrite List.app_nil_r.
  - unfold Vector.format_value.
    assert (Hb : forall rest, _dump_off_loop [(ident var, String "b" rest)] w
                 = (inr tt, with_ofile (fun out => out +++ ["bx " ++ ident var]) w))
      by reflexivity.
    destruct (as_integer value) as [n|].
    + destruct (size var <? 0); [discriminate|].
      match goal with
      | |- context [if ?c then _ else _] => destruct c
      end; [discriminate|].
      intros E; injection E as <-. rewrite Hb. split; reflexivity.
    + destruct value as [|b|n|f|s|o|fm o]; try discriminate.
      * intros E; injection E as <-.
        simpl append. rewrite Hb. split; reflexivity.
      * destruct (_ <=? _); [|discriminate].
        intros E; injection E as <-. rewrite Hb. split; reflexivity.
Qed.

Lemma dump_off_line_by_class_witness :
  format_value format_16g_sample (mkVar VectorVariable "v1" "wire" 8)
    (PyInt 5) = inr "b101 v1"
  /\ fst (_dump_off_loop [("v1", "b101 v1")] new_writer) = inr tt
  /\ _ofile (snd (_dump_off_loop [("v1", "b101 v1")] new_writer))
     = _ofile new_writer +++ ["bx v1"].
Proof.
  assert (H : format_value format_16g_sample
                (mkVar VectorVariable "v1" "wire" 8) (PyInt 5)
              = inr "b101 v1") by reflexivity.
  split; [exact H|].
  exact (dump_off_line_by_class format_16g_sample
           (mkVar VectorVariable "v1" "wire" 8) (PyInt 5) "b101 v1"
           new_writer H).
Defined.

(** ** Construction *)

Lemma prefix_split (p s : string) :
  String.prefix p s = true -> exists r, s = p ++ r.
Proof.
  revert s. induction p as [|a p IH]; intros s.
  - intros _. now exists s.
  - destruct s as [|b s]; simpl; [discriminate|].
    destruct (ascii_dec a b) as [->|_]; [|discriminate].
    intros H. destruct (IH s H) as [r ->]. now exists r.
Qed.

Lemma prefix_append (p r : string) : String.prefix p (p ++ r) = true.
Proof.
  induction p as [|a p IH]; simpl; [now destruct r|].
  destruct (ascii_dec a a); [exact IH|congruence].
Qed.


Lemma substring_all (s : string) : String.substring 0 (String.length s) s = s.
Proof. induction s as [|c s IH]; simpl; [reflexivity|now rewrite IH]. Qed.

Lemma substring_after (p r : string) :
  String.substring (String.length p)
    (String.length (p ++ r) - String.length p) (p ++ r) = r.
Proof.
  induction p as [|a p IH]; simpl.
  - rewrite Nat.sub_0_r. apply substring_all.
  - exact IH.
Qed.

Lemma lstrip_space_spec (s : string) :
  exists k, s = spaces k ++ Py.lstrip_space s.
Proof.
  induction s as [|c s [k IH]].
  - now exists 0%nat.
  - destruct (Ascii.eqb_spec c " ") as [->|Hc].
    + exists (S k). simpl. now rewrite <- IH.
    + exists 0%nat. simpl.
      destruct c as [[] [] [] [] [] [] [] []]; try reflexivity.
      now elim Hc.
Qed.

Lemma lstrip_space_spaces (k : nat) (u : string) :
  Py.lstrip_space (spaces k ++ u) = Py.lstrip_space u.
Proof. induction k as [|k IH]; simpl; [reflexivity|exact IH]. Qed.

Lemma in_list_In (x : string) (l : list string) :
  Py.in_list x l = true <-> In x l.
Proof.
  unfold Py.in_list. rewrite existsb_exists. split.
  - intros (y & Hy & E). apply String.eqb_eq in E. now subst.
  - intros H. exists x. split; [exact H|apply String.eqb_refl].
Qed.

(** The candidates are tried longest first, so that [100] is not read as
    [10] followed by a unit starting with 0. *)
Lemma timescale_unit_found (num : Z) (k : nat) (unit : string) :
  In num TIMESCALE_NUMS -> In unit TIMESCALE_UNITS ->
  timescale_unit [100; 10; 1] (Py.str num ++ spaces k ++ unit) = Some unit.
Proof.
  intros Hnum Hunit.
  assert (Hhead : exists c rest, spaces k ++ unit = String c rest
                                 /\ c <> "0"%char).
  { destruct k; simpl.
    - simpl in Hunit.
      repeat (destruct Hunit as [<-|Hunit];
              [eexists; eexists; split; [reflexivity|discriminate]|]).
      contradiction.
    - eexists; eexists; split; [reflexivity|discriminate]. }
  assert (Hstrip : Py.lstrip_space (spaces k ++ unit) = unit).
  { rewrite lstrip_space_spaces. simpl in Hunit.
    repeat (destruct Hunit as [<-|Hunit]; [reflexivity|]). contradiction. }
  assert (Hhit : forall p : string,
             Py.startswith (p ++ spaces k ++ unit) p = true
             /\ Py.lstrip_space
                  (String.substring (String.length p)
                     (String.length (p ++ spaces k ++ unit) - String.length p)
                     (p ++ spaces k ++ unit)) = unit).
  { intros p. split; [apply prefix_append|].
    now rewrite substring_after. }
  destruct Hhead as (c & rest & Hrest & Hc).
  assert (Hc' : "0"%char <> c) by congruence.
  simpl in Hnum. destruct Hnum as [<-|[<-|[<-|[]]]].
  - (* 1 *)
    change (Py.str 1) with "1".
    unfold timescale_unit.
    change (Py.str 100) with "100". change (Py.str 10) with "10".
    change (Py.str 1) with "1".
    assert (H100 : Py.startswith ("1" ++ spaces k ++ unit) "100" = false).
    { rewrite Hrest. unfold Py.startswith. cbn [append].
      rewrite ?prefix_cons_eq. now apply prefix_cons_ne. }
    assert (H10 : Py.startswith ("1" ++ spaces k ++ unit) "10" = false).
    { rewrite Hrest. unfold Py.startswith. cbn [append].
      rewrite ?prefix_cons_eq. now apply prefix_cons_ne. }
    rewrite H100, H10.
    destruct (Hhit "1") as [-> ->]. reflexivity.
  - (* 10 *)
    change (Py.str 10) with "10".
    unfold timescale_unit.
    change (Py.str 100) with "100". change (Py.str 10) with "10".
    assert (H100 : Py.startswith ("10" ++ spaces k ++ unit) "100" = false).
    { rewrite Hrest. unfold Py.startswith. cbn [append].
      rewrite ?prefix_cons_eq. now apply prefix_cons_ne. }
    rewrite H100.
    destruct (Hhit "10") as [-> ->]. reflexivity.
  - (* 100 *)
    change (Py.str 100) with "100".
    unfold timescale_unit.
    change (Py.str 100) with "100".
    destruct (Hhit "100") as [-> ->]. reflexivity.
Qed.

Lemma timescale_unit_sound (nums : list Z) (timescale unit : string) :
  timescale_unit nums timescale = Some unit ->
  exists num k,
    In num nums /\ timescale = Py.str num ++ spaces k ++ unit.
Proof.
  induction nums as [|num nums IH]; simpl; [discriminate|].
  destruct (Py.startswith timescale (Py.str num)) eqn:Hp.
  - intros E. injection E as <-.
    apply prefix_split in Hp as [r ->].
    rewrite substring_after.
    destruct (lstrip_space_spec r) as [k Hr].
    exists num, k. split; [now left|]. now rewrite <- Hr.
  - intros E. destruct (IH E) as (n & k & Hin & ->).
    exists n, k. split; [now right|reflexivity].
Qed.

(** [_check_timescale] raises nothing but [ValueError]. *)
Lemma check_timescale_outcome (timescale : string) :
  _check_timescale timescale = inr tt
  \/ _check_timescale timescale = inl ValueError.
Proof.
  unfold _check_timescale.
  change (rev (Py.sorted Z.compare TIMESCALE_NUMS)) with [100; 10; 1].
  destruct (timescale_unit [100; 10; 1] timescale) as [unit|]; [|now right].
  destruct (Py.in_list unit TIMESCALE_UNITS); [now left|now right].
Qed.

(** X4.  [_check_timescale] accepts exactly the strings made of 1, 10 or
    100, any number of spaces, and one of the units s, ms, us, ns, ps,
    fs; every other string is refused with [ValueError]. *)
Theorem check_timescale_accepts_iff (timescale : string) :
  (_check_timescale timescale = inr tt
   <-> exists num unit k,
         In num TIMESCALE_NUMS /\ In unit TIMESCALE_UNITS
         /\ timescale = Py.str num ++ spaces k ++ unit)
  /\ (_check_timescale timescale = inr tt
      \/ _check_timescale timescale = inl ValueError).
Proof.
  split; [|apply check_timescale_outcome].
  unfold _check_timescale.
  change (rev (Py.sorted Z.compare TIMESCALE_NUMS)) with [100; 10; 1].
  split.
  - destruct (timescale_unit [100; 10; 1] timescale) as [unit|] eqn:E;
      [|discriminate].
    destruct (Py.in_list unit TIMESCALE_UNITS) eqn:Hu; [|discriminate].
    intros _. apply in_list_In in Hu.
    destruct (timescale_unit_sound _ _ _ E) as (num & k & Hin & ->).
    exists num, unit, k. split; [|split; [exact Hu|reflexivity]].
    simpl in Hin. simpl. tauto.
  - intros (num & unit & k & Hnum & Hunit & ->).
    rewrite (timescale_unit_found num k unit Hnum Hunit).
    apply in_list_In in Hunit. now rewrite Hunit.
Qed.


(** ** Scopes given as strings *)

Section SplitJoin.

Variable c : ascii.
Local Abbreviation sep := (String c EmptyString).

Lemma prefix_sep_hit (s : string) : String.prefix sep (String c s) = true.
Proof. rewrite prefix_cons_eq. now destruct s. Qed.

Lemma prefix_sep_miss (d : ascii) (s : string) :
  Ascii.eqb c d = false -> String.prefix sep (String d s) = false.
Proof.
  intros H. apply prefix_cons_ne. intros ->. now rewrite Ascii.eqb_refl in H.
Qed.

Lemma split_aux_last (seg : string) :
  Py.char_in c seg = false ->
  forall cur,
    Py.split_aux sep 0 cur seg
    = [string_of_list_ascii (rev cur +++ list_ascii_of_string seg)].
Proof.
  induction seg as [|d seg IH]; intros Hc cur; cbn [Py.split_aux].
  - simpl. now rewrite List.app_nil_r.
  - simpl in Hc. apply orb_false_iff in Hc as [Hd Hs].
    rewrite (prefix_sep_miss d seg Hd), (IH Hs). simpl.
    now rewrite <- List.app_assoc.
Qed.

Lemma split_aux_segment (seg rest : string) :
  Py.char_in c seg = false ->
  forall cur,
    Py.split_aux sep 0 cur (seg ++ String c rest)
    = string_of_list_ascii (rev cur +++ list_ascii_of_string seg)
        :: Py.split_aux sep 0 [] rest.
Proof.
  induction seg as [|d seg IH]; intros Hc cur; cbn [append Py.split_aux].
  - rewrite prefix_sep_hit. simpl. now rewrite List.app_nil_r.
  - simpl in Hc. apply orb_false_iff in Hc as [Hd Hs].
    rewrite (prefix_sep_miss d _ Hd), (IH Hs). simpl.
    now rewrite <- List.app_assoc.
Qed.

Lemma split_concat (segs : list string) :
  segs <> [] ->
  Forall (fun seg => Py.char_in c seg = false) segs ->
  Py.split (String.concat sep segs) sep = Some segs.
Proof.
  intros Hne Hall. unfold Py.split. f_equal.
  induction Hall as [|seg segs Hseg Hall IH]; [congruence|].
  destruct segs as [|seg' segs].
  - simpl. rewrite (split_aux_last seg Hseg). simpl.
    now rewrite string_of_list_ascii_of_string.
  - change (String.concat sep (seg :: seg' :: segs))
      with (seg ++ String c (String.concat sep (seg' :: segs))).
    rewrite (split_aux_segment seg _ Hseg), IH by discriminate. simpl.
    now rewrite string_of_list_ascii_of_string.
Qed.

End SplitJoin.

(** X6.  With a one-character separator, a scope given as the string
    that joins its segments is the scope given as the sequence of those
    segments, provided no segment holds the separator: [_get_scope_tuple]
    returns the segments, and [register_var] and [set_scope_type] do the
    same with either form. *)
Theorem string_scope_is_sequence (format_16g : pyvalue -> string)
        (c : ascii) (segs : list string) (w : VCDWriter) :
  segs <> [] ->
  Forall (fun seg => Py.char_in c seg = false) segs ->
  _scope_sep w = String c EmptyString ->
  let joined := ScopeStr (String.concat (String c EmptyString) segs) in
  _get_scope_tuple joined w = (inr segs, w)
  /\ (forall name var_type size init ident,
        register_var format_16g joined name var_type size init ident w
        = register_var format_16g (ScopeSeq segs) name var_type size init
            ident w)
  /\ (forall scope_type,
        set_scope_type joined scope_type w
        = set_scope_type (ScopeSeq segs) scope_type w).
Proof.
  intros Hne Hall Hsep. cbv zeta.
  assert (Hget : _get_scope_tuple
                   (ScopeStr (String.concat (String c EmptyString) segs)) w
                 = _get_scope_tuple (ScopeSeq segs) w).
  { unfold _get_scope_tuple, bind, gets. rewrite Hsep.
    now rewrite (split_concat c segs Hne Hall). }
  split; [rewrite Hget; reflexivity|]. split.
  - intros name var_type size init ident.
    unfold register_var, bind, gets.
    destruct (_closed w); [reflexivity|].
    destruct (negb (_registering w)); [reflexivity|].
    destruct (negb (Py.in_list var_type VAR_TYPES)); [reflexivity|].
    fold (@bind scope_tuple). now rewrite Hget.
  - intros scope_type. unfold set_scope_type, bind.
    destruct (match scope_type with
              | Some t => when (negb (Py.in_list t SCOPE_TYPES)) (raise ValueError)
              | None => ret tt
              end w) as [[e|[]] w1] eqn:E1; [reflexivity|].
    assert (w1 = w) as ->.
    { destruct scope_type as [t|]; unfold when, ret, raise in E1.
      - destruct (negb (Py.in_list t SCOPE_TYPES)); now inversion E1.
      - now inversion E1. }
    now rewrite Hget.
Qed.

Lemma string_scope_is_sequence_witness :
  let segs := ["top"; "cpu"; "alu"] in
  let joined := ScopeStr (String.concat "." segs) in
  segs <> []
  /\ Forall (fun seg => Py.char_in "." seg = false) segs
  /\ _scope_sep new_writer = "."
  /\ _get_scope_tuple joined new_writer = (inr segs, new_writer)
  /\ (forall name var_type size init ident,
        register_var format_16g_sample joined name var_type size init ident
          new_writer
        = register_var format_16g_sample (ScopeSeq segs) name var_type size
            init ident new_writer)
  /\ (forall scope_type,
        set_scope_type joined scope_type new_writer
        = set_scope_type (ScopeSeq segs) scope_type new_writer).
Proof.
  cbv zeta.
  assert (H1 : ["top"; "cpu"; "alu"] <> []) by discriminate.
  assert (H2 : Forall (fun seg => Py.char_in "." seg = false)
                 ["top"; "cpu"; "alu"]) by (repeat constructor).
  assert (H3 : _scope_sep new_writer = ".") by reflexivity.
  split; [exact H1|]. split; [exact H2|]. split; [exact H3|].
  exact (string_scope_is_sequence format_16g_sample "." _ new_writer H1 H2 H3).
Defined.

(** ** Header generation in general *)

Lemma first_diff_none (i : nat) (prev this : list string) :
  first_diff i prev this = None -> prev = this.
Proof.
  revert i this. induction prev as [|p prev IH]; intros i [|t this]; simpl;
    try discriminate; [reflexivity|].
  destruct (String.eqb_spec p t) as [->|_]; [|discriminate].
  intros H. f_equal. exact (IH _ _ H).
Qed.

Lemma first_diff_bound (i k : nat) (prev this : list string) :
  first_diff k prev this = Some i ->
  (k <= i /\ i - k <= List.length prev /\ i - k <= List.length this)%nat.
Proof.
  revert k this. induction prev as [|p prev IH]; intros k [|t this]; simpl;
    try discriminate; try (intros E; injection E as <-; lia).
  destruct (String.eqb p t); [|intros E; injection E as <-; lia].
  intros H. apply IH in H. lia.
Qed.

Lemma pop_key {V} (d : list (scope_tuple * V)) (k : scope_tuple) :
  In k (Py.keys d) -> exists v r, Py.pop Py.tuple_eqb d k = Some (v, r).
Proof.
  intros Hin. destruct (Py.pop Py.tuple_eqb d k) as [[v r]|] eqn:E; [eauto|].
  now apply pop_none in E.
Qed.

(** Over the distinct keys of the registry, in whatever order, the loop
    pops every scope, raises nothing and leaves the registry empty. *)
Lemma scope_loop_total types default (scopes : list scope_tuple) :
  forall prev strs,
    NoDup scopes ->
    Permutation scopes (Py.keys strs) ->
    (forall p, prev = Some p -> ~ In p scopes) ->
    exists lines, scope_loop types default scopes prev strs = (inr lines, []).
Proof.
  induction scopes as [|scope rest IH]; intros prev strs Hnd Hp Hprev; simpl.
  - apply Permutation_nil in Hp. destruct strs; [|discriminate]. eauto.
  - destruct (pop_key strs scope) as (v & r & Epop).
    { eapply Permutation_in; [exact Hp|now left]. }
    rewrite Epop.
    destruct (pop_some _ _ _ _ Epop) as [_ Hpr].
    inversion Hnd as [|? ? Hnotin Hnd']; subst.
    destruct (IH (Some scope) r Hnd') as [lines El].
    { apply keys_perm in Hpr. simpl in Hpr.
      apply Permutation_cons_inv with (a := scope).
      now rewrite Hp, Hpr. }
    { intros p E. injection E as <-. exact Hnotin. }
    rewrite El.
    destruct (first_diff 0 _ scope) as [i|] eqn:Ed; [eauto|].
    destruct prev as [p|]; [|eauto].
    apply first_diff_none in Ed. subst p.
    elim (Hprev scope eq_refl). now left.
Qed.

(** In a registry that holds each scope once, [_gen_header] raises
    nothing and takes every scope out. *)
Lemma gen_header_total (w : VCDWriter) :
  NoDup (Py.keys (_scope_var_strs w)) ->
  exists lines,
    _gen_header w = (inr lines, with_scope_var_strs [] w)
    /\ lines
       = flat_map keyword_lines (Py.sorted Py.cmp_item (_header_keywords w))
         +++ match fst (scope_loop (_scope_types w) (_default_scope_type w)
                          (Py.sorted Py.cmp_tuple (Py.keys (_scope_var_strs w)))
                          None (_scope_var_strs w)) with
             | inr l => l
             | inl _ => []
             end.
Proof.
  intros Hnd.
  destruct (scope_loop_total (_scope_types w) (_default_scope_type w)
              (Py.sorted Py.cmp_tuple (Py.keys (_scope_var_strs w)))
              None (_scope_var_strs w)) as [lines El].
  - eapply Permutation_NoDup; [symmetry; apply sorted_perm|exact Hnd].
  - apply sorted_perm.
  - discriminate.
  - unfold _gen_header, bind, gets, modify, lift, ret. simpl.
    rewrite El. simpl. eauto.
Qed.

(** *** Nesting *)

Lemma nesting_app (a b : list string) :
  forall d,
    nesting d (a +++ b)
    = match nesting d a with
      | Some d' => nesting d' b
      | None => None
      end.
Proof.
  induction a as [|l a IH]; intros d; simpl; [reflexivity|].
  destruct (d + scope_delta l <? 0); [reflexivity|apply IH].
Qed.

Lemma nesting_neutral (lines : list string) (d : Z) :
  0 <= d -> Forall (fun l => scope_delta l = 0) lines ->
  nesting d lines = Some d.
Proof.
  intros Hd. induction 1 as [|l lines Hl _ IH]; simpl; [reflexivity|].
  rewrite Hl, Z.add_0_r.
  destruct (Z.ltb_spec d 0); [lia|exact IH].
Qed.

Lemma nesting_closes {A} (l : list A) (d : Z) :
  Z.of_nat (List.length l) <= d ->
  nesting d (map (fun _ => "$upscope $end") l)
  = Some (d - Z.of_nat (List.length l)).
Proof.
  revert d. induction l as [|x l IH]; intros d Hd; simpl nesting.
  - f_equal. simpl. lia.
  - change (scope_delta "$upscope $end") with (-1).
    simpl List.length in *.
    destruct (Z.ltb_spec (d + -1) 0); [lia|].
    rewrite IH by lia. f_equal. lia.
Qed.

Lemma scope_line_delta (tag name : string) :
  scope_delta ("$scope " ++ tag ++ " " ++ name ++ " $end") = 1.
Proof. unfold scope_delta. now rewrite prefix_append. Qed.

Lemma nesting_opens (f : nat * string -> string) (l : list (nat * string))
      (d : Z) :
  0 <= d -> (forall jn, scope_delta (f jn) = 1) ->
  nesting d (map f l) = Some (d + Z.of_nat (List.length l)).
Proof.
  intros Hd Hf. revert d Hd.
  induction l as [|x l IH]; intros d Hd; simpl nesting.
  - f_equal. simpl. lia.
  - rewrite Hf. simpl List.length.
    destruct (Z.ltb_spec (d + 1) 0); [lia|].
    rewrite IH by lia. f_equal. lia.
Qed.

Lemma var_line_neutral (line : string) : var_line line -> scope_delta line = 0.
Proof.
  intros H. apply prefix_split in H as [r ->]. reflexivity.
Qed.

Lemma scope_switch_nesting types default (prev scope : scope_tuple) (i : nat) :
  first_diff 0 prev scope = Some i ->
  nesting (Z.of_nat (List.length prev))
    (scope_switch_lines types default prev scope i)
  = Some (Z.of_nat (List.length scope)).
Proof.
  intros Hd. apply first_diff_bound in Hd.
  unfold scope_switch_lines. rewrite nesting_app.
  rewrite nesting_closes by (rewrite length_skipn; lia).
  rewrite nesting_opens.
  - f_equal. unfold enumerate.
    rewrite length_combine, length_seq, Nat.min_id, !length_skipn. lia.
  - rewrite length_skipn. lia.
  - intros [j name]. apply scope_line_delta.
Qed.

(** The lines of the loop bring the depth from that of the previous
    scope back to 0 without ever closing below 0. *)
Lemma scope_loop_nesting types default (scopes : list scope_tuple) :
  forall prev strs lines strs',
    Forall (fun kv => Forall var_line (snd kv)) strs ->
    scope_loop types default scopes prev strs = (inr lines, strs') ->
    nesting (Z.of_nat (List.length
                         match prev with Some p => p | None => [] end))
            lines = Some 0.
Proof.
  induction scopes as [|scope rest IH]; intros prev strs lines strs' Hs; simpl.
  - intros E. injection E as <- <-. rewrite nesting_app.
    rewrite nesting_closes by lia. rewrite Z.sub_diag. reflexivity.
  - destruct (Py.pop Py.tuple_eqb strs scope) as [[var_strs r]|] eqn:Epop;
      [|discriminate].
    assert (Hpop : Forall var_line var_strs
                   /\ Forall (fun kv => Forall var_line (snd kv)) r).
    { clear - Hs Epop. revert var_strs r Epop.
      induction Hs as [|[k0 v0] d Hx Hd IHd]; intros var_strs r; simpl;
        [discriminate|].
      destruct (Py.tuple_eqb scope k0).
      - intros E. injection E as <- <-. split; assumption.
      - destruct (Py.pop Py.tuple_eqb d scope) as [[v1 r1]|]; [|discriminate].
        intros E. injection E as <- <-.
        destruct (IHd v1 r1 eq_refl) as [H1 H2].
        split; [assumption|now constructor]. }
    destruct Hpop as [Hv Hr].
    assert (Hgo : forall switch,
      nesting (Z.of_nat (List.length
                           match prev with Some p => p | None => [] end))
              switch = Some (Z.of_nat (List.length scope)) ->
      match scope_loop types default rest (Some scope) r with
      | (inr l, s) => (inr (switch +++ var_strs +++ l), s)
      | (inl e, s) => (inl e, s)
      end = (inr lines, strs') ->
      nesting (Z.of_nat (List.length
                           match prev with Some p => p | None => [] end))
              lines = Some 0).
    { intros switch Hsw.
      destruct (scope_loop types default rest (Some scope) r)
        as [[e|l] s] eqn:El; [discriminate|].
      intros E. injection E as <- <-.
      rewrite nesting_app, Hsw, nesting_app.
      rewrite nesting_neutral by
        first [lia|eapply Forall_impl; [apply var_line_neutral|exact Hv]].
      exact (IH (Some scope) r l s Hr El). }
    destruct (first_diff 0 _ scope) as [i|] eqn:Ed.
    + apply Hgo. now apply scope_switch_nesting.
    + destruct prev as [p|]; [discriminate|].
      apply first_diff_none in Ed. subst scope.
      exact (Hgo [] eq_refl).
Qed.

Lemma keyword_lines_neutral (kw : string * string) :
  In (fst kw) HEADER_KEYWORDS ->
  Forall (fun l => scope_delta l = 0) (keyword_lines kw).
Proof.
  destruct kw as [kwname kwvalue]. simpl fst. intros Hk.
  unfold keyword_lines.
  destruct (String.eqb kwvalue ""); [constructor|].
  simpl Py.split. cbv iota.
  generalize (Py.split_aux (String "010" EmptyString) 0 [] kwvalue).
  intros lines.
  assert (Htab : Forall (fun l => scope_delta l = 0)
                   (map (fun line => String "009" line) lines)).
  { apply Forall_map. apply Forall_forall. intros; reflexivity. }
  simpl in Hk.
  destruct Hk as [<-|[<-|[<-|[<-|[]]]]];
    (destruct lines as [|l [|l' lines]];
     [repeat constructor
     |repeat constructor
     |constructor; [reflexivity|];
      apply Forall_app; split; [exact Htab|repeat constructor]]).
Qed.

(** ** What every call keeps *)

Section WpxRules.

Context {A B : Type}.
Implicit Types (Q : A -> VCDWriter -> Prop) (E : exn -> VCDWriter -> Prop).

Lemma wpx_ret (x : A) Q E w : wpx (ret x) Q E w <-> Q x w.
Proof. reflexivity. Qed.

Lemma wpx_raise (e : exn) Q E w : wpx (@raise A e) Q E w <-> E e w.
Proof. reflexivity. Qed.

Lemma wpx_gets (f : VCDWriter -> A) Q E w : wpx (gets f) Q E w <-> Q (f w) w.
Proof. reflexivity. Qed.

Lemma wpx_lift (r : exn + A) Q E w :
  wpx (lift r) Q E w <-> match r with inr x => Q x w | inl e => E e w end.
Proof. unfold wpx, lift. destruct r; reflexivity. Qed.

Lemma wpx_bind (m : M A) (k : A -> M B) (R : B -> VCDWriter -> Prop) E w :
  wpx (bind m k) R E w <-> wpx m (fun x w' => wpx (k x) R E w') E w.
Proof. unfold wpx, bind. destruct (m w) as [[e|x] w']; reflexivity. Qed.

Lemma wpx_mono (m : M A) Q Q' E E' w :
  wpx m Q E w ->
  (forall x w', Q x w' -> Q' x w') ->
  (forall e w', E e w' -> E' e w') ->
  wpx m Q' E' w.
Proof.
  unfold wpx. destruct (m w) as [[e|x] w']; intros H HQ HE; auto.
Qed.

Lemma wpx_eq (m : M A) Q E w x w' :
  m w = (inr x, w') -> Q x w' -> wpx m Q E w.
Proof. unfold wpx. now intros ->. Qed.

End WpxRules.

Lemma wpx_modify (f : VCDWriter -> VCDWriter) Q E w :
  wpx (modify f) Q E w <-> Q tt (f w).
Proof. reflexivity. Qed.

Lemma wpx_when (b : bool) (m : M unit) Q E w :
  wpx (when b m) Q E w <-> if b then wpx m Q E w else Q tt w.
Proof. destruct b; reflexivity. Qed.

Lemma wpx_print (line : string) Q E w :
  wpx (print line) Q E w <-> Q tt (with_ofile (fun out => out +++ [line]) w).
Proof. reflexivity. Qed.

Ltac wpx_step :=
  repeat first
    [ rewrite wpx_bind | rewrite wpx_gets | rewrite wpx_modify
    | rewrite wpx_ret | rewrite wpx_raise | rewrite wpx_when
    | rewrite wpx_print | rewrite wpx_lift ].

(** *** Lines *)

Lemma ordinary_first (c : ascii) (rest : string) :
  c <> "$"%char -> ordinary (String c rest).
Proof.
  intros Hc. split.
  - unfold scope_delta. rewrite prefix_cons_ne by congruence.
    destruct (String.eqb_spec (String c rest) "$upscope $end") as [E|_];
      [|reflexivity].
    injection E as -> _. now elim Hc.
  - split; [|apply prefix_cons_ne; congruence].
    intros E. injection E as -> _. now elim Hc.
Qed.

Lemma value_line_ordinary (line : string) : value_line line -> ordinary line.
Proof. intros (c & rest & -> & Hc & _). now apply ordinary_first. Qed.

Lemma marker_ordinary (t : Z) : ordinary ("#" ++ Py.str t).
Proof. apply ordinary_first. discriminate. Qed.

Lemma format_value_value_line format_16g var value line :
  format_value format_16g var value = inr line -> value_line line.
Proof.
  unfold format_value.
  destruct (cls var); [discriminate| | |].
  - pose proof (scalar_encoder_cases var value) as H.
    intros E. rewrite E in H. destruct H as (c & -> & Hc).
    exists c, (ident var). split; [reflexivity|].
    simpl in Hc. split; intros ->; discriminate.
  - unfold Real.format_value. destruct (is_number value); [|discriminate].
    destruct (format_16g_raises value); [discriminate|].
    intros E; injection E as <-.
    eexists; eexists. split; [reflexivity|split; discriminate].
  - unfold Vector.format_value.
    destruct (as_integer value) as [n|].
    + destruct (size var <? 0); [discriminate|].
      match goal with
      | |- context [if ?c then _ else _] => destruct c
      end; [discriminate|].
      intros E; injection E as <-.
      eexists; eexists. split; [reflexivity|split; discriminate].
    + destruct value as [|b|n|f|s|o|fm o]; try discriminate.
      * intros E; injection E as <-.
        eexists; eexists. split; [reflexivity|split; discriminate].
      * destruct (_ <=? _); [|discriminate].
        intros E; injection E as <-.
        eexists; eexists. split; [reflexivity|split; discriminate].
Qed.

(** The encoders of the three classes raise [ValueError], and the real
    one what the formatting of a number raises. *)
Lemma format_value_error format_16g var value e :
  cls var <> BaseVariable ->
  format_value format_16g var value = inl e ->
  e = ValueError \/ e = TypeError \/ e = OverflowError.
Proof.
  unfold format_value. intros Hc.
  destruct (cls var); [now elim Hc| | |].
  - pose proof (scalar_encoder_cases var value) as H.
    intros E. rewrite E in H. tauto.
  - unfold Real.format_value.
    destruct (is_number value); [|intros E; injection E as <-; auto].
    unfold format_16g_raises.
    destruct value as [|b|n|f|s|o|fm o]; try discriminate.
    + destruct (_ <? _); [discriminate|]. intros E; injection E as <-; auto.
    + destruct fm; [discriminate|]. intros E; injection E as <-; auto.
  - unfold Vector.format_value.
    destruct (as_integer value) as [n|].
    + destruct (size var <? 0); [intros E; injection E as <-; auto|].
      match goal with
      | |- context [if ?c then _ else _] => destruct c
      end; [intros E; injection E as <-; auto|discriminate].
    + destruct value as [|b|n|f|s|o|fm o]; try discriminate;
        try (intros E; injection E as <-; auto).
      destruct (_ <=? _); [discriminate|intros E; injection E as <-; auto].
Qed.

Lemma enddefinitions_app (a b : list string) :
  enddefinitions (a +++ b) = (enddefinitions a + enddefinitions b)%nat.
Proof. apply count_occ_app. Qed.

Lemma enddefinitions_none (lines : list string) :
  Forall (fun l => l <> "$enddefinitions $end") lines ->
  enddefinitions lines = 0%nat.
Proof.
  intros H. apply count_occ_not_In. rewrite Forall_forall in H.
  intros Hin. now apply (H _ Hin).
Qed.

Lemma ordinary_enddefinitions (lines : list string) :
  Forall ordinary lines -> enddefinitions lines = 0%nat.
Proof.
  intros H. apply enddefinitions_none.
  eapply Forall_impl; [|exact H]. now intros l (_ & Hl & _).
Qed.

Lemma ordinary_nesting (lines : list string) (d : Z) :
  0 <= d -> Forall ordinary lines -> nesting d lines = Some d.
Proof.
  intros Hd H. apply nesting_neutral; [exact Hd|].
  eapply Forall_impl; [|exact H]. now intros l [Hl _].
Qed.

Lemma var_lines_app (a b : list string) :
  var_lines (a +++ b) = var_lines a +++ var_lines b.
Proof. apply filter_app. Qed.

Lemma ordinary_var_lines (lines : list string) :
  Forall ordinary lines -> var_lines lines = [].
Proof.
  induction 1 as [|l lines (_ & _ & Hl) _ IH]; [reflexivity|].
  unfold var_lines. simpl. rewrite Hl. exact IH.
Qed.

(** *** Dictionaries *)

Section SetFacts.

Context {K V : Type} (eqb : K -> K -> bool).
Hypothesis eqb_eq : forall x y, eqb x y = true <-> x = y.

Lemma in_keys_set (d : list (K * V)) k v x :
  In x (Py.keys (Py.set eqb d k v)) -> x = k \/ In x (Py.keys d).
Proof.
  induction d as [|[k0 v0] d IH]; simpl.
  - intros [<-|[]]. now left.
  - destruct (eqb k k0); simpl; [tauto|].
    intros [<-|H]; [tauto|]. destruct (IH H); tauto.
Qed.

Lemma keys_set_nodup (d : list (K * V)) k v :
  NoDup (Py.keys d) -> NoDup (Py.keys (Py.set eqb d k v)).
Proof.
  induction d as [|[k0 v0] d IH]; simpl; intros Hnd.
  - repeat constructor. tauto.
  - inversion Hnd as [|? ? Hnotin Hnd']; subst.
    destruct (eqb k k0) eqn:E; simpl; [now constructor|].
    constructor; [|now apply IH].
    intros Hin. apply in_keys_set in Hin as [->|Hin]; [|contradiction].
    assert (eqb k k = true) by now apply eqb_eq. congruence.
Qed.

Lemma get_set_eq (d : list (K * V)) k v :
  Py.get eqb (Py.set eqb d k v) k = Some v.
Proof.
  assert (Hkk : eqb k k = true) by now apply eqb_eq.
  induction d as [|[k0 v0] d IH]; simpl.
  - now rewrite Hkk.
  - destruct (eqb k k0) eqn:E; simpl; rewrite E; auto.
Qed.

Lemma get_set_other (d : list (K * V)) k v k' :
  k' <> k -> Py.get eqb (Py.set eqb d k v) k' = Py.get eqb d k'.
Proof.
  intros Hne.
  assert (Hk : eqb k' k = false).
  { destruct (eqb k' k) eqn:E; [|reflexivity]. now apply eqb_eq in E. }
  induction d as [|[k0 v0] d IH]; simpl.
  - now rewrite Hk.
  - destruct (eqb k k0) eqn:E; simpl.
    + apply eqb_eq in E. subst k0. now rewrite Hk.
    + now rewrite IH.
Qed.

End SetFacts.

Lemma setdefault_nodup d k :
  NoDup (Py.keys d) -> NoDup (Py.keys (snd (setdefault d k))).
Proof.
  intros H. unfold setdefault.
  destruct (Py.get Py.tuple_eqb d k); simpl; [exact H|].
  now apply (keys_set_nodup _ tuple_eqb_eq).
Qed.

Lemma append_at_nodup d k x :
  NoDup (Py.keys d) -> NoDup (Py.keys (append_at d k x)).
Proof.
  intros H. unfold append_at.
  destruct (Py.get Py.tuple_eqb d k); [|exact H].
  now apply (keys_set_nodup _ tuple_eqb_eq).
Qed.

(** *** One setter at a time *)

(** Opens a [sound] hypothesis into its fields. *)
Ltac sound_inv H :=
  destruct H as
    [Hs_out Hs_flushes Hs_registering Hs_closed Hs_cursor Hs_next Hs_default
     Hs_sep Hs_cache_keys Hs_cache_vals Hs_strs_keys Hs_strs_var Hs_kws
     Hs_nested Hs_reg_cursor Hs_reg_out Hs_closed_live Hs_live Hs_vars].

Section SoundSetters.

Variable w0 : VCDWriter.

Lemma sound_rebase (w : VCDWriter) : sound w0 w -> sound w w.
Proof.
  intros Hsound. sound_inv Hsound.
  constructor; auto; try lia.
  exists []. now rewrite List.app_nil_r.
Qed.

(** Once the header is out, ordinary lines may follow. *)
Lemma sound_append (lines : list string) (w : VCDWriter) :
  Forall ordinary lines -> _registering w = false ->
  sound w0 w -> sound w0 (with_ofile (fun out => out +++ lines) w).
Proof.
  intros Hl Hr Hsound. sound_inv Hsound.
  constructor; simpl; auto; try congruence.
  - destruct Hs_out as [ls ->]. exists (ls +++ lines).
    now rewrite List.app_assoc.
  - rewrite nesting_app, Hs_nested. now apply ordinary_nesting.
  - intros H. destruct (Hs_live H) as (H1 & H2 & H3 & H4).
    repeat split; auto.
    rewrite enddefinitions_app, H4, (ordinary_enddefinitions _ Hl). lia.
  - intros H. rewrite var_lines_app, (ordinary_var_lines _ Hl).
    rewrite List.app_nil_r. auto.
Qed.

Lemma sound_flushes (w : VCDWriter) :
  sound w0 w -> sound w0 (with_ofile_flushes S w).
Proof.
  intros Hsound. sound_inv Hsound.
  constructor; simpl; auto.
Qed.

Lemma sound_dumping b (w : VCDWriter) :
  sound w0 w -> sound w0 (with_dumping b w).
Proof.
  intros Hsound. sound_inv Hsound.
  constructor; auto.
Qed.

Lemma sound_closed (w : VCDWriter) :
  _registering w = false -> sound w0 w -> sound w0 (with_closed true w).
Proof.
  intros Hr Hsound. sound_inv Hsound.
  constructor; auto.
Qed.

Lemma sound_prev p (w : VCDWriter) :
  _registering w = false -> _prev_timestamp w <= p ->
  sound w0 w -> sound w0 (with_prev_timestamp p w).
Proof.
  intros Hr Hp Hsound. sound_inv Hsound.
  constructor; simpl; auto; try lia. congruence.
Qed.

Lemma sound_next n (w : VCDWriter) :
  _next_var_id w <= n -> sound w0 w -> sound w0 (with_next_var_id n w).
Proof.
  intros Hn Hsound. sound_inv Hsound.
  constructor; simpl; auto; lia.
Qed.

Lemma sound_types types (w : VCDWriter) :
  sound w0 w -> sound w0 (with_scope_types types w).
Proof.
  intros Hsound. sound_inv Hsound.
  constructor; auto.
Qed.

Lemma sound_names names (w : VCDWriter) :
  _registering w = true -> sound w0 w -> sound w0 (with_scope_var_names names w).
Proof.
  intros Hr Hsound. sound_inv Hsound.
  constructor; simpl; auto. congruence.
Qed.

Lemma sound_strs strs (w : VCDWriter) :
  _registering w = true ->
  NoDup (Py.keys strs) -> Forall (fun kv => Forall var_line (snd kv)) strs ->
  sound w0 w -> sound w0 (with_scope_var_strs strs w).
Proof.
  intros Hr Hk Hv Hsound. sound_inv Hsound.
  constructor; simpl; auto. congruence.
Qed.

Lemma sound_cache values (w : VCDWriter) :
  NoDup (Py.keys values) -> Forall (fun kv => value_line (snd kv)) values ->
  sound w0 w -> sound w0 (with_ident_values values w).
Proof.
  intros Hk Hv Hsound. sound_inv Hsound.
  constructor; auto.
Qed.

Lemma sound_cache_set id line (w : VCDWriter) :
  value_line line -> sound w0 w ->
  sound w0 (with_ident_values
              (Py.set String.eqb (_ident_values w) id line) w).
Proof.
  intros Hl Hs. apply sound_cache; [| |exact Hs].
  - apply (keys_set_nodup _ String.eqb_eq). exact (s_cache_keys _ _ Hs).
  - apply (Forall_set String.eqb value_line); [exact Hl|].
    exact (s_cache_vals _ _ Hs).
Qed.

(** The step out of registration: what was written so far is [lines],
    nested and ending the declarations once. *)
Lemma sound_finalized (lines : list string) (w : VCDWriter) :
  _registering w = true ->
  nesting 0 lines = Some 0 -> enddefinitions lines = 1%nat ->
  sound w0 w -> sound w0 (finalized lines w).
Proof.
  intros Hr Hn He Hsound. sound_inv Hsound.
  assert (Hout : _ofile w = []) by auto.
  assert (Hprev : _prev_timestamp w = 0) by auto.
  constructor; simpl; auto; try discriminate; try (now constructor).
  - destruct Hs_out as [ls ->]. exists (ls +++ lines).
    now rewrite List.app_assoc.
  - now rewrite Hout.
  - intros _. rewrite Hout. auto.
  - intros H. apply Hs_registering in H. congruence.
Qed.

End SoundSetters.

(** *** The [$var] lines of the header *)

Lemma var_lines_none (lines : list string) :
  Forall (fun l => String.prefix "$var " l = false) lines ->
  var_lines lines = [].
Proof.
  induction 1 as [|l lines Hl _ IH]; [reflexivity|].
  unfold var_lines. simpl. rewrite Hl. exact IH.
Qed.

Lemma var_lines_all (lines : list string) :
  Forall var_line lines -> var_lines lines = lines.
Proof.
  induction 1 as [|l lines Hl _ IH]; [reflexivity|].
  unfold var_lines. simpl. rewrite Hl. f_equal. exact IH.
Qed.

Lemma var_lines_In (line : string) (lines : list string) :
  In line (var_lines lines) -> In line lines.
Proof. intros H. now apply filter_In in H. Qed.

Lemma pop_get {V} (d : list (scope_tuple * V)) k v r :
  Py.pop Py.tuple_eqb d k = Some (v, r) -> Py.get Py.tuple_eqb d k = Some v.
Proof.
  revert r. induction d as [|[k0 v0] d IH]; intros r; simpl; [discriminate|].
  destruct (Py.tuple_eqb k k0); [intros E; now injection E as <- _|].
  destruct (Py.pop Py.tuple_eqb d k) as [[v1 r1]|]; [|discriminate].
  intros E. injection E as <- _. now apply (IH r1).
Qed.

Lemma pop_get_other {V} (d : list (scope_tuple * V)) k v r k' :
  Py.pop Py.tuple_eqb d k = Some (v, r) -> k' <> k ->
  Py.get Py.tuple_eqb r k' = Py.get Py.tuple_eqb d k'.
Proof.
  intros H Hne. revert r H.
  induction d as [|[k0 v0] d IH]; intros r; simpl; [discriminate|].
  destruct (Py.tuple_eqb k k0) eqn:E.
  - apply tuple_eqb_eq in E. subst k0. intros H. injection H as _ <-.
    now rewrite (tuple_eqb_neq _ _ Hne).
  - destruct (Py.pop Py.tuple_eqb d k) as [[v1 r1]|]; [|discriminate].
    intros H. injection H as -> <-. simpl.
    destruct (Py.tuple_eqb k' k0); [reflexivity|]. now apply IH.
Qed.

Lemma flat_map_ext_In {A B} (f g : A -> list B) (l : list A) :
  (forall a, In a l -> f a = g a) -> flat_map f l = flat_map g l.
Proof.
  induction l as [|a l IH]; intros H; simpl; [reflexivity|].
  rewrite (H a) by now left. f_equal. apply IH. intros b Hb. apply H.
  now right.
Qed.

(** The [$var] lines the loop yields are the staged lines of the scopes
    it visits, scope after scope. *)
Lemma scope_loop_vars types default (scopes : list scope_tuple) :
  forall prev strs lines strs',
    NoDup scopes ->
    Forall (fun kv => Forall var_line (snd kv)) strs ->
    scope_loop types default scopes prev strs = (inr lines, strs') ->
    var_lines lines
    = flat_map (fun scope =>
                  match Py.get Py.tuple_eqb strs scope with
                  | Some var_strs => var_strs
                  | None => []
                  end) scopes.
Proof.
  assert (Hup : forall A (l : list A),
             var_lines (map (fun _ => "$upscope $end") l) = []).
  { intros A l. apply var_lines_none. apply Forall_map.
    apply Forall_forall. intros; reflexivity. }
  induction scopes as [|scope rest IH]; intros prev strs lines strs' Hnd Hs;
    simpl.
  - intros E. injection E as <- <-. now rewrite var_lines_app, Hup.
  - destruct (Py.pop Py.tuple_eqb strs scope) as [[var_strs r]|] eqn:Epop;
      [|discriminate].
    destruct (Forall_pop _ _ _ _ _ _ Hs Epop) as [[k' Hv] Hr]. simpl in Hv.
    rewrite (pop_get _ _ _ _ Epop).
    inversion Hnd as [|? ? Hnotin Hnd']; subst.
    assert (Hgo : forall switch,
      var_lines switch = [] ->
      match scope_loop types default rest (Some scope) r with
      | (inr l, s) => (inr (switch +++ var_strs +++ l), s)
      | (inl e, s) => (inl e, s)
      end = (inr lines, strs') ->
      var_lines lines
      = var_strs
        +++ flat_map (fun scope0 =>
                        match Py.get Py.tuple_eqb strs scope0 with
                        | Some var_strs0 => var_strs0
                        | None => []
                        end) rest).
    { intros switch Hsw.
      destruct (scope_loop types default rest (Some scope) r)
        as [[e|l] s] eqn:El; [discriminate|].
      intros E. injection E as <- <-.
      rewrite !var_lines_app, Hsw, (var_lines_all _ Hv).
      rewrite (IH (Some scope) r l s Hnd' Hr El). simpl. f_equal.
      apply flat_map_ext_In. intros a Ha.
      rewrite (pop_get_other _ _ _ _ a Epop); [reflexivity|].
      intros ->. contradiction. }
    destruct (first_diff 0 _ scope) as [i|] eqn:Ed.
    + apply Hgo. unfold scope_switch_lines.
      rewrite var_lines_app, Hup.
      apply var_lines_none. apply Forall_map. apply Forall_forall.
      intros [j name] _. reflexivity.
    + destruct prev as [p|]; [discriminate|].
      exact (Hgo [] eq_refl).
Qed.

(** No header keyword line is a [$var] line. *)
Lemma keyword_lines_no_var (kw : string * string) :
  In (fst kw) HEADER_KEYWORDS -> var_lines (keyword_lines kw) = [].
Proof.
  destruct kw as [kwname kwvalue]. simpl fst. intros Hk.
  apply var_lines_none. unfold keyword_lines.
  destruct (String.eqb kwvalue ""); [constructor|].
  simpl Py.split. cbv iota.
  generalize (Py.split_aux (String "010" EmptyString) 0 [] kwvalue).
  intros ls.
  assert (Htab : Forall (fun l => String.prefix "$var " l = false)
                   (map (fun line => String "009" line) ls)).
  { apply Forall_map. apply Forall_forall. intros; reflexivity. }
  destruct Hk as [<-|[<-|[<-|[<-|[]]]]];
    (destruct ls as [|l [|l' ls]];
     [repeat constructor
     |repeat constructor
     |constructor; [reflexivity|];
      apply Forall_app; split; [exact Htab|repeat constructor]]).
Qed.

Lemma sorted_nodup {A} (cmp : A -> A -> comparison) (l : list A) :
  NoDup l -> NoDup (Py.sorted cmp l).
Proof.
  intros H. eapply Permutation_NoDup; [|exact H].
  symmetry. apply sorted_perm.
Qed.

(** A staged line is among the lines the header will list. *)
Lemma staged_in_staged_lines (line : string) (w : VCDWriter) :
  staged line w -> In line (staged_lines w).
Proof.
  intros (scope & var_strs & Hg & Hin). unfold staged_lines.
  apply in_flat_map. exists scope. split; [|now rewrite Hg].
  eapply Permutation_in; [symmetry; apply sorted_perm|].
  clear Hin. induction (_scope_var_strs w) as [|[k0 v0] d IH]; simpl in *;
    [discriminate|].
  destruct (Py.tuple_eqb scope k0) eqn:E.
  - apply tuple_eqb_eq in E. now left.
  - right. now apply IH.
Qed.

(** *** The blocks *)

Lemma dump_values_effect (keyword : string) (w : VCDWriter) :
  _dump_values keyword w
  = (inr tt,
     with_ofile
       (fun out =>
          out +++ [keyword]
              +++ match Py.values (_ident_values w) with
                  | [] => [""]
                  | l => l
                  end
              +++ ["$end"]) w).
Proof.
  unfold _dump_values, bind, print, print_star, gets, modify. simpl.
  f_equal. unfold with_ofile. simpl. f_equal.
  rewrite <- !List.app_assoc. simpl.
  now destruct (Py.values (_ident_values w)).
Qed.

Lemma dump_values_ordinary (keyword : string) (w : VCDWriter) :
  ordinary keyword ->
  Forall (fun kv => value_line (snd kv)) (_ident_values w) ->
  Forall ordinary
    ([keyword]
     +++ match Py.values (_ident_values w) with [] => [""] | l => l end
     +++ ["$end"]).
Proof.
  intros Hk Hv.
  assert (Hend : ordinary "$end") by (split; [reflexivity|split; [discriminate|reflexivity]]).
  assert (Hempty : ordinary "") by (split; [reflexivity|split; [discriminate|reflexivity]]).
  constructor; [exact Hk|]. apply Forall_app. split; [|now constructor].
  assert (Hp : Forall ordinary (Py.values (_ident_values w))).
  { unfold Py.values. apply Forall_map.
    eapply Forall_impl; [|exact Hv]. intros kv. apply value_line_ordinary. }
  destruct (Py.values (_ident_values w)); [now constructor|exact Hp].
Qed.

(** With no empty string in the cache the loop of [_dump_off] raises
    nothing. *)
Lemma dump_off_loop_effect (items : list (string * string)) :
  Forall (fun kv => value_line (snd kv)) items ->
  forall w,
  exists lines,
    Forall ordinary lines
    /\ _dump_off_loop items w
       = (inr tt, with_ofile (fun out => out +++ lines) w).
Proof.
  induction 1 as [|[id val_str] items Hv _ IH]; intros w;
    cbn [_dump_off_loop].
  - exists []. split; [constructor|]. now rewrite with_ofile_nil.
  - destruct Hv as (c & rest & Hval & _). simpl in Hval. subst val_str.
    unfold bind.
    destruct (Ascii.eqb c "b"); [|destruct (Ascii.eqb c "r")];
      unfold print, modify, ret; cbv beta iota.
    + destruct (IH (with_ofile (fun out => out +++ ["bx " ++ id]) w))
        as (lines & Hl & ->).
      exists (["bx " ++ id] +++ lines). split.
      * constructor; [|exact Hl]. apply ordinary_first. discriminate.
      * now rewrite with_ofile_app.
    + destruct (IH w) as (lines & Hl & ->). now exists lines.
    + destruct (IH (with_ofile (fun out => out +++ ["x" ++ id]) w))
        as (lines & Hl & ->).
      exists (["x" ++ id] +++ lines). split.
      * constructor; [|exact Hl]. apply ordinary_first. discriminate.
      * now rewrite with_ofile_app.
Qed.

Lemma dump_off_effect (t : Z) (w : VCDWriter) :
  Forall (fun kv => value_line (snd kv)) (_ident_values w) ->
  exists lines,
    Forall ordinary lines
    /\ _dump_off t w = (inr tt, with_ofile (fun out => out +++ lines) w).
Proof.
  intros Hv. unfold _dump_off, bind, print, gets, modify. simpl.
  set (w1 := with_ofile _ (with_ofile _ w)).
  destruct (dump_off_loop_effect (_ident_values w) Hv w1) as (lines & Hl & ->).
  exists (["#" ++ Py.str t; "$dumpoff"] +++ lines +++ ["$end"]). split.
  - constructor; [apply marker_ordinary|].
    constructor; [split; [reflexivity|split; [discriminate|reflexivity]]|].
    apply Forall_app. split; [exact Hl|].
    constructor; [split; [reflexivity|split; [discriminate|reflexivity]]|constructor].
  - unfold w1. rewrite !with_ofile_app. reflexivity.
Qed.

(** *** Leaving registration *)

Lemma scope_loop_enddefinitions types default (scopes : list scope_tuple) :
  forall prev strs lines strs',
    Forall (fun kv => Forall var_line (snd kv)) strs ->
    scope_loop types default scopes prev strs = (inr lines, strs') ->
    enddefinitions lines = 1%nat.
Proof.
  assert (Hup : forall A (l : list A),
             enddefinitions (map (fun _ => "$upscope $end") l) = 0%nat).
  { intros A l. apply enddefinitions_none. apply Forall_map.
    apply Forall_forall. intros; discriminate. }
  induction scopes as [|scope rest IH]; intros prev strs lines strs' Hs; simpl.
  - intros E. injection E as <- <-.
    now rewrite enddefinitions_app, Hup.
  - destruct (Py.pop Py.tuple_eqb strs scope) as [[var_strs r]|] eqn:Epop;
      [|discriminate].
    destruct (Forall_pop _ _ _ _ _ _ Hs Epop) as [[k' Hv] Hr]. simpl in Hv.
    assert (Hvar : enddefinitions var_strs = 0%nat).
    { apply enddefinitions_none. eapply Forall_impl; [|exact Hv].
      intros l Hl E. subst l. discriminate. }
    assert (Hgo : forall switch,
      enddefinitions switch = 0%nat ->
      match scope_loop types default rest (Some scope) r with
      | (inr l, s) => (inr (switch +++ var_strs +++ l), s)
      | (inl e, s) => (inl e, s)
      end = (inr lines, strs') ->
      enddefinitions lines = 1%nat).
    { intros switch Hsw.
      destruct (scope_loop types default rest (Some scope) r)
        as [[e|l] s] eqn:El; [discriminate|].
      intros E. injection E as <- <-.
      rewrite !enddefinitions_app, Hsw, Hvar.
      exact (IH (Some scope) r l s Hr El). }
    destruct (first_diff 0 _ scope) as [i|] eqn:Ed.
    + apply Hgo. unfold scope_switch_lines.
      rewrite enddefinitions_app, Hup.
      apply enddefinitions_none. apply Forall_map. apply Forall_forall.
      intros [j name] _. discriminate.
    + destruct prev as [p|]; [discriminate|].
      exact (Hgo [] eq_refl).
Qed.

Section Finalize.

Variable w0 : VCDWriter.

(** In a sound state [_gen_header] succeeds, empties the registry, and
    its lines are nested and end the declarations once. *)
Lemma gen_header_sound (w : VCDWriter) :
  sound w0 w ->
  exists lines,
    _gen_header w = (inr lines, with_scope_var_strs [] w)
    /\ nesting 0 lines = Some 0
    /\ enddefinitions lines = 1%nat
    /\ var_lines lines = staged_lines w.
Proof.
  intros Hs.
  destruct (gen_header_total w (s_strs_keys _ _ Hs)) as (lines & Eg & El).
  exists lines. split; [exact Eg|].
  assert (Hkw : Forall (fun l => scope_delta l = 0)
                  (flat_map keyword_lines
                     (Py.sorted Py.cmp_item (_header_keywords w)))).
  { apply Forall_flat_map. apply Forall_sorted.
    eapply Forall_impl; [|exact (s_kws _ _ Hs)].
    intros kw. apply keyword_lines_neutral. }
  assert (Hkw' : enddefinitions
                   (flat_map keyword_lines
                      (Py.sorted Py.cmp_item (_header_keywords w))) = 0%nat).
  { apply enddefinitions_none. apply Forall_flat_map. apply Forall_sorted.
    eapply Forall_impl; [|exact (s_kws _ _ Hs)].
    intros [kwname kwvalue] Hk. simpl in Hk.
    unfold keyword_lines.
    destruct (String.eqb kwvalue ""); [constructor|].
    simpl Py.split. cbv iota.
    generalize (Py.split_aux (String "010" EmptyString) 0 [] kwvalue).
    intros ls.
    assert (Htab : Forall (fun l => l <> "$enddefinitions $end")
                     (map (fun line => String "009" line) ls)).
    { apply Forall_map. apply Forall_forall. intros; discriminate. }
    destruct Hk as [<-|[<-|[<-|[<-|[]]]]];
      (destruct ls as [|l [|l' ls]];
       [repeat constructor; discriminate
       |repeat constructor; discriminate
       |constructor; [discriminate|];
        apply Forall_app; split;
        [exact Htab|repeat constructor; discriminate]]). }
  unfold _gen_header, bind, gets, modify, lift, ret in Eg. simpl in Eg.
  destruct (scope_loop _ _ _ None (_scope_var_strs w)) as [[e|l] strs'] eqn:Esl;
    simpl in Eg; [discriminate|].
  simpl in El. subst lines. split.
  - rewrite nesting_app, (nesting_neutral _ 0 (Z.le_refl 0) Hkw).
    exact (scope_loop_nesting _ _ _ None _ _ _ (s_strs_var _ _ Hs) Esl).
  - split.
    + rewrite enddefinitions_app, Hkw'.
      exact (scope_loop_enddefinitions _ _ _ None _ _ _ (s_strs_var _ _ Hs)
               Esl).
    + rewrite var_lines_app.
      replace (var_lines (flat_map keyword_lines
                            (Py.sorted Py.cmp_item (_header_keywords w))))
        with (@nil string).
      * exact (scope_loop_vars _ _ _ None _ _ _
                 (sorted_nodup _ _ (s_strs_keys _ _ Hs))
                 (s_strs_var _ _ Hs) Esl).
      * symmetry. apply var_lines_none.
        apply Forall_flat_map. apply Forall_sorted.
        eapply Forall_impl; [|exact (s_kws _ _ Hs)].
        intros kw Hk. apply keyword_lines_no_var in Hk.
        apply Forall_forall. intros ln Hl.
        destruct (String.prefix "$var " ln) eqn:El; [|reflexivity].
        assert (Hin : In ln (var_lines (keyword_lines kw))).
        { apply filter_In. now split. }
        rewrite Hk in Hin. destruct Hin.
Qed.

(** In a sound state still registering, [_finalize_registration] raises
    nothing and leaves a sound state that has left registration. *)
Lemma finalize_sound (w : VCDWriter) :
  sound w0 w -> _registering w = true ->
  exists lines,
    _finalize_registration w = (inr tt, finalized lines w)
    /\ sound w0 (finalized lines w)
    /\ var_lines lines = staged_lines w.
Proof.
  intros Hs Hr.
  destruct (gen_header_sound w Hs) as (header & Eg & Hn & He & Hvars).
  assert (Hdone : forall tail,
             Forall ordinary tail ->
             sound w0 (finalized ((match header with [] => [""] | _ => header end)
                                  +++ tail) w)
             /\ var_lines ((match header with [] => [""] | _ => header end)
                           +++ tail) = staged_lines w).
  { intros tail Ht. split.
    - apply sound_finalized; [exact Hr| | |exact Hs].
      + destruct header as [|h header]; [discriminate|].
        rewrite nesting_app, Hn. now apply ordinary_nesting.
      + destruct header as [|h header]; [discriminate|].
        rewrite enddefinitions_app, He, (ordinary_enddefinitions _ Ht). lia.
    - destruct header as [|h header]; [discriminate|].
      rewrite var_lines_app, (ordinary_var_lines _ Ht), List.app_nil_r.
      exact Hvars. }
  unfold _finalize_registration, bind, gets, when, raise, modify, ret.
  cbv beta iota. rewrite Hr. cbn [negb]. cbv iota beta. rewrite Eg.
  unfold print_star, modify. cbv iota beta.
  set (w1 := with_ofile _ (with_scope_var_strs [] w)).
  change (_ident_values w1) with (_ident_values w).
  destruct (nonempty (_ident_values w)) eqn:Hne.
  - rewrite dump_values_effect.
    set (w2 := with_ofile _ w1).
    change (_dumping w2) with (_dumping w).
    assert (Hkw : ordinary "$dumpvars") by (split; [reflexivity|split; [discriminate|reflexivity]]).
    pose proof (dump_values_ordinary "$dumpvars" w Hkw (s_cache_vals _ _ Hs))
      as Hdv.
    match type of Hdv with
    | Forall ordinary ?l => set (dv := l) in *
    end.
    destruct (_dumping w); cbn [negb]; cbv iota beta.
    + exists (match header with [] => [""] | _ => header end +++ dv).
      split; [|apply (Hdone _ Hdv)].
      unfold w2, w1, finalized. rewrite with_ofile_app. reflexivity.
    + destruct (dump_off_effect 0 w2 (s_cache_vals _ _ Hs))
        as (off & Hoff & ->).
      exists (match header with [] => [""] | _ => header end +++ dv +++ off).
      split.
      * unfold w2, w1, finalized. rewrite !with_ofile_app. reflexivity.
      * apply Hdone. apply Forall_app. split; [exact Hdv|exact Hoff].
  - exists (match header with [] => [""] | _ => header end +++ []).
    split; [|apply (Hdone []); constructor].
    unfold w1, finalized. now rewrite List.app_nil_r.
Qed.

End Finalize.

(** *** Every method keeps a sound state sound *)

Lemma get_scope_tuple_cases (scope : pyscope) (w : VCDWriter) :
  (exists tuple, _get_scope_tuple scope w = (inr tuple, w))
  \/ _get_scope_tuple scope w = (inl ValueError, w)
  \/ _get_scope_tuple scope w = (inl TypeError, w).
Proof.
  unfold _get_scope_tuple, bind, gets, ret, raise.
  destruct scope as [s|l|]; [|eauto|auto].
  destruct (Py.split s (_scope_sep w)); eauto.
Qed.

(** [change] at time 0, spelled out. *)
Lemma change_at_zero format_16g var value w :
  change format_16g var 0 value w
  = if (0 <? _prev_timestamp w) || _closed w then (inl VCDPhaseError, w)
    else match format_value format_16g var value with
         | inl e => (inl e, w)
         | inr line =>
             (inr tt,
              with_ident_values
                (Py.set String.eqb (_ident_values w) (ident var) line) w)
         end.
Proof.
  unfold change, bind, gets, lift, raise, when, ret, modify.
  destruct (0 <? _prev_timestamp w); [reflexivity|].
  destruct (_closed w); [reflexivity|]. simpl orb. cbv iota.
  destruct (format_value format_16g var value); reflexivity.
Qed.

Section CallsSound.

Variable format_16g : pyvalue -> string.
Variable w0 : VCDWriter.

(** [change] either keeps the state sound, or raises and leaves the
    state as it was: [VCDPhaseError] for a timestamp before the cursor or
    a closed writer, else the error of the encoder. *)
Lemma change_sound var ts value w :
  sound w0 w ->
  wpx (change format_16g var ts value)
      (fun _ w' =>
         sound w0 w'
         /\ _prev_timestamp w <= ts /\ _closed w = false
         /\ exists line, format_value format_16g var value = inr line)
      (fun e w' =>
         w' = w
         /\ (e = VCDPhaseError
             /\ (ts < _prev_timestamp w \/ _closed w = true)
             \/ _prev_timestamp w <= ts /\ _closed w = false
                /\ format_value format_16g var value = inl e))
      w.
Proof.
  intros Hs. unfold change.
  rewrite wpx_bind, wpx_gets, wpx_bind, wpx_gets.
  destruct (Z.ltb_spec ts (_prev_timestamp w)) as [Hlt|Hge];
    [rewrite wpx_raise; auto|].
  destruct (_closed w) eqn:Hc; [rewrite wpx_raise; auto|].
  rewrite wpx_bind, wpx_lift.
  destruct (format_value format_16g var value) as [e|val_str] eqn:Ef;
    [auto|].
  pose proof (format_value_value_line _ _ _ _ Ef) as Hvl.
  assert (Hrest : forall w1,
    sound w0 w1 -> (ts <> 0 -> _registering w1 = false) ->
    _prev_timestamp w1 <= ts ->
    wpx (dumping <- gets _dumping ;;
         if negb (ts =? 0) && dumping then
           prev <- gets _prev_timestamp ;;
           when (prev <? ts)
             (print ("#" ++ Py.str ts) ;;
              modify (with_prev_timestamp ts)) ;;
           print val_str
         else
           values <- gets _ident_values ;;
           modify (with_ident_values
                     (Py.set String.eqb values (ident var) val_str)))
        (fun _ w' => sound w0 w') (fun _ _ => False) w1).
  { intros w1 Hs1 Hreg Hp1. rewrite wpx_bind, wpx_gets.
    destruct (Z.eqb_spec ts 0) as [Hz|Hnz]; cbn [negb andb].
    - wpx_step. now apply sound_cache_set.
    - destruct (_dumping w1).
      + rewrite wpx_bind, wpx_gets, wpx_bind, wpx_when.
        destruct (Z.ltb_spec (_prev_timestamp w1) ts).
        * wpx_step.
          apply sound_append;
            [constructor; [now apply value_line_ordinary|constructor]
            |now apply Hreg|].
          apply sound_prev; [now apply Hreg|simpl; lia|].
          apply sound_append;
            [constructor; [apply marker_ordinary|constructor]
            |now apply Hreg|exact Hs1].
        * wpx_step.
          apply sound_append;
            [constructor; [now apply value_line_ordinary|constructor]
            |now apply Hreg|exact Hs1].
      + wpx_step. now apply sound_cache_set. }
  assert (Hgoal : forall w1,
    sound w0 w1 -> (ts <> 0 -> _registering w1 = false) ->
    _prev_timestamp w1 <= ts ->
    wpx (dumping <- gets _dumping ;;
         if negb (ts =? 0) && dumping then
           prev <- gets _prev_timestamp ;;
           when (prev <? ts)
             (print ("#" ++ Py.str ts) ;;
              modify (with_prev_timestamp ts)) ;;
           print val_str
         else
           values <- gets _ident_values ;;
           modify (with_ident_values
                     (Py.set String.eqb values (ident var) val_str)))
        (fun _ w' =>
           sound w0 w'
           /\ _prev_timestamp w <= ts /\ false = false
           /\ exists line, @inr exn string val_str = inr line)
        (fun e w' =>
           w' = w
           /\ (e = VCDPhaseError /\ (ts < _prev_timestamp w \/ false = true)
               \/ _prev_timestamp w <= ts /\ false = false
                  /\ @inr exn string val_str = inl e))
        w1).
  { intros w1 H1 H2 H3.
    eapply wpx_mono; [exact (Hrest w1 H1 H2 H3)| |contradiction].
    intros x w' Hw'. split; [exact Hw'|]. split; [exact Hge|].
    split; [reflexivity|]. now exists val_str. }
  rewrite wpx_bind, wpx_gets, wpx_bind, wpx_when.
  destruct (Z.eqb_spec ts 0) as [Hz|Hnz]; cbn [negb andb].
  - apply Hgoal; [exact Hs|contradiction|exact Hge].
  - destruct (_registering w) eqn:Hr.
    + destruct (finalize_sound w0 w Hs Hr) as (lines & Efin & Hfin & _).
      unfold wpx at 1. rewrite Efin.
      apply Hgoal; [exact Hfin|reflexivity|exact Hge].
    + apply Hgoal; [exact Hs|auto|exact Hge].
Qed.

Lemma set_scope_type_sound scope scope_type w :
  sound w0 w ->
  wpx (set_scope_type scope scope_type)
      (fun _ w' => sound w0 w')
      (fun e w' => w' = w /\ (e = ValueError \/ e = TypeError)) w.
Proof.
  intros Hs. unfold set_scope_type.
  assert (Hrest :
    wpx (scope_tuple <- _get_scope_tuple scope ;;
         types <- gets _scope_types ;;
         modify (with_scope_types
                   (Py.set Py.tuple_eqb types scope_tuple scope_type)))
        (fun _ w' => sound w0 w')
        (fun e w' => w' = w /\ (e = ValueError \/ e = TypeError)) w).
  { rewrite wpx_bind. unfold wpx at 1.
    destruct (get_scope_tuple_cases scope w) as [[tuple ->]|[-> | ->]];
      [|auto|auto].
    wpx_step. now apply sound_types. }
  rewrite wpx_bind.
  destruct scope_type as [tag|]; [|rewrite wpx_ret; exact Hrest].
  rewrite wpx_when.
  destruct (negb (Py.in_list tag SCOPE_TYPES)); [|exact Hrest].
  rewrite wpx_raise. auto.
Qed.

Lemma var_str_var_line (var_type : string) (rest : string) :
  var_line ("$var " ++ var_type ++ rest).
Proof. unfold var_line. apply prefix_append. Qed.

Lemma register_var_sound scope name var_type size init ident w :
  sound w0 w ->
  wpx (register_var format_16g scope name var_type size init ident)
      (fun _ w' => sound w0 w' /\ _next_var_id w' = _next_var_id w + 1)
      (fun e w' =>
         sound w0 w' /\ _next_var_id w' = _next_var_id w
         /\ (e = VCDPhaseError \/ e = ValueError \/ e = TypeError
             \/ e = KeyError \/ e = OverflowError)) w.
Proof.
  intros Hs. unfold register_var.
  rewrite wpx_bind, wpx_gets, wpx_bind, wpx_gets.
  destruct (_closed w) eqn:Hc; [rewrite wpx_raise; auto|].
  destruct (_registering w) eqn:Hr; cbn [negb]; [|rewrite wpx_raise; auto].
  destruct (negb (Py.in_list var_type VAR_TYPES));
    [rewrite wpx_raise; auto 8|].
  rewrite wpx_bind. unfold wpx at 1.
  destruct (get_scope_tuple_cases scope w) as [[tuple ->]|[-> | ->]];
    [|auto 8|auto 8].
  rewrite wpx_bind, wpx_gets.
  destruct (setdefault (_scope_var_names w) tuple) as [scope_names names']
    eqn:Esd.
  rewrite wpx_bind, wpx_modify.
  set (w1 := with_scope_var_names names' w).
  assert (Hs1 : sound w0 w1) by now apply sound_names.
  destruct (Py.in_list name scope_names); [rewrite wpx_raise; auto 8|].
  rewrite wpx_bind, wpx_gets, wpx_bind.
  match goal with
  | |- wpx (change _ ?v _ ?i) _ _ _ => set (var := v); set (init' := i)
  end.
  assert (Hcls : cls var <> BaseVariable).
  { unfold var. destruct (size =? 1); [discriminate|].
    destruct (String.eqb var_type "real"); discriminate. }
  unfold wpx at 1. rewrite change_at_zero.
  change (_prev_timestamp w1) with (_prev_timestamp w).
  change (_closed w1) with (_closed w).
  rewrite (s_reg_cursor _ _ Hs Hr), Hc. simpl orb. cbv iota.
  destruct (format_value format_16g var init') as [e|line] eqn:Ef.
  - apply format_value_error in Ef; [|exact Hcls].
    destruct Ef as [-> |[-> | ->]]; auto 8.
  - pose proof (format_value_value_line _ _ _ _ Ef) as Hvl.
    set (w2 := with_ident_values _ w1).
    assert (Hs2 : sound w0 w2) by now apply sound_cache_set.
    wpx_step. split; [|reflexivity].
    apply sound_names; [exact Hr|].
    apply sound_strs; [exact Hr| | |].
    + apply append_at_nodup, setdefault_nodup. exact (s_strs_keys _ _ Hs).
    + apply Forall_append_at; [apply var_str_var_line|].
      apply Forall_setdefault. exact (s_strs_var _ _ Hs).
    + apply sound_next; [simpl; lia|exact Hs2].
Qed.

Lemma dump_off_sound t w :
  sound w0 w ->
  wpx (dump_off t) (fun _ w' => sound w0 w') (fun _ _ => False) w.
Proof.
  intros Hs. unfold dump_off.
  rewrite wpx_bind, wpx_gets, wpx_bind, wpx_gets, wpx_bind, wpx_gets.
  rewrite wpx_bind, wpx_when.
  destruct (_dumping w && negb (_registering w) && nonempty (_ident_values w))
    eqn:Hg.
  - apply andb_prop in Hg as [Hg _]. apply andb_prop in Hg as [_ Hr].
    apply negb_true_iff in Hr.
    destruct (dump_off_effect t w (s_cache_vals _ _ Hs)) as (lines & Hl & E).
    unfold wpx at 1. rewrite E. wpx_step.
    apply sound_dumping. now apply sound_append.
  - wpx_step. now apply sound_dumping.
Qed.

Lemma dump_on_sound t w :
  sound w0 w ->
  wpx (dump_on t) (fun _ w' => sound w0 w') (fun _ _ => False) w.
Proof.
  intros Hs. unfold dump_on.
  rewrite wpx_bind, wpx_gets, wpx_bind, wpx_gets, wpx_bind, wpx_gets.
  rewrite wpx_bind, wpx_when.
  destruct (negb (_dumping w) && negb (_registering w)
            && nonempty (_ident_values w)) eqn:Hg.
  - apply andb_prop in Hg as [Hg _]. apply andb_prop in Hg as [_ Hr].
    apply negb_true_iff in Hr.
    rewrite wpx_bind, wpx_print. unfold wpx at 1.
    rewrite dump_values_effect. wpx_step.
    assert (Hkw : ordinary "$dumpon") by (split; [reflexivity|split; [discriminate|reflexivity]]).
    apply sound_dumping. apply sound_append; [|exact Hr|].
    + exact (dump_values_ordinary "$dumpon" w Hkw (s_cache_vals _ _ Hs)).
    + apply sound_append;
        [constructor; [apply marker_ordinary|constructor]|exact Hr|exact Hs].
  - wpx_step. now apply sound_dumping.
Qed.

(** [flush] raises only on a closed writer. *)
Lemma flush_sound ts w :
  sound w0 w ->
  wpx (flush ts)
      (fun _ w' => sound w0 w' /\ _registering w' = false /\ _closed w = false)
      (fun e w' => w' = w /\ e = VCDPhaseError /\ _closed w = true) w.
Proof.
  intros Hs. unfold flush.
  rewrite wpx_bind, wpx_gets, wpx_bind, wpx_when.
  destruct (_closed w) eqn:Hc; [rewrite wpx_raise; auto|].
  rewrite wpx_bind, wpx_gets, wpx_bind, wpx_when.
  assert (Hrest : forall w1,
    sound w0 w1 -> _registering w1 = false ->
    wpx (prev <- gets _prev_timestamp ;;
         match ts with
         | Some t0 => when (prev <? t0) (print ("#" ++ Py.str t0))
         | None => ret tt
         end ;;
         modify (with_ofile_flushes S))
        (fun _ w' => sound w0 w' /\ _registering w' = false /\ false = false)
        (fun e w' => w' = w /\ e = VCDPhaseError /\ false = true) w1).
  { intros w1 Hs1 Hr1. rewrite wpx_bind, wpx_gets.
    destruct ts as [t|]; wpx_step.
    - destruct (_prev_timestamp w1 <? t); wpx_step;
        (split; [|split; [exact Hr1|reflexivity]]);
        apply sound_flushes; [|exact Hs1].
      apply sound_append;
        [constructor; [apply marker_ordinary|constructor]|exact Hr1|exact Hs1].
    - split; [|split; [exact Hr1|reflexivity]]. now apply sound_flushes. }
  destruct (_registering w) eqn:Hr.
  - destruct (finalize_sound w0 w Hs Hr) as (lines & Efin & Hfin & _).
    unfold wpx at 1. rewrite Efin. now apply Hrest.
  - now apply Hrest.
Qed.

(** [close] raises nothing and leaves the writer closed. *)
Lemma close_sound ts w :
  sound w0 w ->
  wpx (close ts) (fun _ w' => sound w0 w' /\ _closed w' = true)
      (fun _ _ => False) w.
Proof.
  intros Hs. unfold close. rewrite wpx_bind, wpx_gets, wpx_when.
  destruct (_closed w) eqn:Hc; cbn [negb]; [now split|].
  rewrite wpx_bind.
  eapply wpx_mono; [apply (flush_sound ts w Hs)| |].
  - intros [] w' (Hs' & Hr' & _). wpx_step.
    split; [now apply sound_closed|reflexivity].
  - intros e w' (_ & _ & H). congruence.
Qed.

(** Whatever the call and whether it raises, the state stays sound. *)
Lemma exec_sound (c : call) (w : VCDWriter) :
  sound w0 w -> sound w0 (exec format_16g c w).
Proof.
  intros Hs.
  assert (Hwp : forall A (m : M A) Q E,
             wpx m Q E w ->
             (forall x w', Q x w' -> sound w0 w') ->
             (forall e w', E e w' -> sound w0 w') ->
             sound w0 (snd (m w))).
  { intros A m Q E H HQ HE. unfold wpx in H.
    destruct (m w) as [[e|x] w']; simpl; eauto. }
  destruct c; simpl.
  - eapply Hwp; [now apply set_scope_type_sound|auto|].
    now intros e w' [-> _].
  - eapply Hwp; [now apply register_var_sound|intros ? ? H; apply H|intros ? ? H; apply H].
  - eapply Hwp; [now apply register_var_sound|intros ? ? H; apply H|intros ? ? H; apply H].
  - eapply Hwp; [now apply register_var_sound|intros ? ? H; apply H|intros ? ? H; apply H].
  - eapply Hwp; [now apply register_var_sound|intros ? ? H; apply H|intros ? ? H; apply H].
  - eapply Hwp; [now apply change_sound|intros ? ? H; apply H|]. now intros e w' [-> _].
  - eapply Hwp; [now apply dump_off_sound|auto|contradiction].
  - eapply Hwp; [now apply dump_on_sound|auto|contradiction].
  - eapply Hwp; [now apply flush_sound|intros ? ? H; apply H|]. now intros e w' [-> _].
  - eapply Hwp; [now apply close_sound|intros ? ? H; apply H|contradiction].
Qed.

Lemma run_sound (cs : list call) (w : VCDWriter) :
  sound w0 w -> sound w0 (run format_16g cs w).
Proof.
  revert w. induction cs as [|c cs IH]; intros w Hs; simpl; [exact Hs|].
  apply IH. now apply exec_sound.
Qed.

End CallsSound.

Lemma init_sound now timescale date comment version default_scope_type
      scope_sep w :
  VCDWriter_init now timescale date comment version default_scope_type
    scope_sep = inr w ->
  sound w w.
Proof.
  unfold VCDWriter_init.
  destruct (_check_timescale timescale); [discriminate|].
  destruct (negb _); [discriminate|].
  intros E; injection E as <-.
  constructor; simpl; auto; try lia; try discriminate; try (now constructor).
  - now exists [].
  - repeat constructor; simpl; tauto.
Qed.

(** Every reachable state is sound, and stays so under further calls. *)
Lemma reachable_sound format_16g (w : VCDWriter) (cs : list call) :
  reachable format_16g w -> sound w (run format_16g cs w).
Proof.
  intros (now & timescale & date & comment & version & dst & sep & w1 & cs1
          & Hinit & ->).
  apply run_sound. apply sound_rebase with (w0 := w1).
  apply run_sound. eapply init_sound. exact Hinit.
Qed.

(** ** Registration *)

Lemma get_scope_tuple_sep (scope : pyscope) (w w' : VCDWriter) tuple :
  _scope_sep w' = _scope_sep w ->
  _get_scope_tuple scope w = (inr tuple, w) ->
  _get_scope_tuple scope w' = (inr tuple, w').
Proof.
  intros Hsep. unfold _get_scope_tuple, bind, gets, ret, raise.
  destruct scope as [s|l|]; [|now intros E; injection E as <-|discriminate].
  rewrite Hsep. destruct (Py.split s (_scope_sep w)); [|discriminate].
  now intros E; injection E as <-.
Qed.

(** A registration that returns, spelled out: the checks it passed, the
    ident it chose and the state it leaves. *)
Lemma register_var_inr format_16g scope name var_type size init id_opt w var w1 :
  register_var format_16g scope name var_type size init id_opt w
  = (inr var, w1) ->
  exists tuple line,
    _get_scope_tuple scope w = (inr tuple, w)
    /\ _closed w = false /\ _registering w = true
    /\ Py.in_list var_type VAR_TYPES = true
    /\ Py.in_list name (fst (setdefault (_scope_var_names w) tuple)) = false
    /\ ident var
       = match id_opt with
         | Some i => i
         | None => "v" ++ Py.str (_next_var_id w)
         end
    /\ w1
       = with_scope_var_names
           (append_at (snd (setdefault (_scope_var_names w) tuple)) tuple name)
           (with_scope_var_strs
              (append_at (snd (setdefault (_scope_var_strs w) tuple)) tuple
                 ("$var " ++ var_type ++ " " ++ Py.str size ++ " "
                          ++ ident var ++ " " ++ name ++ " $end"))
              (with_next_var_id (_next_var_id w + 1)
                 (with_ident_values
                    (Py.set String.eqb (_ident_values w)
                       (ident var) line)
                    (with_scope_var_names
                       (snd (setdefault (_scope_var_names w) tuple)) w)))).
Proof.
  unfold register_var, bind, gets.
  destruct (_closed w) eqn:Hc; [discriminate|].
  destruct (_registering w) eqn:Hr; cbn [negb]; [|discriminate].
  destruct (Py.in_list var_type VAR_TYPES) eqn:Hvt; cbn [negb];
    [|discriminate].
  destruct (get_scope_tuple_cases scope w) as [[tuple Et]|[Et|Et]];
    rewrite Et; [|discriminate|discriminate].
  destruct (setdefault (_scope_var_names w) tuple) as [scope_names names']
    eqn:Esd.
  unfold modify at 1. cbv beta iota.
  destruct (Py.in_list name scope_names) eqn:Hn; [discriminate|].
  cbv beta iota.
  match goal with
  | |- context [change _ ?v 0 ?i ?s] =>
      set (var' := v); set (init' := i); set (w' := s)
  end.
  rewrite change_at_zero.
  destruct ((0 <? _prev_timestamp w') || _closed w'); [discriminate|].
  destruct (format_value format_16g var' init') as [e|line]; [discriminate|].
  unfold modify, ret. cbv beta iota.
  intros E. injection E as <- <-.
  exists tuple, line.
  assert (Hid : ident var'
                = match id_opt with
                  | Some i => i
                  | None => "v" ++ Py.str (_next_var_id w)
                  end).
  { unfold var'. destruct (size =? 1); [reflexivity|].
    destruct (String.eqb var_type "real"); reflexivity. }
  rewrite ?Esd. cbn [fst snd].
  repeat match goal with |- _ /\ _ => split end;
    try assumption; try exact Hid; try reflexivity.
  rewrite Hid. reflexivity.
Qed.

Lemma setdefault_get d k :
  Py.get Py.tuple_eqb (snd (setdefault d k)) k = Some (fst (setdefault d k)).
Proof.
  unfold setdefault.
  destruct (Py.get Py.tuple_eqb d k) as [v|] eqn:E; simpl; [exact E|].
  apply (get_set_eq _ tuple_eqb_eq).
Qed.

Lemma setdefault_get_other d k k' :
  k' <> k ->
  Py.get Py.tuple_eqb (snd (setdefault d k)) k' = Py.get Py.tuple_eqb d k'.
Proof.
  intros Hne. unfold setdefault.
  destruct (Py.get Py.tuple_eqb d k); simpl; [reflexivity|].
  now apply (get_set_other _ tuple_eqb_eq).
Qed.

Lemma append_at_get d k x v :
  Py.get Py.tuple_eqb d k = Some v ->
  Py.get Py.tuple_eqb (append_at d k x) k = Some (v +++ [x]).
Proof.
  intros E. unfold append_at. rewrite E. apply (get_set_eq _ tuple_eqb_eq).
Qed.

Lemma append_at_get_other d k x k' :
  k' <> k ->
  Py.get Py.tuple_eqb (append_at d k x) k' = Py.get Py.tuple_eqb d k'.
Proof.
  intros Hne. unfold append_at.
  destruct (Py.get Py.tuple_eqb d k); [|reflexivity].
  now apply (get_set_other _ tuple_eqb_eq).
Qed.

Lemma in_list_last (x : string) (l : list string) :
  Py.in_list x (l +++ [x]) = true.
Proof. apply in_list_In. apply in_or_app. right. now left. Qed.

(** X7.  After [register_var] has registered a name under a scope, a
    second registration of that name under the same scope raises
    [KeyError], whatever its other arguments, and changes nothing; the
    names recorded for every other scope path are as before the first
    registration. *)
Theorem register_var_duplicate_name format_16g scope name
        var_type size init id_opt w var w1 var_type' size' init' id_opt' :
  register_var format_16g scope name var_type size init id_opt w
  = (inr var, w1) ->
  Py.in_list var_type' VAR_TYPES = true ->
  register_var format_16g scope name var_type' size' init' id_opt' w1
  = (inl KeyError, w1)
  /\ forall tuple tuple',
       _get_scope_tuple scope w = (inr tuple, w) -> tuple' <> tuple ->
       Py.get Py.tuple_eqb (_scope_var_names w1) tuple'
       = Py.get Py.tuple_eqb (_scope_var_names w) tuple'.
Proof.
  intros Hreg Hvt'.
  destruct (register_var_inr _ _ _ _ _ _ _ _ _ _ Hreg)
    as (tuple & line & Et & Hc & Hr & Hvt & Hn & Hid & Hw1).
  assert (Hnames : _scope_var_names w1
                   = append_at (snd (setdefault (_scope_var_names w) tuple))
                       tuple name) by (rewrite Hw1; reflexivity).
  split.
  - assert (Et1 : _get_scope_tuple scope w1 = (inr tuple, w1)).
    { apply get_scope_tuple_sep with (w := w); [|exact Et].
      rewrite Hw1. reflexivity. }
    assert (Hc1 : _closed w1 = false) by (rewrite Hw1; exact Hc).
    assert (Hr1 : _registering w1 = true) by (rewrite Hw1; exact Hr).
    unfold register_var, bind, gets.
    rewrite Hc1, Hr1, Hvt'. cbn [negb]. rewrite Et1.
    assert (Hsd : setdefault (_scope_var_names w1) tuple
                  = (fst (setdefault (_scope_var_names w) tuple) +++ [name],
                     _scope_var_names w1)).
    { unfold setdefault at 1. rewrite Hnames.
      now rewrite (append_at_get _ _ _ _ (setdefault_get _ _)). }
    rewrite Hsd. unfold modify at 1. cbv beta iota.
    rewrite in_list_last. unfold raise. f_equal.
    now destruct w1.
  - intros t t' Et' Hne. rewrite Et in Et'. injection Et' as <-.
    rewrite Hnames, append_at_get_other, setdefault_get_other by exact Hne.
    reflexivity.
Qed.

Lemma register_var_duplicate_name_witness :
  let w1 := snd (register_var format_16g_sample (ScopeStr "top") "clk" "wire"
                   1 (PyInt 0) None new_writer) in
  register_var format_16g_sample (ScopeStr "top") "clk" "wire" 1 (PyInt 0)
    None new_writer
  = (inr (mkVar ScalarVariable "v0" "wire" 1), w1)
  /\ Py.in_list "reg" VAR_TYPES = true
  /\ register_var format_16g_sample (ScopeStr "top") "clk" "reg" 8 PyNone
       (Some "c") w1
     = (inl KeyError, w1)
  /\ forall tuple tuple',
       _get_scope_tuple (ScopeStr "top") new_writer = (inr tuple, new_writer) ->
       tuple' <> tuple ->
       Py.get Py.tuple_eqb (_scope_var_names w1) tuple'
       = Py.get Py.tuple_eqb (_scope_var_names new_writer) tuple'.
Proof.
  cbv zeta.
  match goal with
  | |- ?A /\ ?B /\ _ =>
      assert (HA : A) by reflexivity; assert (HB : B) by reflexivity
  end.
  split; [exact HA|]. split; [exact HB|].
  exact (register_var_duplicate_name format_16g_sample _ _ _ _ _ _ _ _ _
           "reg" 8 PyNone (Some "c") HA HB).
Defined.

(** ** What holds in every reachable state *)

Lemma run_app format_16g (cs1 cs2 : list call) (w : VCDWriter) :
  run format_16g (cs1 +++ cs2) w = run format_16g cs2 (run format_16g cs1 w).
Proof. apply fold_left_app. Qed.

Lemma reachable_run format_16g (w : VCDWriter) (cs : list call) :
  reachable format_16g w -> reachable format_16g (run format_16g cs w).
Proof.
  intros (now & timescale & date & comment & version & dst & sep & w1 & cs1
          & Hinit & ->).
  exists now, timescale, date, comment, version, dst, sep, w1, (cs1 +++ cs).
  split; [exact Hinit|]. symmetry. apply run_app.
Qed.

Lemma reachable_new_writer format_16g (cs : list call) :
  reachable format_16g (run format_16g cs new_writer).
Proof.
  exists "now", "1 us", (Some "today"), "", "", "module", ".", new_writer, cs.
  split; reflexivity.
Qed.

Lemma reachable_is_sound format_16g (w : VCDWriter) :
  reachable format_16g w -> sound w w.
Proof. intros H. exact (reachable_sound format_16g w [] H). Qed.

Lemma reachable_clean_reachable format_16g (w : VCDWriter) :
  reachable_clean format_16g w -> reachable format_16g w.
Proof.
  intros (now & timescale & date & comment & version & dst & sep & w0 & cs
          & Hinit & _ & ->).
  exists now, timescale, date, comment, version, dst, sep, w0, cs.
  now split.
Qed.

Lemma reachable_clean_run format_16g (w : VCDWriter) (cs : list call) :
  reachable_clean format_16g w -> forallb clean_call cs = true ->
  reachable_clean format_16g (run format_16g cs w).
Proof.
  intros (now & timescale & date & comment & version & dst & sep & w1 & cs1
          & Hinit & Hcs1 & ->) Hcs.
  exists now, timescale, date, comment, version, dst, sep, w1, (cs1 +++ cs).
  split; [exact Hinit|]. split.
  - now rewrite forallb_app, Hcs1, Hcs.
  - symmetry. apply run_app.
Qed.

Lemma reachable_clean_new_writer format_16g (cs : list call) :
  forallb clean_call cs = true ->
  reachable_clean format_16g (run format_16g cs new_writer).
Proof.
  intros Hcs.
  exists "now", "1 us", (Some "today"), "", "", "module", ".", new_writer, cs.
  split; [reflexivity|]. now split.
Qed.

(** With calls that bring no newline in, the strings handed to [print]
    are the lines of the file. *)
Lemma reachable_clean_is_clean format_16g (w : VCDWriter) :
  (forall v, one_line (format_16g v) = true) ->
  reachable_clean format_16g w -> clean w.
Proof.
  intros Hfmt (now & timescale & date & comment & version & dst & sep & w0
               & cs & Hinit & Hcs & ->).
  apply run_clean; [exact Hfmt|exact Hcs|]. eapply init_clean. exact Hinit.
Qed.

Lemma reachable_clean_lines format_16g (w : VCDWriter) :
  (forall v, one_line (format_16g v) = true) ->
  reachable_clean format_16g w -> file_lines (_ofile w) = _ofile w.
Proof.
  intros Hfmt Hw. apply file_lines_clean. apply c_out.
  exact (reachable_clean_is_clean format_16g w Hfmt Hw).
Qed.

(** X8.  The phase only moves forward: over any further calls a writer
    that has left registration does not return to it and a closed writer
    stays closed; and a closed writer is never still registering. *)
Theorem phase_only_moves_forward format_16g (w : VCDWriter) (cs : list call) :
  reachable format_16g w ->
  (_registering w = false -> _registering (run format_16g cs w) = false)
  /\ (_closed w = true -> _closed (run format_16g cs w) = true)
  /\ (_closed w = true -> _registering w = false).
Proof.
  intros Hw. pose proof (reachable_sound format_16g w cs Hw) as Hs.
  split; [exact (s_registering _ _ Hs)|]. split; [exact (s_closed _ _ Hs)|].
  exact (s_closed_live _ _ (reachable_is_sound _ _ Hw)).
Qed.

Lemma phase_only_moves_forward_witness :
  let w := run format_16g_sample
             [RegisterVar (ScopeStr "top") "clk" "wire" 1 (PyInt 0) None;
              Close None] new_writer in
  let cs := [RegisterVar (ScopeStr "top") "d" "wire" 1 (PyInt 0) None;
             DumpOff 4; Flush (Some 9)] in
  reachable format_16g_sample w
  /\ (_registering w = false
      -> _registering (run format_16g_sample cs w) = false)
  /\ (_closed w = true -> _closed (run format_16g_sample cs w) = true)
  /\ (_closed w = true -> _registering w = false).
Proof.
  cbv zeta.
  match goal with
  | |- ?A /\ _ => assert (HA : A) by apply reachable_new_writer
  end.
  split; [exact HA|].
  exact (phase_only_moves_forward format_16g_sample _ _ HA).
Defined.

(** X9.  Over any further calls the timestamp cursor and the ident
    counter never decrease. *)
Theorem cursor_and_counter_never_decrease format_16g (w : VCDWriter)
        (cs : list call) :
  reachable format_16g w ->
  _prev_timestamp w <= _prev_timestamp (run format_16g cs w)
  /\ _next_var_id w <= _next_var_id (run format_16g cs w).
Proof.
  intros Hw. pose proof (reachable_sound format_16g w cs Hw) as Hs.
  split; [exact (s_cursor _ _ Hs)|exact (s_next _ _ Hs)].
Qed.

Lemma cursor_and_counter_never_decrease_witness :
  let w := run format_16g_sample
             [RegisterVar (ScopeStr "top") "clk" "wire" 1 (PyInt 0) None;
              Change (mkVar ScalarVariable "v0" "wire" 1) 7 (PyInt 1)]
             new_writer in
  let cs := [Change (mkVar ScalarVariable "v0" "wire" 1) 3 (PyInt 0);
             Flush (Some 2);
             Change (mkVar ScalarVariable "v0" "wire" 1) 8 (PyInt 0)] in
  reachable format_16g_sample w
  /\ _prev_timestamp w <= _prev_timestamp (run format_16g_sample cs w)
  /\ _next_var_id w <= _next_var_id (run format_16g_sample cs w).
Proof.
  cbv zeta.
  match goal with
  | |- ?A /\ _ => assert (HA : A) by apply reachable_new_writer
  end.
  split; [exact HA|].
  exact (cursor_and_counter_never_decrease format_16g_sample _ _ HA).
Defined.

(** X10.  The output is append-only: whatever calls follow, and whether
    they raise or not, the lines written so far stay as a prefix of the
    output, and the number of [flush()] calls on the file never drops. *)
Theorem output_only_grows format_16g (w : VCDWriter) (cs : list call) :
  reachable format_16g w ->
  (exists lines, _ofile (run format_16g cs w) = _ofile w +++ lines)
  /\ (_ofile_flushes w <= _ofile_flushes (run format_16g cs w))%nat.
Proof.
  intros Hw. pose proof (reachable_sound format_16g w cs Hw) as Hs.
  split; [exact (s_out _ _ Hs)|exact (s_flushes _ _ Hs)].
Qed.

Lemma output_only_grows_witness :
  let w := run format_16g_sample
             [RegisterVar (ScopeStr "top") "clk" "wire" 1 (PyInt 0) None;
              Flush None] new_writer in
  let cs := [Change (mkVar ScalarVariable "v0" "wire" 1) 3 (PyStr "q");
             DumpOff 5; Close (Some 6)] in
  reachable format_16g_sample w
  /\ (exists lines,
        _ofile (run format_16g_sample cs w) = _ofile w +++ lines)
  /\ (_ofile_flushes w <= _ofile_flushes (run format_16g_sample cs w))%nat.
Proof.
  cbv zeta.
  match goal with
  | |- ?A /\ _ => assert (HA : A) by apply reachable_new_writer
  end.
  split; [exact HA|].
  exact (output_only_grows format_16g_sample _ _ HA).
Defined.

(** X11.  While registration is open nothing has been written and the
    cursor is at 0. *)
Theorem nothing_written_while_registering format_16g (w : VCDWriter) :
  reachable format_16g w -> _registering w = true ->
  _ofile w = [] /\ _prev_timestamp w = 0.
Proof.
  intros Hw Hr. pose proof (reachable_is_sound _ _ Hw) as Hs.
  split; [exact (s_reg_out _ _ Hs Hr)|exact (s_reg_cursor _ _ Hs Hr)].
Qed.

Lemma nothing_written_while_registering_witness :
  let w := run format_16g_sample
             [RegisterVar (ScopeStr "top") "clk" "wire" 1 (PyInt 0) None;
              DumpOff 4;
              Change (mkVar ScalarVariable "v0" "wire" 1) 0 (PyInt 1)]
             new_writer in
  reachable format_16g_sample w /\ _registering w = true
  /\ _ofile w = [] /\ _prev_timestamp w = 0.
Proof.
  cbv zeta.
  match goal with
  | |- ?A /\ ?B /\ _ =>
      assert (HA : A) by apply reachable_new_writer;
      assert (HB : B) by reflexivity
  end.
  split; [exact HA|]. split; [exact HB|].
  exact (nothing_written_while_registering format_16g_sample _ HA HB).
Defined.

(** X12.  Once registration is over the registry is given up, and it
    stays so: no staged [$var] line, no header keyword and no name index
    is left, whatever calls were made. *)
Theorem registry_released_after_header format_16g (w : VCDWriter) :
  reachable format_16g w -> _registering w = false ->
  _scope_var_strs w = [] /\ _header_keywords w = []
  /\ _scope_var_names w = [].
Proof.
  intros Hw Hr. pose proof (reachable_is_sound _ _ Hw) as Hs.
  destruct (s_live _ _ Hs Hr) as (H1 & H2 & H3 & _). auto.
Qed.

Lemma registry_released_after_header_witness :
  let w := run format_16g_sample
             [RegisterVar (ScopeStr "top") "clk" "wire" 1 (PyInt 0) None;
              Change (mkVar ScalarVariable "v0" "wire" 1) 3 (PyInt 1);
              RegisterVar (ScopeStr "top") "d" "wire" 1 (PyInt 0) None;
              Flush (Some 4); DumpOff 5; DumpOn 6] new_writer in
  reachable format_16g_sample w /\ _registering w = false
  /\ _scope_var_strs w = [] /\ _header_keywords w = []
  /\ _scope_var_names w = [].
Proof.
  cbv zeta.
  match goal with
  | |- ?A /\ ?B /\ _ =>
      assert (HA : A) by apply reachable_new_writer;
      assert (HB : B) by reflexivity
  end.
  split; [exact HA|]. split; [exact HB|].
  exact (registry_released_after_header format_16g_sample _ HA HB).
Defined.

(** X13.  When no call brings a newline in, the file is well formed as
    far as its header goes: reading it line by line, and counting
    [$scope] lines up and [$upscope $end] lines down, the depth never
    falls below 0 and ends at 0; and the line [$enddefinitions $end]
    stands in it once when registration is over, and not at all
    before. *)
Theorem output_scopes_nested format_16g (w : VCDWriter) :
  (forall v, one_line (format_16g v) = true) ->
  reachable_clean format_16g w ->
  nesting 0 (file_lines (_ofile w)) = Some 0
  /\ enddefinitions (file_lines (_ofile w))
     = if _registering w then 0%nat else 1%nat.
Proof.
  intros Hfmt Hw. rewrite (reachable_clean_lines format_16g w Hfmt Hw).
  pose proof (reachable_is_sound _ _ (reachable_clean_reachable _ _ Hw))
    as Hs.
  split; [exact (s_nested _ _ Hs)|].
  destruct (_registering w) eqn:Hr.
  - now rewrite (s_reg_out _ _ Hs Hr).
  - now destruct (s_live _ _ Hs Hr) as (_ & _ & _ & H).
Qed.

Lemma output_scopes_nested_witness :
  let w := run format_16g_sample
             [RegisterVar (ScopeStr "a.b.c") "p" "wire" 1 PyNone None;
              RegisterVar (ScopeStr "a.d") "q" "wire" 4 PyNone None;
              RegisterVar (ScopeStr "e") "r" "real" 64 PyNone None;
              Flush None;
              Change (mkVar VectorVariable "v1" "wire" 4) 3 (PyStr "1x0z")]
             new_writer in
  (forall v, one_line (format_16g_sample v) = true)
  /\ reachable_clean format_16g_sample w
  /\ nesting 0 (file_lines (_ofile w)) = Some 0
  /\ enddefinitions (file_lines (_ofile w))
     = if _registering w then 0%nat else 1%nat.
Proof.
  cbv zeta.
  match goal with
  | |- ?A /\ ?B /\ _ =>
      assert (HA : A) by exact format_16g_sample_clean;
      assert (HB : B) by (apply reachable_clean_new_writer; reflexivity)
  end.
  split; [exact HA|]. split; [exact HB|].
  exact (output_scopes_nested format_16g_sample _ HA HB).
Defined.

(** X14.  The last-value cache of a reachable writer holds each ident
    once, and every cached value is a line of an encoder: not empty, and
    starting neither with [$] nor with [#]. *)
Theorem cache_one_line_per_ident format_16g (w : VCDWriter) :
  reachable format_16g w ->
  NoDup (Py.keys (_ident_values w))
  /\ Forall (fun kv => value_line (snd kv)) (_ident_values w).
Proof.
  intros Hw. pose proof (reachable_is_sound _ _ Hw) as Hs.
  split; [exact (s_cache_keys _ _ Hs)|exact (s_cache_vals _ _ Hs)].
Qed.

Lemma cache_one_line_per_ident_witness :
  let w := run format_16g_sample
             [RegisterVar (ScopeStr "top") "clk" "wire" 1 (PyInt 0) None;
              RegisterVar (ScopeStr "top") "d" "wire" 8 (PyInt 3) (Some "v0");
              Change (mkVar ScalarVariable "v0" "wire" 1) 0 (PyInt 1)]
             new_writer in
  reachable format_16g_sample w
  /\ NoDup (Py.keys (_ident_values w))
  /\ Forall (fun kv => value_line (snd kv)) (_ident_values w).
Proof.
  cbv zeta.
  match goal with
  | |- ?A /\ _ => assert (HA : A) by apply reachable_new_writer
  end.
  split; [exact HA|].
  exact (cache_one_line_per_ident format_16g_sample _ HA).
Defined.

(** ** The methods on reachable states *)

Lemma str_inj (a b : Z) : Py.str a = Py.str b -> a = b.
Proof.
  intros E. pose proof (PyFacts.int_of_str a) as Ha.
  rewrite E, PyFacts.int_of_str in Ha. now injection Ha.
Qed.

Lemma with_dumping_same (w : VCDWriter) : with_dumping (_dumping w) w = w.
Proof. now destruct w. Qed.

Lemma dump_off_returns format_16g (t : Z) (w : VCDWriter) :
  reachable format_16g w ->
  exists w', dump_off t w = (inr tt, w') /\ _dumping w' = false.
Proof.
  intros Hw.
  pose proof (dump_off_sound w t w (reachable_is_sound _ _ Hw)) as H.
  unfold wpx in H. revert H. unfold dump_off, bind, gets.
  destruct (when _ _ w) as [[e|[]] w1]; [tauto|]. intros _.
  eexists. split; reflexivity.
Qed.

Lemma dump_on_returns format_16g (t : Z) (w : VCDWriter) :
  reachable format_16g w ->
  exists w', dump_on t w = (inr tt, w') /\ _dumping w' = true.
Proof.
  intros Hw.
  pose proof (dump_on_sound w t w (reachable_is_sound _ _ Hw)) as H.
  unfold wpx in H. revert H. unfold dump_on, bind, gets.
  destruct (when _ _ w) as [[e|[]] w1]; [tauto|]. intros _.
  eexists. split; reflexivity.
Qed.

(** X15.  [close] never raises on a reachable writer, and leaves it
    closed and out of the registration phase. *)
Theorem close_never_raises format_16g (ts : option Z) (w : VCDWriter) :
  reachable format_16g w ->
  exists w', close ts w = (inr tt, w')
             /\ _closed w' = true /\ _registering w' = false.
Proof.
  intros Hw.
  pose proof (close_sound w ts w (reachable_is_sound _ _ Hw)) as H.
  unfold wpx in H. destruct (close ts w) as [[e|[]] w']; [tauto|].
  destruct H as [Hs Hc]. exists w'. split; [reflexivity|].
  split; [exact Hc|exact (s_closed_live _ _ Hs Hc)].
Qed.

Lemma close_never_raises_witness :
  let w := run format_16g_sample
             [RegisterVar (ScopeStr "top") "clk" "wire" 1 (PyInt 0) None;
              DumpOff 0] new_writer in
  reachable format_16g_sample w
  /\ exists w', close (Some 5) w = (inr tt, w')
                /\ _closed w' = true /\ _registering w' = false.
Proof.
  cbv zeta.
  match goal with
  | |- ?A /\ _ => assert (HA : A) by apply reachable_new_writer
  end.
  split; [exact HA|].
  exact (close_never_raises format_16g_sample (Some 5) _ HA).
Defined.

(** X16.  [flush] on a reachable writer raises exactly when the writer
    is closed: then it is [VCDPhaseError] and nothing changes; otherwise
    it returns, and registration is over afterwards. *)
Theorem flush_raises_iff_closed format_16g (ts : option Z) (w : VCDWriter) :
  reachable format_16g w ->
  (_closed w = true -> flush ts w = (inl VCDPhaseError, w))
  /\ (_closed w = false ->
      exists w', flush ts w = (inr tt, w') /\ _registering w' = false).
Proof.
  intros Hw.
  pose proof (flush_sound w ts w (reachable_is_sound _ _ Hw)) as H.
  unfold wpx in H. destruct (flush ts w) as [[e|[]] w'].
  - destruct H as (-> & -> & Hc). split; [reflexivity|congruence].
  - destruct H as (_ & Hr & Hc). split; [congruence|].
    intros _. exists w'. split; [reflexivity|exact Hr].
Qed.

Lemma flush_raises_iff_closed_witness :
  let w := run format_16g_sample
             [RegisterVar (ScopeStr "top") "clk" "wire" 1 (PyInt 0) None]
             new_writer in
  reachable format_16g_sample w
  /\ (_closed w = true -> flush None w = (inl VCDPhaseError, w))
  /\ (_closed w = false ->
      exists w', flush None w = (inr tt, w') /\ _registering w' = false).
Proof.
  cbv zeta.
  match goal with
  | |- ?A /\ _ => assert (HA : A) by apply reachable_new_writer
  end.
  split; [exact HA|].
  exact (flush_raises_iff_closed format_16g_sample None _ HA).
Defined.

(** X17.  [change] on a reachable writer returns exactly when the
    timestamp is not before the cursor, the writer is not closed and the
    variable's encoder accepts the value; when it raises, the writer is
    as before the call. *)
Theorem change_succeeds_iff format_16g (var : VarHandle) (ts : Z)
        (value : pyvalue) (w : VCDWriter) :
  reachable format_16g w ->
  ((exists w', change format_16g var ts value w = (inr tt, w'))
   <-> (_prev_timestamp w <= ts /\ _closed w = false
        /\ exists line, format_value format_16g var value = inr line))
  /\ (forall e w', change format_16g var ts value w = (inl e, w') -> w' = w).
Proof.
  intros Hw.
  pose proof (change_sound format_16g w var ts value w
                (reachable_is_sound _ _ Hw)) as H.
  unfold wpx in H.
  destruct (change format_16g var ts value w) as [[e|[]] w'].
  - destruct H as (-> & H). split.
    + split.
      * intros (w' & E). discriminate.
      * intros (Hts & Hc & line & Hl). exfalso.
        destruct H as [(_ & [H|H])|(_ & _ & H)]; [lia|congruence|congruence].
    + intros e' w' E. now injection E as _ <-.
  - destruct H as (_ & H). split.
    + split; [intros _; exact H|]. intros _. now exists w'.
    + intros e w'' E. discriminate.
Qed.

Lemma change_succeeds_iff_witness :
  let w := run format_16g_sample
             [RegisterVar (ScopeStr "top") "d" "wire" 8 (PyInt 0) None;
              Change (mkVar VectorVariable "v0" "wire" 8) 5 (PyInt 9)]
             new_writer in
  let var := mkVar VectorVariable "v0" "wire" 8 in
  reachable format_16g_sample w
  /\ ((exists w', change format_16g_sample var 4 (PyInt 1) w = (inr tt, w'))
      <-> (_prev_timestamp w <= 4 /\ _closed w = false
           /\ exists line,
                format_value format_16g_sample var (PyInt 1) = inr line))
  /\ (forall e w',
        change format_16g_sample var 4 (PyInt 1) w = (inl e, w') -> w' = w).
Proof.
  cbv zeta.
  match goal with
  | |- ?A /\ _ => assert (HA : A) by apply reachable_new_writer
  end.
  split; [exact HA|].
  exact (change_succeeds_iff format_16g_sample _ 4 (PyInt 1) _ HA).
Defined.

(** X18.  [dump_off] and [dump_on] never raise on a reachable writer,
    and a second call in a row changes nothing: no line is written and
    the writer is as the first call left it. *)
Theorem dump_off_on_idempotent format_16g (t1 t2 : Z) (w : VCDWriter) :
  reachable format_16g w ->
  (exists w', dump_off t1 w = (inr tt, w') /\ dump_off t2 w' = (inr tt, w'))
  /\ (exists w', dump_on t1 w = (inr tt, w') /\ dump_on t2 w' = (inr tt, w')).
Proof.
  intros Hw. split.
  - destruct (dump_off_returns format_16g t1 w Hw) as (w' & E & Hd).
    exists w'. split; [exact E|].
    unfold dump_off, bind, gets, when, modify, ret. rewrite Hd.
    cbn [andb]. rewrite <- Hd at 1. now rewrite with_dumping_same.
  - destruct (dump_on_returns format_16g t1 w Hw) as (w' & E & Hd).
    exists w'. split; [exact E|].
    unfold dump_on, bind, gets, when, modify, ret. rewrite Hd.
    cbn [negb andb]. rewrite <- Hd at 1. now rewrite with_dumping_same.
Qed.

Lemma dump_off_on_idempotent_witness :
  let w := run format_16g_sample
             [RegisterVar (ScopeStr "top") "clk" "wire" 1 (PyInt 0) None;
              Flush None] new_writer in
  reachable format_16g_sample w
  /\ (exists w', dump_off 3 w = (inr tt, w') /\ dump_off 4 w' = (inr tt, w'))
  /\ (exists w', dump_on 3 w = (inr tt, w') /\ dump_on 4 w' = (inr tt, w')).
Proof.
  cbv zeta.
  match goal with
  | |- ?A /\ _ => assert (HA : A) by apply reachable_new_writer
  end.
  split; [exact HA|].
  exact (dump_off_on_idempotent format_16g_sample 3 4 _ HA).
Defined.

(** X19.  Idents the writer generates never repeat: two registrations
    without an [ident] argument that both succeed, with any calls between
    them, return handles with different idents. *)
Theorem auto_idents_never_repeat format_16g (w w1 w2 : VCDWriter)
        (cs : list call) scope1 name1 type1 size1 init1 var1
        scope2 name2 type2 size2 init2 var2 :
  reachable format_16g w ->
  register_var format_16g scope1 name1 type1 size1 init1 None w
  = (inr var1, w1) ->
  register_var format_16g scope2 name2 type2 size2 init2 None
    (run format_16g cs w1) = (inr var2, w2) ->
  ident var1 <> ident var2.
Proof.
  intros Hw E1 E2.
  assert (Hw1 : reachable format_16g w1).
  { replace w1
      with (run format_16g
              [RegisterVar scope1 name1 type1 size1 init1 None] w).
    - now apply reachable_run.
    - simpl. now rewrite E1. }
  pose proof (register_var_sound format_16g w scope1 name1 type1 size1 init1
                None w (reachable_is_sound _ _ Hw)) as Hn.
  unfold wpx in Hn. rewrite E1 in Hn. destruct Hn as [_ Hn].
  pose proof (s_next _ _ (reachable_sound format_16g w1 cs Hw1)) as Hle.
  apply register_var_inr in E1 as (? & ? & _ & _ & _ & _ & _ & Hid1 & _).
  apply register_var_inr in E2 as (? & ? & _ & _ & _ & _ & _ & Hid2 & _).
  rewrite Hid1, Hid2. intros E. injection E as E.
  apply str_inj in E. lia.
Qed.

Lemma auto_idents_never_repeat_witness :
  let w := run format_16g_sample
             [RegisterVar (ScopeStr "top") "a" "wire" 1 (PyInt 0) None]
             new_writer in
  let cs := [RegisterVar (ScopeStr "top") "b" "wire" 1 (PyInt 0) (Some "v9");
             SetScopeType (ScopeStr "top") (Some "task")] in
  let var1 := mkVar ScalarVariable "v1" "wire" 1 in
  let w1 := snd (register_var format_16g_sample (ScopeStr "top") "c" "wire" 1
                   (PyInt 0) None w) in
  let var2 := mkVar RealVariable "v3" "real" 64 in
  let w2 := snd (register_var format_16g_sample (ScopeStr "u") "c" "real" 64
                   PyNone None (run format_16g_sample cs w1)) in
  reachable format_16g_sample w
  /\ register_var format_16g_sample (ScopeStr "top") "c" "wire" 1 (PyInt 0)
       None w = (inr var1, w1)
  /\ register_var format_16g_sample (ScopeStr "u") "c" "real" 64 PyNone
       None (run format_16g_sample cs w1) = (inr var2, w2)
  /\ ident var1 <> ident var2.
Proof.
  cbv zeta.
  match goal with
  | |- ?A /\ ?B /\ ?C /\ _ =>
      assert (HA : A) by apply reachable_new_writer;
      assert (HB : B) by (vm_compute; reflexivity);
      assert (HC : C) by (vm_compute; reflexivity)
  end.
  split; [exact HA|]. split; [exact HB|]. split; [exact HC|].
  exact (auto_idents_never_repeat format_16g_sample _ _ _ _ _ _ _ _ _ _
           _ _ _ _ _ _ HA HB HC).
Defined.

(** X20.  A closed writer is inert under the calls that test [_closed]:
    any sequence of registrations, [change], [flush] and [close] calls
    leaves it exactly as it was. *)
Theorem closed_writer_inert format_16g (w : VCDWriter) (cs : list call) :
  _closed w = true -> forallb checks_closed cs = true ->
  run format_16g cs w = w.
Proof.
  intros Hc. induction cs as [|c cs IH]; intros Hcs; [reflexivity|].
  simpl in Hcs. apply andb_prop in Hcs as [Hh Ht].
  assert (E : exec format_16g c w = w).
  { destruct c; try discriminate; simpl.
    - now rewrite register_var_after_close.
    - unfold register_int. now rewrite register_var_after_close.
    - unfold register_real. now rewrite register_var_after_close.
    - unfold register_event. now rewrite register_var_after_close.
    - now rewrite change_after_close.
    - now rewrite flush_after_close.
    - now rewrite close_twice. }
  simpl. rewrite E. now apply IH.
Qed.

Lemma closed_writer_inert_witness :
  let w := run format_16g_sample
             [RegisterVar (ScopeStr "top") "clk" "wire" 1 (PyInt 0) None;
              Close (Some 3)] new_writer in
  let cs := [RegisterInt (ScopeStr "top") "n" 8 (PyInt 0) None;
             Change (mkVar ScalarVariable "v0" "wire" 1) 4 (PyInt 1);
             Flush (Some 9); Close None] in
  _closed w = true /\ forallb checks_closed cs = true
  /\ run format_16g_sample cs w = w.
Proof.
  cbv zeta.
  match goal with
  | |- ?A /\ ?B /\ _ =>
      assert (HA : A) by reflexivity; assert (HB : B) by reflexivity
  end.
  split; [exact HA|]. split; [exact HB|].
  exact (closed_writer_inert format_16g_sample _ _ HA HB).
Defined.

(** ** From registration to the header *)

Lemma with_scope_var_names_same (w : VCDWriter) :
  with_scope_var_names (_scope_var_names w) w = w.
Proof. now destruct w. Qed.

(** A failed [register_var] changes at most the name index. *)
Lemma register_var_inl format_16g scope name var_type size init id_opt w e w1 :
  register_var format_16g scope name var_type size init id_opt w
  = (inl e, w1) ->
  exists names, w1 = with_scope_var_names names w.
Proof.
  assert (Hsame : exists names, w = with_scope_var_names names w).
  { exists (_scope_var_names w). symmetry. apply with_scope_var_names_same. }
  unfold register_var, bind, gets.
  destruct (_closed w) eqn:Hc; [intros E; now injection E as _ <-|].
  destruct (_registering w) eqn:Hr; cbn [negb];
    [|intros E; now injection E as _ <-].
  destruct (Py.in_list var_type VAR_TYPES) eqn:Hvt; cbn [negb];
    [|intros E; now injection E as _ <-].
  destruct (get_scope_tuple_cases scope w) as [[tuple Et]|[Et|Et]];
    rewrite Et; [|intros E; now injection E as _ <-
                  |intros E; now injection E as _ <-].
  destruct (setdefault (_scope_var_names w) tuple) as [scope_names names']
    eqn:Esd.
  unfold modify at 1. cbv beta iota.
  destruct (Py.in_list name scope_names) eqn:Hn;
    [intros E; injection E as _ <-; now exists names'|].
  cbv beta iota.
  match goal with
  | |- context [change _ ?v 0 ?i ?s] =>
      set (var' := v); set (init' := i); set (w' := s)
  end.
  rewrite change_at_zero.
  destruct ((0 <? _prev_timestamp w') || _closed w');
    [intros E; injection E as _ <-; now exists names'|].
  destruct (format_value format_16g var' init') as [e'|line];
    [intros E; injection E as _ <-; now exists names'|].
  unfold modify, ret. cbv beta iota. discriminate.
Qed.

Lemma set_scope_type_effect scope scope_type (w : VCDWriter) :
  snd (set_scope_type scope scope_type w) = w
  \/ exists types, snd (set_scope_type scope scope_type w)
                   = with_scope_types types w.
Proof.
  unfold set_scope_type, bind, gets, modify, when, raise, ret.
  assert (Hrest : forall r : unit,
    snd (let (r0, w') := _get_scope_tuple scope w in
         match r0 with
         | inl e => (inl e, w')
         | inr x =>
             (inr tt,
              with_scope_types
                (Py.set Py.tuple_eqb (_scope_types w') x scope_type) w')
         end) = w
    \/ exists types,
         snd (let (r0, w') := _get_scope_tuple scope w in
              match r0 with
              | inl e => (inl e, w')
              | inr x =>
                  (inr tt,
                   with_scope_types
                     (Py.set Py.tuple_eqb (_scope_types w') x scope_type) w')
              end) = with_scope_types types w).
  { intros _.
    destruct (get_scope_tuple_cases scope w) as [[tuple Et]|[Et|Et]];
      rewrite Et; simpl; eauto. }
  destruct scope_type as [t|]; [|exact (Hrest tt)].
  destruct (negb (Py.in_list t SCOPE_TYPES)); [now left|exact (Hrest tt)].
Qed.

Lemma dump_off_registering (t : Z) (w : VCDWriter) :
  _registering w = true -> snd (dump_off t w) = with_dumping false w.
Proof.
  intros Hr. unfold dump_off, bind, gets, when, modify, ret. rewrite Hr.
  cbn [negb]. now rewrite andb_false_r.
Qed.

Lemma dump_on_registering (t : Z) (w : VCDWriter) :
  _registering w = true -> snd (dump_on t w) = with_dumping true w.
Proof.
  intros Hr. unfold dump_on, bind, gets, when, modify, ret. rewrite Hr.
  cbn [negb]. now rewrite andb_false_r.
Qed.

(** A call that leaves registration does what it does on the writer as
    [_finalize_registration] leaves it. *)
Lemma flush_finalizes (ts : option Z) (lines : list string) (w : VCDWriter) :
  _registering w = true -> _closed w = false ->
  _finalize_registration w = (inr tt, finalized lines w) ->
  flush ts w = flush ts (finalized lines w).
Proof.
  intros Hr Hc Efin. unfold flush, bind, gets, when.
  change (_closed (finalized lines w)) with (_closed w).
  rewrite Hc. unfold ret. cbv beta iota.
  change (_registering (finalized lines w)) with false.
  rewrite Hr. cbv iota. rewrite Efin. reflexivity.
Qed.

Lemma close_finalizes (ts : option Z) (lines : list string) (w : VCDWriter) :
  _registering w = true -> _closed w = false ->
  _finalize_registration w = (inr tt, finalized lines w) ->
  close ts w = close ts (finalized lines w).
Proof.
  intros Hr Hc Efin. rewrite !close_first by exact Hc.
  now rewrite (flush_finalizes ts lines w Hr Hc Efin).
Qed.

Lemma change_finalizes format_16g var (ts : Z) value (lines : list string)
      (w : VCDWriter) :
  ts <> 0 -> _registering w = true ->
  _finalize_registration w = (inr tt, finalized lines w) ->
  snd (change format_16g var ts value w) = w
  \/ change format_16g var ts value w
     = change format_16g var ts value (finalized lines w).
Proof.
  intros Hts Hr Efin. unfold change, bind, gets, lift, when.
  change (_closed (finalized lines w)) with (_closed w).
  change (_prev_timestamp (finalized lines w)) with (_prev_timestamp w).
  change (_registering (finalized lines w)) with false.
  destruct (ts <? _prev_timestamp w); [now left|].
  destruct (_closed w); [now left|].
  destruct (format_value format_16g var value) as [e|val_str]; [now left|].
  right. rewrite Hr. apply Z.eqb_neq in Hts. rewrite Hts. cbn [negb andb].
  rewrite Efin. reflexivity.
Qed.

Section Declared.

Variable format_16g : pyvalue -> string.
Variable line : string.

Lemma declared_same (w w' : VCDWriter) :
  _registering w' = _registering w ->
  _scope_var_strs w' = _scope_var_strs w ->
  _ofile w' = _ofile w ->
  declared line w -> declared line w'.
Proof.
  unfold declared, staged. intros -> -> ->. auto.
Qed.

(** After registration a written line stays written. *)
Lemma exec_declared_live (c : call) (w : VCDWriter) :
  sound w w -> _registering w = false -> In line (_ofile w) ->
  declared line (exec format_16g c w).
Proof.
  intros Hs Hr Hin.
  pose proof (exec_sound format_16g w c w Hs) as Hs'.
  unfold declared. rewrite (s_registering _ _ Hs' Hr).
  destruct (s_out _ _ Hs') as [ls ->]. apply in_or_app. now left.
Qed.

(** Leaving registration writes every staged line. *)
Lemma finalize_declared (w0 w : VCDWriter) :
  sound w0 w -> _registering w = true -> staged line w ->
  exists lines,
    _finalize_registration w = (inr tt, finalized lines w)
    /\ sound (finalized lines w) (finalized lines w)
    /\ In line (_ofile (finalized lines w)).
Proof.
  intros Hs Hr Hst.
  destruct (finalize_sound w0 w Hs Hr) as (lines & Efin & Hfin & Hvars).
  exists lines. split; [exact Efin|]. split; [exact (sound_rebase _ _ Hfin)|].
  simpl. apply in_or_app. right. apply var_lines_In. rewrite Hvars.
  now apply staged_in_staged_lines.
Qed.

Lemma register_var_declared scope name var_type size init id_opt
      (w : VCDWriter) :
  _registering w = true -> staged line w ->
  declared line
    (snd (register_var format_16g scope name var_type size init id_opt w)).
Proof.
  intros Hr Hst.
  destruct (register_var format_16g scope name var_type size init id_opt w)
    as [[e|var] w1] eqn:E; simpl.
  - apply register_var_inl in E as [names ->].
    apply (declared_same w); try reflexivity.
    unfold declared. now rewrite Hr.
  - apply register_var_inr in E
      as (tuple & l & _ & _ & _ & _ & _ & _ & ->).
    unfold declared, staged.
    cbn [_registering _scope_var_strs with_scope_var_names
         with_scope_var_strs with_next_var_id with_ident_values].
    rewrite Hr.
    destruct Hst as (scope0 & var_strs & Hg & Hin).
    destruct (list_eq_dec string_dec scope0 tuple) as [->|Hne].
    + eexists tuple, _. split.
      * apply append_at_get. apply setdefault_get.
      * apply in_or_app. left. unfold setdefault. now rewrite Hg.
    + exists scope0, var_strs. split; [|exact Hin].
      rewrite append_at_get_other by exact Hne.
      rewrite setdefault_get_other by exact Hne. exact Hg.
Qed.

Lemma exec_declared (w0 : VCDWriter) (c : call) (w : VCDWriter) :
  sound w0 w -> declared line w -> declared line (exec format_16g c w).
Proof.
  intros Hs Hd. destruct (_registering w) eqn:Hr.
  2: { apply exec_declared_live; [exact (sound_rebase _ _ Hs)|exact Hr|].
       unfold declared in Hd. now rewrite Hr in Hd. }
  assert (Hst : staged line w).
  { unfold declared in Hd. now rewrite Hr in Hd. }
  assert (Hc : _closed w = false).
  { destruct (_closed w) eqn:Hc; [|reflexivity].
    pose proof (s_closed_live _ _ Hs Hc). congruence. }
  destruct (finalize_declared w0 w Hs Hr Hst) as (lines & Efin & Hfin & Hin).
  destruct c; simpl.
  - destruct (set_scope_type_effect scope scope_type w) as [->|[types ->]];
      [exact Hd|].
    now apply (declared_same w).
  - now apply register_var_declared.
  - now apply register_var_declared.
  - now apply register_var_declared.
  - now apply register_var_declared.
  - destruct (Z.eq_dec timestamp 0) as [->|Hts].
    + rewrite change_at_zero.
      destruct ((0 <? _prev_timestamp w) || _closed w); [exact Hd|].
      destruct (format_value format_16g var value); [exact Hd|].
      now apply (declared_same w).
    + destruct (change_finalizes format_16g var timestamp value lines w
                  Hts Hr Efin) as [->| ->]; [exact Hd|].
      now apply (exec_declared_live (Change var timestamp value)).
  - rewrite dump_off_registering by exact Hr. now apply (declared_same w).
  - rewrite dump_on_registering by exact Hr. now apply (declared_same w).
  - rewrite (flush_finalizes timestamp lines w Hr Hc Efin).
    now apply (exec_declared_live (Flush timestamp)).
  - rewrite (close_finalizes timestamp lines w Hr Hc Efin).
    now apply (exec_declared_live (Close timestamp)).
Qed.

Lemma run_declared (w0 : VCDWriter) (cs : list call) (w : VCDWriter) :
  sound w0 w -> declared line w -> declared line (run format_16g cs w).
Proof.
  revert w. induction cs as [|c cs IH]; intros w Hs Hd; [exact Hd|].
  simpl. apply IH; [now apply exec_sound|exact (exec_declared w0 c w Hs Hd)].
Qed.

End Declared.

(** X21.  Every variable that [register_var] returned is declared in the
    output: whatever calls follow the registration, once the writer has
    left the registration phase its output holds the [$var] line of the
    variable, with the type, size and name given and the handle's
    ident. *)
Theorem registered_var_is_declared format_16g (w w1 : VCDWriter)
        (cs : list call) scope name var_type size init id_opt var :
  reachable format_16g w ->
  register_var format_16g scope name var_type size init id_opt w
  = (inr var, w1) ->
  _registering (run format_16g cs w1) = false ->
  In ("$var " ++ var_type ++ " " ++ Py.str size ++ " " ++ ident var ++ " "
              ++ name ++ " $end")
     (_ofile (run format_16g cs w1)).
Proof.
  intros Hw E Hr.
  assert (Hw1 : reachable format_16g w1).
  { replace w1
      with (run format_16g [RegisterVar scope name var_type size init id_opt]
              w).
    - now apply reachable_run.
    - simpl. now rewrite E. }
  set (line := "$var " ++ var_type ++ " " ++ Py.str size ++ " " ++ ident var
                       ++ " " ++ name ++ " $end").
  assert (Hd : declared line w1).
  { apply register_var_inr in E
      as (tuple & l & _ & _ & Hreg & _ & _ & _ & ->).
    unfold declared, staged.
    cbn [_registering _scope_var_strs with_scope_var_names
         with_scope_var_strs with_next_var_id with_ident_values].
    rewrite Hreg.
    eexists tuple, _. split.
    - apply append_at_get. apply setdefault_get.
    - apply in_or_app. right. now left. }
  pose proof (run_declared format_16g line w1 cs w1
                (reachable_is_sound _ _ Hw1) Hd) as H.
  unfold declared in H. now rewrite Hr in H.
Qed.

Lemma registered_var_is_declared_witness :
  let cs := [RegisterVar (ScopeStr "top") "b" "wire" 8 (PyInt 0) None;
             Change (mkVar ScalarVariable "v0" "wire" 1) 0 (PyInt 1);
             DumpOff 0;
             Change (mkVar ScalarVariable "v0" "wire" 1) 5 (PyInt 0)] in
  let var := mkVar ScalarVariable "v0" "wire" 1 in
  let w1 := snd (register_var format_16g_sample (ScopeStr "top") "a" "wire" 1
                   (PyInt 0) None new_writer) in
  reachable format_16g_sample new_writer
  /\ register_var format_16g_sample (ScopeStr "top") "a" "wire" 1 (PyInt 0)
       None new_writer = (inr var, w1)
  /\ _registering (run format_16g_sample cs w1) = false
  /\ In ("$var " ++ "wire" ++ " " ++ Py.str 1 ++ " " ++ ident var ++ " "
                 ++ "a" ++ " $end")
        (_ofile (run format_16g_sample cs w1)).
Proof.
  cbv zeta.
  match goal with
  | |- ?A /\ ?B /\ ?C /\ _ =>
      assert (HA : A) by apply (reachable_new_writer format_16g_sample []);
      assert (HB : B) by (vm_compute; reflexivity);
      assert (HC : C) by (vm_compute; reflexivity)
  end.
  split; [exact HA|]. split; [exact HB|]. split; [exact HC|].
  exact (registered_var_is_declared format_16g_sample _ _ _ _ _ _ _ _ _ _
           HA HB HC).
Defined.

(** The first [flush], in terms of the strings handed to [print]. *)
Lemma flush_header_vars format_16g (ts : option Z) (w : VCDWriter) :
  reachable format_16g w -> _registering w = true ->
  exists w', flush ts w = (inr tt, w')
             /\ var_lines (_ofile w') = staged_lines w.
Proof.
  intros Hw Hr. pose proof (reachable_is_sound _ _ Hw) as Hs.
  assert (Hc : _closed w = false).
  { destruct (_closed w) eqn:Hc; [|reflexivity].
    pose proof (s_closed_live _ _ Hs Hc). congruence. }
  destruct (finalize_sound w w Hs Hr) as (lines & Efin & Hfin & Hvars).
  rewrite (flush_finalizes ts lines w Hr Hc Efin).
  pose proof (flush_sound (finalized lines w) ts (finalized lines w)
                (sound_rebase _ _ Hfin)) as H.
  unfold wpx in H.
  destruct (flush ts (finalized lines w)) as [[e|[]] w'].
  - destruct H as (_ & _ & H). simpl in H. congruence.
  - destruct H as (Hs' & _). exists w'. split; [reflexivity|].
    rewrite (s_vars _ _ Hs' eq_refl). simpl.
    rewrite (s_reg_out _ _ Hs Hr). exact Hvars.
Qed.

(** X22.  When no call brings a newline in, the first [flush] writes the
    declarations in header order: the [$var] lines of the file are the
    staged lines, the scopes in sorted order and each scope's lines in
    the order of registration. *)
Theorem header_lists_staged_lines format_16g (ts : option Z)
        (w : VCDWriter) :
  (forall v, one_line (format_16g v) = true) ->
  reachable_clean format_16g w -> _registering w = true ->
  exists w', flush ts w = (inr tt, w')
             /\ var_lines (file_lines (_ofile w')) = staged_lines w.
Proof.
  intros Hfmt Hw Hr.
  destruct (flush_header_vars format_16g ts w
              (reachable_clean_reachable _ _ Hw) Hr) as (w' & E & Hv).
  exists w'. split; [exact E|].
  assert (Hw' : reachable_clean format_16g w').
  { replace w' with (run format_16g [Flush ts] w)
      by (simpl; now rewrite E).
    now apply reachable_clean_run. }
  now rewrite (reachable_clean_lines format_16g w' Hfmt Hw').
Qed.

Lemma header_lists_staged_lines_witness :
  let w := run format_16g_sample
             [RegisterVar (ScopeStr "b") "p" "wire" 1 PyNone None;
              RegisterVar (ScopeStr "a.c") "q" "wire" 4 PyNone None;
              RegisterVar (ScopeStr "b") "r" "real" 64 PyNone None;
              RegisterVar (ScopeStr "a") "s" "event" 1 PyNone None]
             new_writer in
  (forall v, one_line (format_16g_sample v) = true)
  /\ reachable_clean format_16g_sample w /\ _registering w = true
  /\ exists w', flush (Some 3) w = (inr tt, w')
                /\ var_lines (file_lines (_ofile w')) = staged_lines w.
Proof.
  cbv zeta.
  match goal with
  | |- ?A /\ ?B /\ ?C /\ _ =>
      assert (HA : A) by exact format_16g_sample_clean;
      assert (HB : B) by (apply reachable_clean_new_writer; reflexivity);
      assert (HC : C) by (vm_compute; reflexivity)
  end.
  split; [exact HA|]. split; [exact HB|]. split; [exact HC|].
  exact (header_lists_staged_lines format_16g_sample (Some 3) _ HA HB HC).
Defined.

(** X23.  When no call brings a newline in, no declaration is written
    after the header: once registration is over, the [$var] lines of the
    file are the same after any further calls. *)
Theorem no_declaration_after_header format_16g (w : VCDWriter)
        (cs : list call) :
  (forall v, one_line (format_16g v) = true) ->
  reachable_clean format_16g w -> forallb clean_call cs = true ->
  _registering w = false ->
  var_lines (file_lines (_ofile (run format_16g cs w)))
  = var_lines (file_lines (_ofile w)).
Proof.
  intros Hfmt Hw Hcs Hr.
  rewrite (reachable_clean_lines format_16g w Hfmt Hw).
  rewrite (reachable_clean_lines format_16g _ Hfmt
             (reachable_clean_run format_16g w cs Hw Hcs)).
  exact (s_vars _ _ (reachable_sound format_16g w cs
                       (reachable_clean_reachable _ _ Hw)) Hr).
Qed.

Lemma no_declaration_after_header_witness :
  let w := run format_16g_sample
             [RegisterVar (ScopeStr "top") "clk" "wire" 1 (PyInt 0) None;
              Flush None] new_writer in
  let cs := [RegisterVar (ScopeStr "top") "d" "wire" 1 (PyInt 0)
               (Some "$var ");
             Change (mkVar ScalarVariable "v0" "wire" 1) 2 (PyInt 1);
             Change (mkVar VectorVariable "$var " "wire" 8) 2 (PyStr "$var ");
             DumpOff 3; DumpOn 4; Close (Some 5)] in
  (forall v, one_line (format_16g_sample v) = true)
  /\ reachable_clean format_16g_sample w
  /\ forallb clean_call cs = true
  /\ _registering w = false
  /\ var_lines (file_lines (_ofile (run format_16g_sample cs w)))
     = var_lines (file_lines (_ofile w)).
Proof.
  cbv zeta.
  match goal with
  | |- ?A /\ ?B /\ ?C /\ ?D /\ _ =>
      assert (HA : A) by exact format_16g_sample_clean;
      assert (HB : B) by (apply reachable_clean_new_writer; reflexivity);
      assert (HC : C) by reflexivity;
      assert (HD : D) by (vm_compute; reflexivity)
  end.
  split; [exact HA|]. split; [exact HB|]. split; [exact HC|].
  split; [exact HD|].
  exact (no_declaration_after_header format_16g_sample _ _ HA HB HC HD).
Defined.

(** X24.  A successful [register_var] stages one line: under the scope
    of the call the staged lines are those of before, in order, followed
    by the new [$var] line; the lines of every other scope are as
    before. *)
Theorem register_var_stages_line format_16g (w w1 : VCDWriter)
        scope name var_type size init id_opt var tuple :
  register_var format_16g scope name var_type size init id_opt w
  = (inr var, w1) ->
  _get_scope_tuple scope w = (inr tuple, w) ->
  Py.get Py.tuple_eqb (_scope_var_strs w1) tuple
  = Some (match Py.get Py.tuple_eqb (_scope_var_strs w) tuple with
          | Some var_strs => var_strs
          | None => []
          end
          +++ ["$var " ++ var_type ++ " " ++ Py.str size ++ " " ++ ident var
                       ++ " " ++ name ++ " $end"])
  /\ forall tuple',
       tuple' <> tuple ->
       Py.get Py.tuple_eqb (_scope_var_strs w1) tuple'
       = Py.get Py.tuple_eqb (_scope_var_strs w) tuple'.
Proof.
  intros E Ht.
  apply register_var_inr in E
    as (tuple0 & l & Ht0 & _ & _ & _ & _ & _ & ->).
  rewrite Ht in Ht0. injection Ht0 as <-.
  cbn [_scope_var_strs with_scope_var_names with_scope_var_strs
       with_next_var_id with_ident_values].
  split.
  - rewrite (append_at_get _ _ _ _ (setdefault_get _ _)).
    unfold setdefault.
    now destruct (Py.get Py.tuple_eqb (_scope_var_strs w) tuple).
  - intros tuple' Hne.
    rewrite append_at_get_other by exact Hne.
    now rewrite setdefault_get_other by exact Hne.
Qed.

Lemma register_var_stages_line_witness :
  let w := run format_16g_sample
             [RegisterVar (ScopeStr "top") "a" "wire" 1 (PyInt 0) None]
             new_writer in
  let var := mkVar VectorVariable "v1" "reg" 8 in
  let w1 := snd (register_var format_16g_sample (ScopeStr "top") "b" "reg" 8
                   PyNone None w) in
  register_var format_16g_sample (ScopeStr "top") "b" "reg" 8 PyNone None w
  = (inr var, w1)
  /\ _get_scope_tuple (ScopeStr "top") w = (inr ["top"], w)
  /\ Py.get Py.tuple_eqb (_scope_var_strs w1) ["top"]
     = Some (match Py.get Py.tuple_eqb (_scope_var_strs w) ["top"] with
             | Some var_strs => var_strs
             | None => []
             end
             +++ ["$var " ++ "reg" ++ " " ++ Py.str 8 ++ " " ++ ident var
                          ++ " " ++ "b" ++ " $end"])
  /\ forall tuple',
       tuple' <> ["top"] ->
       Py.get Py.tuple_eqb (_scope_var_strs w1) tuple'
       = Py.get Py.tuple_eqb (_scope_var_strs w) tuple'.
Proof.
  cbv zeta.
  match goal with
  | |- ?A /\ ?B /\ _ =>
      assert (HA : A) by (vm_compute; reflexivity);
      assert (HB : B) by (vm_compute; reflexivity)
  end.
  split; [exact HA|]. split; [exact HB|].
  exact (register_var_stages_line format_16g_sample _ _ _ _ _ _ _ _ _ _
           HA HB).
Defined.

(** ** The cursor and the cache *)

Section Cursor.

Variable format_16g : pyvalue -> string.

Lemma prev_register_var scope name var_type size init id_opt (w : VCDWriter) :
  _prev_timestamp
    (snd (register_var format_16g scope name var_type size init id_opt w))
  = _prev_timestamp w.
Proof.
  destruct (register_var format_16g scope name var_type size init id_opt w)
    as [[e|var] w1] eqn:E; simpl.
  - now apply register_var_inl in E as [names ->].
  - now apply register_var_inr in E
      as (tuple & l & _ & _ & _ & _ & _ & _ & ->).
Qed.

Lemma prev_dump_off (t : Z) (w : VCDWriter) :
  Forall (fun kv => value_line (snd kv)) (_ident_values w) ->
  _prev_timestamp (snd (dump_off t w)) = _prev_timestamp w.
Proof.
  intros Hv. destruct (dump_off_effect t w Hv) as (lines & _ & E).
  unfold dump_off, bind, gets, when, modify, ret.
  destruct (_dumping w && negb (_registering w) && nonempty (_ident_values w));
    [rewrite E|]; reflexivity.
Qed.

Lemma prev_dump_on (t : Z) (w : VCDWriter) :
  _prev_timestamp (snd (dump_on t w)) = _prev_timestamp w.
Proof.
  unfold dump_on, bind, gets, when, modify, ret.
  destruct (negb (_dumping w) && negb (_registering w)
            && nonempty (_ident_values w)); [|reflexivity].
  unfold print, modify. rewrite dump_values_effect. reflexivity.
Qed.

Lemma prev_flush_live (ts : option Z) (w : VCDWriter) :
  _registering w = false ->
  _prev_timestamp (snd (flush ts w)) = _prev_timestamp w.
Proof.
  intros Hr. unfold flush, bind, gets, when, raise, ret, print, modify.
  destruct (_closed w); [reflexivity|]. cbv beta iota. rewrite Hr.
  cbv beta iota. destruct ts as [t|]; [|reflexivity].
  now destruct (_prev_timestamp w <? t).
Qed.

Lemma prev_flush (ts : option Z) (w0 w : VCDWriter) :
  sound w0 w -> _prev_timestamp (snd (flush ts w)) = _prev_timestamp w.
Proof.
  intros Hs. destruct (_registering w) eqn:Hr;
    [|now apply prev_flush_live].
  destruct (_closed w) eqn:Hc.
  { pose proof (s_closed_live _ _ Hs Hc). congruence. }
  destruct (finalize_sound w0 w Hs Hr) as (lines & Efin & _ & _).
  rewrite (flush_finalizes ts lines w Hr Hc Efin).
  now rewrite prev_flush_live.
Qed.

Lemma prev_close (ts : option Z) (w0 w : VCDWriter) :
  sound w0 w -> _prev_timestamp (snd (close ts w)) = _prev_timestamp w.
Proof.
  intros Hs. destruct (_closed w) eqn:Hc.
  - now rewrite close_twice.
  - rewrite close_first by exact Hc.
    pose proof (prev_flush ts w0 w Hs) as H.
    destruct (flush ts w) as [[e|[]] w']; exact H.
Qed.

Lemma prev_exec (c : call) (w0 w : VCDWriter) :
  sound w0 w -> is_change c = false ->
  _prev_timestamp (exec format_16g c w) = _prev_timestamp w.
Proof.
  intros Hs Hc. destruct c; try discriminate; simpl.
  - now destruct (set_scope_type_effect scope scope_type w)
      as [->|[types ->]].
  - apply prev_register_var.
  - apply prev_register_var.
  - apply prev_register_var.
  - apply prev_register_var.
  - apply prev_dump_off. exact (s_cache_vals _ _ Hs).
  - apply prev_dump_on.
  - exact (prev_flush timestamp w0 w Hs).
  - exact (prev_close timestamp w0 w Hs).
Qed.

Lemma prev_run (cs : list call) (w0 w : VCDWriter) :
  sound w0 w -> forallb (fun c => negb (is_change c)) cs = true ->
  _prev_timestamp (run format_16g cs w) = _prev_timestamp w.
Proof.
  revert w. induction cs as [|c cs IH]; intros w Hs Hcs; [reflexivity|].
  simpl in Hcs. apply andb_prop in Hcs as [Hc Hcs].
  apply negb_true_iff in Hc. simpl.
  rewrite IH; [|now apply exec_sound|exact Hcs].
  exact (prev_exec c w0 w Hs Hc).
Qed.

End Cursor.

(** X25.  Only [change] moves the timestamp cursor: a run of calls none
    of which is a [change] -- registrations, [set_scope_type],
    [dump_off], [dump_on], [flush] and [close], whatever timestamps they
    carry and whether they raise or not -- leaves the cursor where it
    was. *)
Theorem cursor_moved_only_by_change format_16g (w : VCDWriter)
        (cs : list call) :
  reachable format_16g w ->
  forallb (fun c => negb (is_change c)) cs = true ->
  _prev_timestamp (run format_16g cs w) = _prev_timestamp w.
Proof.
  intros Hw. apply (prev_run format_16g cs w w).
  exact (reachable_is_sound _ _ Hw).
Qed.

Lemma cursor_moved_only_by_change_witness :
  let w := run format_16g_sample
             [RegisterVar (ScopeStr "top") "clk" "wire" 1 (PyInt 0) None;
              Change (mkVar ScalarVariable "v0" "wire" 1) 3 (PyInt 1)]
             new_writer in
  let cs := [Flush (Some 10); DumpOff 20; DumpOn 30;
             RegisterVar (ScopeStr "top") "d" "wire" 1 (PyInt 0) None;
             Close (Some 40)] in
  reachable format_16g_sample w
  /\ forallb (fun c => negb (is_change c)) cs = true
  /\ _prev_timestamp (run format_16g_sample cs w) = _prev_timestamp w.
Proof.
  cbv zeta.
  match goal with
  | |- ?A /\ ?B /\ _ =>
      assert (HA : A) by apply reachable_new_writer;
      assert (HB : B) by reflexivity
  end.
  split; [exact HA|]. split; [exact HB|].
  exact (cursor_moved_only_by_change format_16g_sample _ _ HA HB).
Defined.

Lemma keys_set_in {V} (d : list (string * V)) (k : string) (v : V) :
  In k (Py.keys d) -> Py.keys (Py.set String.eqb d k v) = Py.keys d.
Proof.
  induction d as [|[k0 v0] d IH]; simpl; [tauto|].
  destruct (String.eqb_spec k k0) as [->|Hne]; [reflexivity|].
  intros [H|H]; [congruence|]. simpl. f_equal. now apply IH.
Qed.

(** X26.  A [change] at timestamp 0 that returns writes nothing, in any
    phase: it only stores the encoded value as the last value of the
    variable's ident.  The values of the other idents stay, and for an
    ident already in the cache the order of the cache, which is the order
    of the dump blocks, stays as well. *)
Theorem change_at_zero_only_caches format_16g (var : VarHandle)
        (value : pyvalue) (w w' : VCDWriter) :
  change format_16g var 0 value w = (inr tt, w') ->
  exists line,
    format_value format_16g var value = inr line
    /\ w' = with_ident_values (_ident_values w') w
    /\ Py.get String.eqb (_ident_values w') (ident var) = Some line
    /\ (forall id, id <> ident var ->
                   Py.get String.eqb (_ident_values w') id
                   = Py.get String.eqb (_ident_values w) id)
    /\ (In (ident var) (Py.keys (_ident_values w)) ->
        Py.keys (_ident_values w') = Py.keys (_ident_values w)).
Proof.
  rewrite change_at_zero.
  destruct ((0 <? _prev_timestamp w) || _closed w); [discriminate|].
  destruct (format_value format_16g var value) as [e|line]; [discriminate|].
  intros E. injection E as <-. exists line.
  cbn [_ident_values with_ident_values].
  split; [reflexivity|]. split; [reflexivity|].
  split; [apply (get_set_eq _ String.eqb_eq)|].
  split; [intros id Hne; now apply (get_set_other _ String.eqb_eq)|].
  apply keys_set_in.
Qed.

Lemma change_at_zero_only_caches_witness :
  let w := run format_16g_sample
             [RegisterVar (ScopeStr "top") "a" "wire" 1 (PyInt 0) None;
              RegisterVar (ScopeStr "top") "b" "wire" 8 (PyInt 5) None;
              Flush None] new_writer in
  let var := mkVar ScalarVariable "v0" "wire" 1 in
  let w' := snd (change format_16g_sample var 0 (PyStr "z") w) in
  change format_16g_sample var 0 (PyStr "z") w = (inr tt, w')
  /\ exists line,
       format_value format_16g_sample var (PyStr "z") = inr line
       /\ w' = with_ident_values (_ident_values w') w
       /\ Py.get String.eqb (_ident_values w') (ident var) = Some line
       /\ (forall id, id <> ident var ->
                      Py.get String.eqb (_ident_values w') id
                      = Py.get String.eqb (_ident_values w) id)
       /\ (In (ident var) (Py.keys (_ident_values w)) ->
           Py.keys (_ident_values w') = Py.keys (_ident_values w)).
Proof.
  cbv zeta.
  match goal with
  | |- ?A /\ _ => assert (HA : A) by (vm_compute; reflexivity)
  end.
  split; [exact HA|].
  exact (change_at_zero_only_caches format_16g_sample _ _ _ _ HA).
Defined.
